(** * OAuth 2.1 authorization-code + PKCE demo (04-chatgpt-app-auth)

    A shallow embedding of the authorization server (oauth.ts, store.ts,
    server.ts, client-metadata.ts), of the shared helpers (pkce.ts, scopes.ts,
    jwt.ts) and of the resource-server guard (app/mcp/auth.ts, app/mcp/route.ts),
    followed by the properties the specification states about them.

    Conventions.
    - A JavaScript string is a Rocq [string]: the sequence of its code units,
      taken in the Latin-1 range (what an HTTP header value can hold).
    - [undefined] / [null] are [None]; a thrown exception is [Throw].
    - Module-level mutable maps (authCodesByCode, clientsById, the metadata
      cache, process.env) are explicit [gmap] states threaded through calls.
    - [Date.now()], random identifiers and the outcome of a network fetch are
      inputs of the function that reads them. *)

From Stdlib Require Import ZArith NArith Ascii String List Lia Bool.
From stdpp Require Import base option list gmap sets strings sorting.

Local Open Scope Z_scope.
Set Warnings "-register-all".


(** ** JavaScript strings *)

Module Js.

Definition code (c : ascii) : N := N_of_ascii c.

(** ECMAScript LineTerminator: LF, CR (U+2028 and U+2029 lie outside Latin-1). *)
Definition isLineTerminator (c : ascii) : bool :=
  (code c =? 10)%N || (code c =? 13)%N.

(** ECMAScript WhiteSpace: TAB, VT, FF, SP, NBSP. *)
Definition isWhiteSpace (c : ascii) : bool :=
  (code c =? 9)%N || (code c =? 11)%N || (code c =? 12)%N
  || (code c =? 32)%N || (code c =? 160)%N.

(** The class [\s] of a regular expression, also what [trim] strips. *)
Definition isSpace (c : ascii) : bool := isWhiteSpace c || isLineTerminator c.

Definition isEmpty (s : string) : bool :=
  match s with EmptyString => true | String _ _ => false end.

(** Truthiness of a string value: [Boolean(s)]. *)
Definition truthy (s : string) : bool := negb (isEmpty s).

Fixpoint trimStart (s : string) : string :=
  match s with
  | EmptyString => EmptyString
  | String c r => if isSpace c then trimStart r else s
  end.

(** Removes the longest suffix of characters satisfying [p]. *)
Fixpoint dropEndWhile (p : ascii -> bool) (s : string) : string :=
  match s with
  | EmptyString => EmptyString
  | String c r =>
      let r' := dropEndWhile p r in
      if isEmpty r' && p c then EmptyString else String c r'
  end.

Definition trimEnd (s : string) : string := dropEndWhile isSpace s.

Definition trim (s : string) : string := trimEnd (trimStart s).

(** [s.split(/\s+/)]: maximal runs of [\s] separate the pieces; a leading or
    trailing run leaves an empty piece, the empty string gives one empty piece. *)
Fixpoint splitSpaces_go (afterSpace : bool) (s : string) : list string :=
  match s with
  | EmptyString => [EmptyString]
  | String c r =>
      if isSpace c then
        if afterSpace then splitSpaces_go true r
        else EmptyString :: splitSpaces_go true r
      else
        match splitSpaces_go false r with
        | w :: ws => String c w :: ws
        | [] => [String c EmptyString]
        end
  end.

Definition splitSpaces (s : string) : list string := splitSpaces_go false s.

(** [s.split(",")]. *)
Fixpoint splitOn (sep : ascii) (s : string) : list string :=
  match s with
  | EmptyString => [EmptyString]
  | String c r =>
      if Ascii.eqb c sep then EmptyString :: splitOn sep r
      else
        match splitOn sep r with
        | w :: ws => String c w :: ws
        | [] => [String c EmptyString]
        end
  end.

(** [parts.join(sep)]. *)
Fixpoint join (sep : string) (parts : list string) : string :=
  match parts with
  | [] => EmptyString
  | [p] => p
  | p :: ps => p +:+ sep +:+ join sep ps
  end.

(** Simple case mapping of one code unit. *)
Definition lowerChar (c : ascii) : ascii :=
  let n := code c in
  if ((65 <=? n) && (n <=? 90))%N then ascii_of_N (n + 32)
  else if ((192 <=? n) && (n <=? 222) && negb (n =? 215))%N then ascii_of_N (n + 32)
  else c.

Fixpoint toLowerCase (s : string) : string :=
  match s with
  | EmptyString => EmptyString
  | String c r => String (lowerChar c) (toLowerCase r)
  end.

(** Canonicalize of a case-insensitive (non-unicode) regular expression,
    on the ASCII range: a code unit of 128 or more never canonicalizes to
    an ASCII one, so it is left as it is. *)
Definition canonicalize (c : ascii) : ascii :=
  let n := code c in
  if ((97 <=? n) && (n <=? 122))%N then ascii_of_N (n - 32) else c.

Fixpoint canonicalizeAll (s : string) : string :=
  match s with
  | EmptyString => EmptyString
  | String c r => String (canonicalize c) (canonicalizeAll r)
  end.

Fixpoint all (p : ascii -> bool) (s : string) : bool :=
  match s with
  | EmptyString => true
  | String c r => p c && all p r
  end.

Fixpoint last (s : string) : option ascii :=
  match s with
  | EmptyString => None
  | String c EmptyString => Some c
  | String _ r => last r
  end.

(** [s.replaceAll(c, by)] for a one-character pattern. *)
Fixpoint replaceChar (c : ascii) (by_ : string) (s : string) : string :=
  match s with
  | EmptyString => EmptyString
  | String d r =>
      (if Ascii.eqb d c then by_ else String d EmptyString) +:+ replaceChar c by_ r
  end.

(** Array.prototype.includes / Set.prototype.has on strings. *)
Definition includes (l : list string) (x : string) : bool :=
  bool_decide (x ∈ l).

(** [new Set(l)] keeps the first occurrence of each element, in order. *)
Fixpoint dedupe (l : list string) : list string :=
  match l with
  | [] => []
  | x :: r => x :: filter (λ y, y ≠ x) (dedupe r)
  end.

(** [l.sort()] on strings: ascending by code units. *)
Definition sort (l : list string) : list string := merge_sort String.le l.

End Js.

(** ** Results of calls that may throw *)

Inductive outcome (A : Type) : Type :=
  | Return (a : A)
  | Throw (message : string).
Arguments Return {A} a.
Arguments Throw {A} message.

(** ** External interfaces

    Node's crypto module, the jsonwebtoken package and the WHATWG URL parser
    are dependencies of the repository; the code calls them through the
    operations below. *)

(** A byte is a number below 256; a Buffer is a list of bytes. *)
Definition Buffer := list N.

Class Crypto := {
  (** [crypto.createHash("sha256").update(bytes).digest()] *)
  sha256_digest : Buffer -> Buffer
}.

(** ** shared/pkce.ts *)

Module Pkce.

(** [Buffer.from(s)]: the UTF-8 encoding of the code units of [s]. *)
Fixpoint utf8 (s : string) : Buffer :=
  match s with
  | EmptyString => []
  | String c r =>
      let n := Js.code c in
      if (n <? 128)%N then n :: utf8 r
      else (192 + n / 64)%N :: (128 + n mod 64)%N :: utf8 r
  end.

Definition base64Char (n : N) : ascii :=
  if (n <? 26)%N then ascii_of_N (65 + n)
  else if (n <? 52)%N then ascii_of_N (97 + (n - 26))
  else if (n <? 62)%N then ascii_of_N (48 + (n - 52))
  else if (n =? 62)%N then "+"%char
  else "/"%char.

(** [buf.toString("base64")], with padding. *)
Fixpoint base64 (bs : Buffer) : string :=
  match bs with
  | [] => EmptyString
  | [a] =>
      String (base64Char (a / 4))
        (String (base64Char ((a mod 4) * 16)) "==")
  | [a; b] =>
      String (base64Char (a / 4))
        (String (base64Char ((a mod 4) * 16 + b / 16))
           (String (base64Char ((b mod 16) * 4)) "="))
  | a :: b :: c :: r =>
      String (base64Char (a / 4))
        (String (base64Char ((a mod 4) * 16 + b / 16))
           (String (base64Char ((b mod 16) * 4 + c / 64))
              (String (base64Char (c mod 64)) (base64 r))))
  end%N.

Definition base64urlEncode (input : Buffer) : string :=
  Js.dropEndWhile (fun c => Ascii.eqb c "="%char)
    (Js.replaceChar "/"%char "_"
       (Js.replaceChar "+"%char "-" (base64 input))).

Section WithCrypto.
Context `{Crypto}.

Definition sha256 (input : string) : Buffer := sha256_digest (utf8 input).

Definition computeS256CodeChallenge (codeVerifier : string) : string :=
  base64urlEncode (sha256 codeVerifier).

End WithCrypto.

(** [crypto.timingSafeEqual]: a RangeError on buffers of different byte
    length, otherwise whether the two hold the same bytes. *)
Definition timingSafeEqual (a b : Buffer) : outcome bool :=
  if bool_decide (length a = length b)
  then Return (bool_decide (a = b))
  else Throw "Input buffers must have the same byte length".

Definition constantTimeEqual (a b : string) : outcome bool :=
  let aBuf := utf8 a in
  let bBuf := utf8 b in
  if negb (bool_decide (length aBuf = length bBuf)) then Return false
  else timingSafeEqual aBuf bBuf.

End Pkce.

(** ** JSON values

    What [JSON.parse] and the body parsers produce, and what a JWT payload
    holds. Numbers are taken to be integers (timestamps in seconds). An
    object is the list of its own properties, each key once. *)

Inductive json : Type :=
  | JNull
  | JBool (b : bool)
  | JNum (n : Z)
  | JStr (s : string)
  | JArr (items : list json)
  | JObj (fields : list (string * json)).

Fixpoint assoc (key : string) (fields : list (string * json)) : option json :=
  match fields with
  | [] => None
  | (k, v) :: rest => if String.eqb k key then Some v else assoc key rest
  end.

(** Property access [v.key] (or [v?.key]); [undefined] on anything that is
    not an object holding the key. *)
Definition prop (v : option json) (key : string) : option json :=
  match v with
  | Some (JObj fields) => assoc key fields
  | _ => None
  end.

(** [typeof v === "string" ? v : undefined] *)
Definition asString (v : option json) : option string :=
  match v with
  | Some (JStr s) => Some s
  | _ => None
  end.

(** [v === s] for a string [s]: no conversion, so only a string can be equal. *)
Definition strictEqStr (v : option json) (s : string) : bool :=
  match v with
  | Some (JStr t) => String.eqb t s
  | _ => false
  end.

(** [!v] on a parsed value. *)
Definition falsy (v : json) : bool :=
  match v with
  | JNull | JBool false | JNum 0 | JStr EmptyString => true
  | _ => false
  end.

(** [Array.isArray(v) ? v : null] *)
Definition asArray (v : option json) : option (list json) :=
  match v with
  | Some (JArr items) => Some items
  | _ => None
  end.

(** ** shared/scopes.ts *)

Module Scopes.

Definition SCOPES_SUPPORTED : list string :=
  ["profile:read"; "notes:read"; "notes:write"].

(** The argument is [scope ?? ""]: an absent scope is the empty string. *)
Definition parseScopeParam (scope : option string) : list string :=
  filter (fun s => Is_true (Js.truthy s))
    (map Js.trim (Js.splitSpaces (default EmptyString scope))).

Definition normalizeScopes (scopes : list string) : list string :=
  Js.sort (Js.dedupe (filter (fun s => Is_true (Js.truthy s)) scopes)).

Definition formatScopeParam (scopes : list string) : string :=
  Js.join " " (normalizeScopes scopes).

Definition isSubsetOfSupportedScopes (requestedScopes : list string) : bool :=
  forallb (fun s => Js.includes SCOPES_SUPPORTED s) requestedScopes.

Definition scopeClaimToSet (scopeClaim : option json) : gset string :=
  match asString scopeClaim with
  | None => ∅
  | Some s => list_to_set (parseScopeParam (Some s))
  end.

Definition hasAllScopes (granted : gset string) (required : list string) : bool :=
  forallb (fun s => bool_decide (s ∈ granted)) required.

End Scopes.

(** ** The jsonwebtoken package

    [jwt.sign] and [jwt.verify] as shared/jwt.ts calls them. Encoding and the
    HMAC are those of the jws package, behind [Jose]; the claim checks that
    [verify] performs for the options it is given are written out. *)

Class Jose := {
  (** The header algorithm and the payload of a compact token; [None] when
      the token does not have three well-formed parts. A payload that is not
      a JSON object stays a string. *)
  jws_decode : string -> option (string * json);
  (** [jws.verify(token, alg, secret)] *)
  jws_verify : string -> string -> string -> bool;
  (** [jws.sign] of a payload under an algorithm and a secret. *)
  jws_sign : string -> json -> string -> string
}.

Module Jsonwebtoken.

Record VerifyOptions := {
  algorithms : list string;
  issuer : string;
  audience : string
}.

Section WithJose.
Context `{Jose}.

Definition sign (payload : json) (secret : string) (algorithm : string) : string :=
  jws_sign algorithm payload secret.

(** Not-before and expiry, each only when the claim is present. *)
Definition checkNbf (payload : json) (clockTimestamp : Z) : outcome unit :=
  match prop (Some payload) "nbf" with
  | None => Return tt
  | Some (JNum nbf) =>
      if nbf >? clockTimestamp then Throw "jwt not active" else Return tt
  | Some _ => Throw "invalid nbf value"
  end.

Definition checkExp (payload : json) (clockTimestamp : Z) : outcome unit :=
  match prop (Some payload) "exp" with
  | None => Return tt
  | Some (JNum exp) =>
      if clockTimestamp >=? exp then Throw "jwt expired" else Return tt
  | Some _ => Throw "invalid exp value"
  end.

(** [if (options.audience)]: an empty option switches the check off. The
    token's [aud] is one value or an array of values; one of them has to be
    the expected string. *)
Definition audienceMatches (payload : json) (expected : string) : bool :=
  let target :=
    match prop (Some payload) "aud" with
    | Some (JArr items) => map Some items
    | other => [other]
    end in
  existsb (fun t => strictEqStr t expected) target.

Definition checkAudience (payload : json) (options : VerifyOptions) : outcome unit :=
  if Js.truthy (audience options) then
    if audienceMatches payload (audience options) then Return tt
    else Throw "jwt audience invalid"
  else Return tt.

(** [if (options.issuer)]: likewise. *)
Definition checkIssuer (payload : json) (options : VerifyOptions) : outcome unit :=
  if Js.truthy (issuer options) then
    if strictEqStr (prop (Some payload) "iss") (issuer options)
    then Return tt
    else Throw "jwt issuer invalid"
  else Return tt.

Definition verify (token secret : string) (options : VerifyOptions)
    (clockTimestamp : Z) : outcome json :=
  if Js.isEmpty token then Throw "jwt must be provided" else
  match jws_decode token with
  | None => Throw "jwt malformed"
  | Some (alg, payload) =>
      if Js.isEmpty secret then Throw "secret or public key must be provided" else
      if negb (Js.includes (algorithms options) alg) then Throw "invalid algorithm" else
      if negb (jws_verify token alg secret) then Throw "invalid signature" else
      match checkNbf payload clockTimestamp with
      | Throw m => Throw m
      | Return _ =>
      match checkExp payload clockTimestamp with
      | Throw m => Throw m
      | Return _ =>
      match checkAudience payload options with
      | Throw m => Throw m
      | Return _ =>
      match checkIssuer payload options with
      | Throw m => Throw m
      | Return _ => Return payload
      end end end end
  end.

End WithJose.

End Jsonwebtoken.

(** ** shared/jwt.ts *)

Module Jwt.

Record SignParams := {
  sp_issuer : string;
  sp_subject : string;
  sp_audience : string;
  sp_scope : string;
  sp_name : option string;
  sp_secret : string;
  sp_ttlSec : Z
}.

Record Signed := {
  token : string;
  expiresIn : Z;
  claims : json
}.

Record VerifyParams := {
  secret : string;
  issuer : string;
  audience : string
}.

Section WithJose.
Context `{Jose}.

(** [now] is [Date.now()], in milliseconds. *)
Definition signAccessToken (now : Z) (params : SignParams) : Signed :=
  let nowSec := now / 1000 in
  let exp := nowSec + sp_ttlSec params in
  let claims :=
    JObj ([("iss", JStr (sp_issuer params));
           ("sub", JStr (sp_subject params));
           ("aud", JStr (sp_audience params));
           ("iat", JNum nowSec);
           ("exp", JNum exp);
           ("scope", JStr (sp_scope params))]
          ++ match sp_name params with
             | Some n => if Js.truthy n then [("name", JStr n)] else []
             | None => []
             end) in
  let token := Jsonwebtoken.sign claims (sp_secret params) "HS256" in
  {| token := token; expiresIn := sp_ttlSec params; claims := claims |}.

Definition verifyAccessToken (now : Z) (token : string) (params : VerifyParams)
    : outcome json :=
  match Jsonwebtoken.verify token (secret params)
          {| Jsonwebtoken.algorithms := ["HS256"];
             Jsonwebtoken.issuer := issuer params;
             Jsonwebtoken.audience := audience params |}
          (now / 1000) with
  | Throw m => Throw m
  | Return decoded =>
      if falsy decoded || bool_decide (is_Some (asString (Some decoded)))
      then Throw "Invalid token payload" else
      let payload := decoded in
      match prop (Some payload) "sub" with
      | Some (JStr sub) =>
          if Js.isEmpty sub then Throw "Token missing sub" else
          match prop (Some payload) "scope" with
          | Some (JStr _) =>
              match prop (Some payload) "iss" with
              | Some (JStr _) => Return payload
              | _ => Throw "Token missing iss"
              end
          | _ => Throw "Token missing scope"
          end
      | _ => Throw "Token missing sub"
      end
  end.

End WithJose.

End Jwt.

(** ** auth-server/config.ts *)

Record AuthServerConfig := {
  authPort : Z;
  cfg_issuer : string;
  mcpResource : string;
  jwtSecret : string;
  accessTokenTtlSec : Z;
  authCodeTtlSec : Z;
  allowedRedirectUris : gset string;
  allowedClientMetadataHosts : gset string
}.

(** ** auth-server/store.ts *)

Module Store.

Record DemoUser := {
  id : string;
  username : string;
  password : string;
  displayName : string
}.

(** [token_endpoint_auth_method] has the single value "none". *)
Record OAuthClient := {
  client_id : string;
  client_name : string;
  redirect_uris : list string;
  created_at : Z
}.

(** [code_challenge_method] has the single value "S256". *)
Record AuthCodeRecord := {
  code : string;
  rec_client_id : string;
  redirect_uri : string;
  resource : string;
  scope : string;
  code_challenge : string;
  user_id : string;
  user_name : option string;
  rec_created_at : Z;
  expires_at : Z;
  used : bool
}.

Definition set_used (rec : AuthCodeRecord) (b : bool) : AuthCodeRecord :=
  {| code := code rec; rec_client_id := rec_client_id rec;
     redirect_uri := redirect_uri rec; resource := resource rec;
     scope := scope rec; code_challenge := code_challenge rec;
     user_id := user_id rec; user_name := user_name rec;
     rec_created_at := rec_created_at rec; expires_at := expires_at rec;
     used := b |}.

(** The three module-level maps. *)
Record State := {
  usersByUsername : gmap string DemoUser;
  clientsById : gmap string OAuthClient;
  authCodesByCode : gmap string AuthCodeRecord
}.

Definition with_clients (st : State) (m : gmap string OAuthClient) : State :=
  {| usersByUsername := usersByUsername st; clientsById := m;
     authCodesByCode := authCodesByCode st |}.

Definition with_codes (st : State) (m : gmap string AuthCodeRecord) : State :=
  {| usersByUsername := usersByUsername st; clientsById := clientsById st;
     authCodesByCode := m |}.

Definition alex : DemoUser :=
  {| id := "u_123"; username := "alex"; password := "password";
     displayName := "Alex" |}.

Definition initial : State :=
  {| usersByUsername := {[ "alex" := alex ]};
     clientsById := ∅;
     authCodesByCode := ∅ |}.

(** [explicit_id] is [params.client_id]; [uuid] is the value of
    [crypto.randomUUID().replace(/-/g, "")] and [now] that of [Date.now()],
    each read only on the path that needs it. *)
Definition createClient (uuid : string) (now : Z)
    (explicit_id : option string) (name : string) (uris : list string)
    (st : State) : OAuthClient * State :=
  let cid := default ("c_" +:+ uuid) explicit_id in
  let existing := clientsById st !! cid in
  let client :=
    {| client_id := cid; client_name := name; redirect_uris := uris;
       created_at := match existing with
                     | Some e => created_at e
                     | None => now
                     end |} in
  (client, with_clients st (<[cid := client]> (clientsById st))).

Definition findClient (cid : string) (st : State) : option OAuthClient :=
  clientsById st !! cid.

Definition saveAuthCode (record : AuthCodeRecord) (st : State) : State :=
  with_codes st (<[code record := record]> (authCodesByCode st)).

Definition findAuthCode (c : string) (st : State) : option AuthCodeRecord :=
  authCodesByCode st !! c.

Definition markAuthCodeUsed (c : string) (st : State) : State :=
  match authCodesByCode st !! c with
  | None => st
  | Some rec => with_codes st (<[c := set_used rec true]> (authCodesByCode st))
  end.

End Store.

(** ** auth-server/oauth.ts *)

Module OAuth.
Import Store.

Inductive OAuthErrorCode := invalid_request | unauthorized_client | invalid_grant.

Definition errorName (e : OAuthErrorCode) : string :=
  match e with
  | invalid_request => "invalid_request"
  | unauthorized_client => "unauthorized_client"
  | invalid_grant => "invalid_grant"
  end.

Record OAuthError := {
  error : OAuthErrorCode;
  error_description : string
}.

Definition firstString (v : option json) : option string :=
  match v with
  | Some (JStr s) => Some s
  | Some (JArr (JStr s :: _)) => Some s
  | _ => None
  end.

Record ValidatedAuthorizeRequest := {
  req_response_type : string;
  req_client_id : string;
  req_redirect_uri : string;
  req_scope : string;
  req_state : string;
  req_code_challenge : string;
  req_code_challenge_method : string;
  req_resource : string;
  req_scopes : list string
}.

Inductive ValidateResult :=
  | ValidateOk (request : ValidatedAuthorizeRequest) (client : OAuthClient)
  | ValidateErr (err : OAuthError).

Definition fail (e : OAuthErrorCode) (d : string) : ValidateResult :=
  ValidateErr {| error := e; error_description := d |}.

(** [!v] for [v : string | undefined]. *)
Definition missing (v : option string) : bool :=
  match v with
  | Some s => Js.isEmpty s
  | None => true
  end.

Definition validateAuthorizeRequest (query : json) (config : AuthServerConfig)
    (client : option OAuthClient) : ValidateResult :=
  let get k := firstString (prop (Some query) k) in
  let response_type := get "response_type" in
  let client_id := get "client_id" in
  let redirect_uri := get "redirect_uri" in
  let scope := default EmptyString (get "scope") in
  let state := default EmptyString (get "state") in
  let code_challenge := get "code_challenge" in
  let code_challenge_method := get "code_challenge_method" in
  let resource := get "resource" in
  if negb (bool_decide (response_type = Some "code")) then
    fail invalid_request "response_type must be code"
  else if missing client_id || missing redirect_uri || missing code_challenge
          || missing code_challenge_method || missing resource then
    fail invalid_request "Missing required parameters"
  else
    match client with
    | None => fail unauthorized_client "Unknown client_id"
    | Some cl =>
        let client_id := default EmptyString client_id in
        let redirect_uri := default EmptyString redirect_uri in
        let code_challenge := default EmptyString code_challenge in
        let resource := default EmptyString resource in
        if negb (Js.includes (redirect_uris cl) redirect_uri) then
          fail invalid_request "redirect_uri not allowed for this client"
        else if negb (bool_decide (code_challenge_method = Some "S256")) then
          fail invalid_request "code_challenge_method must be S256"
        else if negb (bool_decide (resource = mcpResource config)) then
          fail invalid_request "resource must match MCP_RESOURCE"
        else
          let requestedScopes :=
            Scopes.normalizeScopes (Scopes.parseScopeParam (Some scope)) in
          if bool_decide (length requestedScopes = 0%nat) then
            fail invalid_request "scope is required"
          else if negb (Scopes.isSubsetOfSupportedScopes requestedScopes) then
            fail invalid_request "Requested scope is not supported"
          else
            ValidateOk
              {| req_response_type := "code";
                 req_client_id := client_id;
                 req_redirect_uri := redirect_uri;
                 req_scope := Js.join " " requestedScopes;
                 req_state := state;
                 req_code_challenge := code_challenge;
                 req_code_challenge_method := "S256";
                 req_resource := resource;
                 req_scopes := requestedScopes |}
              cl
    end.

(** [uuid] is [crypto.randomUUID().replace(/-/g, "")], [now] is [Date.now()]. *)
Definition issueAuthorizationCode (uuid : string) (now : Z)
    (config : AuthServerConfig) (request : ValidatedAuthorizeRequest)
    (user : DemoUser) (st : State) : string * State :=
  let c := "ac_" +:+ uuid in
  let record :=
    {| code := c;
       rec_client_id := req_client_id request;
       redirect_uri := req_redirect_uri request;
       resource := req_resource request;
       scope := req_scope request;
       code_challenge := req_code_challenge request;
       user_id := id user;
       user_name := Some (displayName user);
       rec_created_at := now;
       expires_at := now + authCodeTtlSec config * 1000;
       used := false |} in
  (c, saveAuthCode record st).

Record RedeemParams := {
  rp_config : AuthServerConfig;
  rp_code : string;
  rp_client : option OAuthClient;
  rp_client_id : string;
  rp_redirect_uri : string;
  rp_resource : string;
  rp_code_verifier : string
}.

Record TokenResponse := {
  access_token : string;
  token_type : string;
  expires_in : Z;
  tr_scope : string
}.

Inductive RedeemResult :=
  | RedeemOk (response : TokenResponse)
  | RedeemErr (err : OAuthError).

Definition refuse (e : OAuthErrorCode) (d : string) : outcome RedeemResult :=
  Return (RedeemErr {| error := e; error_description := d |}).

Section WithPlatform.
Context `{Crypto} `{Jose}.

(** [now] is the [Date.now()] read by the function, [signNow] the one read
    afterwards by [signAccessToken]. *)
Definition redeemAuthorizationCode (now signNow : Z) (params : RedeemParams)
    (st : State) : outcome RedeemResult * State :=
  match rp_client params with
  | None => (refuse unauthorized_client "Unknown client_id", st)
  | Some _ =>
  match findAuthCode (rp_code params) st with
  | None => (refuse invalid_grant "Unknown code", st)
  | Some rec =>
      if used rec || (expires_at rec <=? now) then
        (refuse invalid_grant "Code expired or already used", st)
      else if negb (bool_decide (rec_client_id rec = rp_client_id params)) then
        (refuse invalid_grant "client_id mismatch", st)
      else if negb (bool_decide (redirect_uri rec = rp_redirect_uri params)) then
        (refuse invalid_grant "redirect_uri mismatch", st)
      else if negb (bool_decide (resource rec = rp_resource params))
              || negb (bool_decide
                         (rp_resource params = mcpResource (rp_config params))) then
        (refuse invalid_request "resource mismatch", st)
      else
        let computed := Pkce.computeS256CodeChallenge (rp_code_verifier params) in
        match Pkce.constantTimeEqual computed (code_challenge rec) with
        | Throw m => (Throw m, st)
        | Return false => (refuse invalid_request "PKCE verification failed", st)
        | Return true =>
            let st' := markAuthCodeUsed (rp_code params) st in
            let signed :=
              Jwt.signAccessToken signNow
                {| Jwt.sp_issuer := cfg_issuer (rp_config params);
                   Jwt.sp_subject := user_id rec;
                   Jwt.sp_audience := resource rec;
                   Jwt.sp_scope := scope rec;
                   Jwt.sp_name := user_name rec;
                   Jwt.sp_secret := jwtSecret (rp_config params);
                   Jwt.sp_ttlSec := accessTokenTtlSec (rp_config params) |} in
            (Return (RedeemOk
                       {| access_token := Jwt.token signed;
                          token_type := "Bearer";
                          expires_in := Jwt.expiresIn signed;
                          tr_scope := scope rec |}),
             st')
        end
  end
  end.

End WithPlatform.

End OAuth.

(** ** auth-server/client-metadata.ts *)

(** The parts of a parsed URL the code reads. *)
Record URL := {
  href : string;
  protocol : string;
  hostname : string;
  pathname : string;
  hash : string
}.

Class WebApi := {
  (** [new URL(s)]; [None] when the constructor throws. *)
  url_parse : string -> option URL;
  (** [new Date(s).getTime()]; [None] for NaN. *)
  date_parse : string -> option Z
}.

(** Response headers, keyed by lower-case name as [Headers.get] looks them up. *)
Abbreviation Headers := (gmap string string).

(** What [await fetch(url, {headers, signal})] followed by [res.json()] gives:
    a rejection (network error, or the abort fired by the timeout), or a
    response whose body parses as JSON or does not. *)
Inductive FetchOutcome :=
  | FetchRejected
  | FetchResponse (status : Z) (headers : Headers) (parsed : option json).

Module ClientMetadata.
Import Store.

Record ClientIdMetadataDocument := {
  doc_client_id : string;
  doc_client_name : string;
  doc_redirect_uris : list string;
  doc_token_endpoint_auth_method : option string
}.

Record CachedClientIdMetadataDocument := {
  doc : ClientIdMetadataDocument;
  expiresAt : Z;
  etag : option string;
  lastModified : option string
}.

Abbreviation Cache := (gmap string CachedClientIdMetadataDocument).

(** [Boolean(v)] for [v : string | undefined]. *)
Definition present (v : option string) : bool :=
  match v with
  | Some s => Js.truthy s
  | None => false
  end.

Definition normalizeStringArray (v : option json) : list string :=
  match v with
  | Some (JArr items) =>
      filter (fun s => Is_true (Js.truthy s))
        (map (fun x => match x with JStr s => Js.trim s | _ => EmptyString end) items)
  | _ => []
  end.

Definition arraysEqual (a b : list string) : bool :=
  bool_decide (length a = length b) && bool_decide (a = b).

Record CacheControl := {
  noStore : bool;
  noCache : bool;
  maxAgeSec : option Z
}.

(** The value of a string of decimal digits, [None] when the string is empty
    or holds another character: the group [(\d+)] read by [Number]. *)
Fixpoint digits_go (acc : Z) (s : string) : option Z :=
  match s with
  | EmptyString => Some acc
  | String c r =>
      let n := Z.of_N (Js.code c) in
      if (48 <=? n) && (n <=? 57) then digits_go (10 * acc + (n - 48)) r
      else None
  end.

Definition digits (s : string) : option Z :=
  if Js.isEmpty s then None else digits_go 0 s.

Fixpoint stripPrefix (p s : string) : option string :=
  match p, s with
  | EmptyString, _ => Some s
  | String a p', String b s' => if Ascii.eqb a b then stripPrefix p' s' else None
  | String _ _, EmptyString => None
  end.

(** [d.match(/^max-age=(\d+)$/)] followed by [Number(m[1])]. *)
Definition maxAgeOf (d : string) : option Z :=
  match stripPrefix "max-age=" d with
  | Some rest => digits rest
  | None => None
  end.

Definition parseCacheControl (v : option string) : CacheControl :=
  let start := {| noStore := false; noCache := false; maxAgeSec := None |} in
  if negb (present v) then start
  else
    let directives :=
      filter (fun s => Is_true (Js.truthy s))
        (map (fun s => Js.toLowerCase (Js.trim s))
           (Js.splitOn ","%char (default EmptyString v))) in
    fold_left
      (fun out d =>
         {| noStore := noStore out || String.eqb d "no-store";
            noCache := noCache out || String.eqb d "no-cache";
            maxAgeSec := match maxAgeOf d with
                         | Some n => Some n
                         | None => maxAgeSec out
                         end |})
      directives start.

Section WithWeb.
Context `{WebApi}.

Definition tryParseAllowedClientMetadataUrl (cid : string)
    (allowedHosts : gset string) : option URL :=
  match url_parse cid with
  | None => None
  | Some url =>
      if negb (String.eqb (protocol url) "https:") then None
      else if Js.isEmpty (pathname url) || String.eqb (pathname url) "/" then None
      else if Js.truthy (hash url) then None
      else if negb (bool_decide (Js.toLowerCase (hostname url) ∈ allowedHosts)) then None
      else Some url
  end.

Definition isLoopbackRedirectUri (uri : string) : bool :=
  match url_parse uri with
  | None => false
  | Some u =>
      if negb (String.eqb (protocol u) "http:") && negb (String.eqb (protocol u) "https:")
      then false
      else
        let host := Js.toLowerCase (hostname u) in
        String.eqb host "localhost" || String.eqb host "127.0.0.1"
        || String.eqb host "[::1]" || String.eqb host "::1"
  end.

Definition isValidRedirectUri (uri : string) : bool :=
  match url_parse uri with
  | None => false
  | Some u =>
      if Js.truthy (hash u) then false
      else String.eqb (protocol u) "http:" || String.eqb (protocol u) "https:"
  end.

Definition normalizeRedirectUris (uris : list string) : list string :=
  Js.sort
    (Js.dedupe
       (filter (fun u => Is_true (isValidRedirectUri u))
          (filter (fun u => Is_true (Js.truthy u)) (map Js.trim uris)))).

Definition parseClientMetadataDocument (raw : option json)
    : option ClientIdMetadataDocument :=
  match raw with
  | Some (JObj fields) =>
      let obj := Some (JObj fields) in
      let cid := default EmptyString (Js.trim <$> asString (prop obj "client_id")) in
      let name := default EmptyString (Js.trim <$> asString (prop obj "client_name")) in
      let uris := normalizeRedirectUris (normalizeStringArray (prop obj "redirect_uris")) in
      let method := Js.trim <$> asString (prop obj "token_endpoint_auth_method") in
      if Js.isEmpty cid || Js.isEmpty name || bool_decide (length uris = 0%nat) then None
      else
        Some {| doc_client_id := cid;
                doc_client_name := name;
                doc_redirect_uris := uris;
                doc_token_endpoint_auth_method :=
                  if present method then method else None |}
  | _ => None
  end.

Definition computeCacheExpiry (headers : Headers) (nowMs : Z) : bool * Z :=
  let cc := parseCacheControl (headers !! "cache-control") in
  if noStore cc then (false, nowMs)
  else
    match maxAgeSec cc with
    | Some age => (true, nowMs + age * 1000)
    | None =>
        let byExpires :=
          match headers !! "expires" with
          | Some e => if Js.truthy e then date_parse e else None
          | None => None
          end in
        match byExpires with
        | Some t => (true, t)
        | None =>
            if noCache cc then (true, nowMs)
            else (true, nowMs + 5 * 60 * 1000)
        end
    end.

(** [net url requestHeaders] is the outcome of the fetch, were it made. *)
Definition fetchClientMetadataDocumentWithCache
    (net : string -> list (string * string) -> FetchOutcome)
    (now : Z) (url : string) (cache : Cache)
    : option ClientIdMetadataDocument * Cache :=
  let cached := cache !! url in
  let refetch :=
   (let requestHeaders :=
     [("Accept", "application/json")]
     ++ match cached with
        | Some c => if present (etag c)
                    then [("If-None-Match", default EmptyString (etag c))] else []
        | None => []
        end
     ++ match cached with
        | Some c => if present (lastModified c)
                    then [("If-Modified-Since", default EmptyString (lastModified c))]
                    else []
        | None => []
        end in
   match net url requestHeaders with
   | FetchRejected => (None, cache)
   | FetchResponse st hs parsed =>
       match (if st =? 304 then cached else None) with
       | Some c =>
           let '(cacheable, expires) := computeCacheExpiry hs now in
           (Some (doc c),
            if cacheable then
              <[url := {| doc := doc c;
                          expiresAt := expires;
                          etag := match hs !! "etag" with
                                  | Some e => Some e
                                  | None => etag c
                                  end;
                          lastModified := match hs !! "last-modified" with
                                          | Some e => Some e
                                          | None => lastModified c
                                          end |}]> cache
            else delete url cache)
       | None =>
           if negb ((200 <=? st) && (st <=? 299)) then (None, cache)
           else
             match parsed with
             | None => (None, cache)
             | Some j =>
                 match parseClientMetadataDocument (Some j) with
                 | None => (None, cache)
                 | Some d =>
                     let '(cacheable, expires) := computeCacheExpiry hs now in
                     (Some d,
                      if cacheable then
                        <[url := {| doc := d;
                                    expiresAt := expires;
                                    etag := hs !! "etag";
                                    lastModified := hs !! "last-modified" |}]> cache
                      else delete url cache)
                 end
             end
       end
   end) in
  match cached with
  | Some c => if expiresAt c >? now then (Some (doc c), cache) else refetch
  | None => refetch
  end.

Record ResolveParams := {
  rs_client_id : string;
  rs_config : AuthServerConfig;
  requestedRedirectUri : option string
}.

(** [isDev] is [process.env.NODE_ENV !== "production"]; [now] is the clock
    read by the fetch, [createdNow] the one read by [createClient]. The
    generated identifier of [createClient] is not read: the id is given. *)
Definition resolveClientFromClientIdMetadataUrl
    (net : string -> list (string * string) -> FetchOutcome)
    (isDev : bool) (now createdNow : Z) (params : ResolveParams)
    (cache : Cache) (st : State) : option OAuthClient * Cache * State :=
  match tryParseAllowedClientMetadataUrl (rs_client_id params)
          (allowedClientMetadataHosts (rs_config params)) with
  | None => (None, cache, st)
  | Some url =>
      let canonicalClientId := href url in
      let '(fetched, cache') :=
        fetchClientMetadataDocumentWithCache net now canonicalClientId cache in
      match fetched with
      | None => (None, cache', st)
      | Some d =>
          match url_parse (doc_client_id d) with
          | None => (None, cache', st)
          | Some claimed =>
              if negb (String.eqb (href claimed) canonicalClientId) then
                (None, cache', st)
              else
                let authMethod :=
                  Js.trim (default "none" (doc_token_endpoint_auth_method d)) in
                if negb (String.eqb authMethod "none") then (None, cache', st)
                else
                  let redirectUris := normalizeRedirectUris (doc_redirect_uris d) in
                  let accepted :=
                    if present (requestedRedirectUri params) then
                      let requested :=
                        Js.trim (default EmptyString (requestedRedirectUri params)) in
                      if Js.includes redirectUris requested then Some redirectUris
                      else if isDev && isLoopbackRedirectUri requested
                           then Some (redirectUris ++ [requested])
                           else None
                    else Some redirectUris in
                  match accepted with
                  | None => (None, cache', st)
                  | Some uriSet =>
                      let uris := Js.sort uriSet in
                      let existing := findClient canonicalClientId st in
                      let upsert :=
                        let '(client, st') :=
                          createClient EmptyString createdNow (Some canonicalClientId)
                            (doc_client_name d) uris st in
                        (Some client, cache', st') in
                      match existing with
                      | Some e =>
                          if String.eqb (client_name e) (doc_client_name d)
                             && arraysEqual (Js.sort (redirect_uris e)) uris
                          then (Some e, cache', st)
                          else upsert
                      | None => upsert
                      end
                  end
          end
      end
  end.

End WithWeb.

End ClientMetadata.

(** ** auth-server/server.ts *)

Record HttpResponse := {
  status : Z;
  headers : list (string * string);
  body : json
}.

Module Server.
Import Store.

Definition jsonError (st : Z) (b : json) : HttpResponse :=
  {| status := st; headers := [("Cache-Control", "no-store")]; body := b |}.

Definition invalid_client_metadata : HttpResponse :=
  jsonError 400 (JObj [("error", JStr "invalid_client_metadata")]).

(** [redirect_uris.map(u => typeof u === "string" ? u.trim() : "").filter(Boolean)] *)
Definition normalizeEntries (entries : list json) : list string :=
  filter (fun s => Is_true (Js.truthy s))
    (map (fun u => match u with JStr s => Js.trim s | _ => EmptyString end) entries).

(** The handler of POST /oauth2/register. [reqBody] is [req.body];
    [uuid] and [now] are read by [createClient]. *)
Definition register (uuid : string) (now : Z) (config : AuthServerConfig)
    (reqBody : option json) (st : State) : HttpResponse * State :=
  let body :=
    match reqBody with
    | None | Some JNull => JObj []
    | Some b => b
    end in
  let client_name :=
    default "ChatGPT Connector" (asString (prop (Some body) "client_name")) in
  let token_endpoint_auth_method :=
    default "none" (asString (prop (Some body) "token_endpoint_auth_method")) in
  match asArray (prop (Some body) "redirect_uris") with
  | None => (invalid_client_metadata, st)
  | Some redirect_uris =>
      if bool_decide (length redirect_uris = 0%nat) then
        (invalid_client_metadata, st)
      else if negb (String.eqb token_endpoint_auth_method "none") then
        (invalid_client_metadata, st)
      else
        let normalized := normalizeEntries redirect_uris in
        if bool_decide (length normalized = 0%nat) then
          (invalid_client_metadata, st)
        else if negb (forallb (fun uri =>
                        bool_decide (uri ∈ allowedRedirectUris config)) normalized) then
          (invalid_client_metadata, st)
        else
          let '(client, st') := createClient uuid now None client_name normalized st in
          ({| status := 201;
              headers := [("Cache-Control", "no-store")];
              body := JObj [("client_id", JStr (client_id client));
                            ("client_name", JStr (Store.client_name client));
                            ("redirect_uris", JArr (map JStr (Store.redirect_uris client)));
                            ("token_endpoint_auth_method", JStr "none")] |},
           st')
  end.

Section WithPlatform.
Context `{Crypto} `{Jose} `{WebApi}.

(** The metadata-URL path first, then the clients stored by id. The
    arguments before [client_id] are those of
    [resolveClientFromClientIdMetadataUrl]. *)
Definition resolveClient
    (net : string -> list (string * string) -> FetchOutcome) (isDev : bool)
    (now createdNow : Z) (config : AuthServerConfig)
    (client_id : string) (requestedRedirectUri : option string)
    (cache : ClientMetadata.Cache) (st : State)
    : option OAuthClient * ClientMetadata.Cache * State :=
  match ClientMetadata.resolveClientFromClientIdMetadataUrl net isDev now createdNow
          {| ClientMetadata.rs_client_id := client_id;
             ClientMetadata.rs_config := config;
             ClientMetadata.requestedRedirectUri := requestedRedirectUri |}
          cache st with
  | (Some cimdClient, cache', st') => (Some cimdClient, cache', st')
  | (None, cache', st') => (findClient client_id st', cache', st')
  end.

(** The handler of POST /oauth2/token. [redeemNow] and [signNow] are the
    clock reads of [redeemAuthorizationCode]. A response sent without an
    explicit status has status 200. *)
Definition token
    (net : string -> list (string * string) -> FetchOutcome) (isDev : bool)
    (now createdNow redeemNow signNow : Z) (config : AuthServerConfig)
    (reqBody : option json) (cache : ClientMetadata.Cache) (st : State)
    : outcome HttpResponse * ClientMetadata.Cache * State :=
  let body :=
    match reqBody with
    | None | Some JNull => JObj []
    | Some b => b
    end in
  let field k := default EmptyString (asString (prop (Some body) k)) in
  let grant_type := field "grant_type" in
  let code := field "code" in
  let redirect_uri := field "redirect_uri" in
  let client_id := field "client_id" in
  let code_verifier := field "code_verifier" in
  let resource := field "resource" in
  if negb (String.eqb grant_type "authorization_code") then
    (Return (jsonError 400 (JObj [("error", JStr "invalid_request")])), cache, st)
  else if Js.isEmpty code || Js.isEmpty redirect_uri || Js.isEmpty client_id
          || Js.isEmpty code_verifier || Js.isEmpty resource then
    (Return (jsonError 400 (JObj [("error", JStr "invalid_request")])), cache, st)
  else
    let '(client, cache', st') :=
      resolveClient net isDev now createdNow config client_id (Some redirect_uri)
        cache st in
    let '(tokenRes, st'') :=
      OAuth.redeemAuthorizationCode redeemNow signNow
        {| OAuth.rp_config := config;
           OAuth.rp_code := code;
           OAuth.rp_client := client;
           OAuth.rp_client_id := client_id;
           OAuth.rp_redirect_uri := redirect_uri;
           OAuth.rp_resource := resource;
           OAuth.rp_code_verifier := code_verifier |} st' in
    (match tokenRes with
     | Throw m => Throw m
     | Return (OAuth.RedeemErr err) =>
         Return (jsonError 400
                   (JObj [("error", JStr (OAuth.errorName (OAuth.error err)))]))
     | Return (OAuth.RedeemOk r) =>
         Return {| status := 200;
                   headers := [("Cache-Control", "no-store")];
                   body := JObj [("ok", JBool true);
                                 ("access_token", JStr (OAuth.access_token r));
                                 ("token_type", JStr (OAuth.token_type r));
                                 ("expires_in", JNum (OAuth.expires_in r));
                                 ("scope", JStr (OAuth.tr_scope r))] |}
     end,
     cache', st'').

End WithPlatform.

End Server.


(** ** app/mcp/auth.ts *)

Module McpAuth.

Record VerifiedAuthContext := {
  ctx_token : string;
  ctx_claims : json;
  sub : string;
  name : option string;
  scopes : gset string
}.

Inductive ToolPolicy :=
  | Public
  | Required (requiredScopes : list string)
  | Optional (optionalScopes : list string).

Definition TOOL_POLICIES : list (string * ToolPolicy) :=
  [("auth_show", Public);
   ("auth_whoami", Required ["profile:read"]);
   ("notes_list", Required ["notes:read"]);
   ("notes_add", Required ["notes:write"]);
   ("notes_teaser", Optional ["notes:read"])].

Fixpoint lookupPolicy (table : list (string * ToolPolicy)) (toolName : string)
    : option ToolPolicy :=
  match table with
  | [] => None
  | (k, p) :: rest => if String.eqb k toolName then Some p else lookupPolicy rest toolName
  end.

(** A name that only reaches a member inherited from Object.prototype gives
    a value without a [kind], on which the route takes no branch: it is
    treated here as having no policy. *)
Definition getToolPolicy (toolName : option string) : option ToolPolicy :=
  match toolName with
  | None => None
  | Some n => if Js.isEmpty n then None else lookupPolicy TOOL_POLICIES n
  end.

(** [process.env] *)
Abbreviation Env := (gmap string string).

Definition requiredEnv (env : Env) (var : string) : outcome string :=
  match env !! var with
  | Some v =>
      if Js.isEmpty v || bool_decide (String.length (Js.trim v) = 0%nat)
      then Throw ("Missing env var: " +:+ var)
      else Return (Js.trim v)
  | None => Throw ("Missing env var: " +:+ var)
  end.

(** [s] starts with the letters of [word], in either case: the prefix
    [^Bearer] of a pattern with the [i] flag. The rest of [s] is returned. *)
Fixpoint stripPrefixIgnoreCase (word s : string) : option string :=
  match word, s with
  | EmptyString, _ => Some s
  | String a word', String b s' =>
      if Ascii.eqb (Js.canonicalize a) (Js.canonicalize b)
      then stripPrefixIgnoreCase word' s'
      else None
  | String _ _, EmptyString => None
  end.

(** The longest prefix of [\s] characters, and what follows it. *)
Fixpoint spanSpaces (s : string) : string * string :=
  match s with
  | EmptyString => (EmptyString, EmptyString)
  | String c r =>
      if Js.isSpace c then
        let '(ws, rest) := spanSpaces r in (String c ws, rest)
      else (EmptyString, s)
  end.

(** The dot of a pattern without the [s] flag matches all but line terminators. *)
Definition isDot (c : ascii) : bool := negb (Js.isLineTerminator c).

(** [header.match(/^Bearer\s+(.+)$/i)]: the first capture group of the match.
    [\s+] is greedy: it first takes the whole run of spaces, and [(.+)] then
    has to take everything to the end of the input. When nothing is left for
    [(.+)], the run gives back its last character to it. *)
Definition matchBearer (header : string) : option string :=
  match stripPrefixIgnoreCase "Bearer" header with
  | None => None
  | Some afterScheme =>
      let '(ws, rest) := spanSpaces afterScheme in
      if Js.isEmpty ws then None
      else if negb (Js.isEmpty rest) then
        if Js.all isDot rest then Some rest else None
      else
        match Js.last ws with
        | Some c =>
            if (2 <=? Z.of_nat (String.length ws)) && isDot c
            then Some (String c EmptyString)
            else None
        | None => None
        end
  end.

Definition parseBearerTokenFromHeader (header : option string) : option string :=
  match header with
  | None => None
  | Some h =>
      if Js.isEmpty h then None
      else
        match matchBearer h with
        | None => None
        | Some g =>
            let t := Js.trim g in
            if Js.isEmpty t then None else Some t
        end
  end.

Inductive VerifyResult :=
  | StatusNone
  | StatusInvalid (reason : string)
  | StatusValid (ctx : VerifiedAuthContext).

Section WithJose.
Context `{Jose}.

(** [authorization] is [req.headers.get("authorization")], [now] the clock
    read by [jwt.verify]. The three environment reads stand outside the
    [try]: a missing variable throws out of the function. *)
Definition verifyBearerFromRequest (env : Env) (now : Z)
    (authorization : option string) : outcome VerifyResult :=
  match parseBearerTokenFromHeader authorization with
  | None => Return StatusNone
  | Some token =>
      match requiredEnv env "JWT_SECRET" with
      | Throw m => Throw m
      | Return jwtSecret =>
      match requiredEnv env "AUTH_ISSUER" with
      | Throw m => Throw m
      | Return issuer =>
      match requiredEnv env "MCP_RESOURCE" with
      | Throw m => Throw m
      | Return audience =>
          match Jwt.verifyAccessToken now token
                  {| Jwt.secret := jwtSecret; Jwt.issuer := issuer;
                     Jwt.audience := audience |} with
          | Throw m => Return (StatusInvalid m)
          | Return claims =>
              Return (StatusValid
                {| ctx_token := token;
                   ctx_claims := claims;
                   sub := default EmptyString (asString (prop (Some claims) "sub"));
                   name := asString (prop (Some claims) "name");
                   scopes := Scopes.scopeClaimToSet (prop (Some claims) "scope") |})
          end
      end end end
  end.

End WithJose.

Inductive ChallengeError := invalid_token | insufficient_scope.

Definition challengeErrorName (e : ChallengeError) : string :=
  match e with
  | invalid_token => "invalid_token"
  | insufficient_scope => "insufficient_scope"
  end.

Definition quote : string := String (ascii_of_nat 34) EmptyString.
Definition backslash : string := String (ascii_of_nat 92) EmptyString.

Definition escapeHeaderValue (v : string) : string :=
  Js.replaceChar (ascii_of_nat 34) (backslash +:+ quote)
    (Js.replaceChar (ascii_of_nat 92) (backslash +:+ backslash) v).

Record ChallengeParams := {
  ch_scope : option string;
  ch_error : option ChallengeError;
  ch_error_description : option string
}.

Definition present (v : option string) : bool :=
  match v with
  | Some s => Js.truthy s
  | None => false
  end.

Section WithBaseUrl.
(** [new URL("/.well-known/oauth-protected-resource", baseURL).toString()] *)
Variable resourceMetadataUrl : string.

Definition challengeParts (params : ChallengeParams) : list string :=
  ["Bearer resource_metadata=" +:+ quote
     +:+ escapeHeaderValue resourceMetadataUrl +:+ quote]
  ++ (if present (ch_scope params)
      then ["scope=" +:+ quote
              +:+ escapeHeaderValue (default EmptyString (ch_scope params)) +:+ quote]
      else [])
  ++ match ch_error params with
     | Some e => ["error=" +:+ quote +:+ challengeErrorName e +:+ quote]
     | None => []
     end
  ++ (if present (ch_error_description params)
      then ["error_description=" +:+ quote
              +:+ escapeHeaderValue (default EmptyString (ch_error_description params))
              +:+ quote]
      else []).

Definition buildWwwAuthenticate (params : ChallengeParams) : string :=
  Js.join ", " (challengeParts params).

End WithBaseUrl.

(** [id] is a JSON-RPC id: a string, a number or null. *)
Definition buildJsonRpcToolAuthError (id : json) (wwwAuthenticate message : string)
    : json :=
  JObj [("jsonrpc", JStr "2.0");
        ("id", id);
        ("result",
         JObj [("isError", JBool true);
               ("content", JArr [JObj [("type", JStr "text"); ("text", JStr message)]]);
               ("_meta", JObj [("mcp/www_authenticate", JArr [JStr wwwAuthenticate])])])].

(** [Headers.set] and [Headers.get]; names compare without case. *)
Fixpoint setHeader (k v : string) (hs : list (string * string)) : list (string * string) :=
  match hs with
  | [] => [(k, v)]
  | (k', v') :: rest =>
      if String.eqb (Js.toLowerCase k') (Js.toLowerCase k) then (k', v) :: rest
      else (k', v') :: setHeader k v rest
  end.

Fixpoint getHeader (k : string) (hs : list (string * string)) : option string :=
  match hs with
  | [] => None
  | (k', v') :: rest =>
      if String.eqb (Js.toLowerCase k') (Js.toLowerCase k) then Some v'
      else getHeader k rest
  end.

Definition corsify (res : HttpResponse) : HttpResponse :=
  let hs := headers res in
  let hs := setHeader "Access-Control-Allow-Origin" "*" hs in
  let hs := setHeader "Access-Control-Allow-Methods" "GET,POST,OPTIONS" hs in
  let hs := setHeader "Access-Control-Allow-Headers" "Authorization, Content-Type" hs in
  let hs := setHeader "Cache-Control"
              (default "no-store" (getHeader "Cache-Control" hs)) hs in
  {| status := status res; headers := hs; body := body res |}.

End McpAuth.

(** ** app/mcp/notesStore.ts *)

Module NotesStore.

Record Note := {
  note_id : string;
  title : string;
  note_body : string;
  updatedAt : string
}.

Record NoteSummary := {
  s_id : string;
  s_title : string;
  s_updatedAt : string
}.

Abbreviation NotesByUser := (gmap string (list Note)).

(** [isoNow] is [new Date().toISOString()]. *)
Definition ensureSeedNotes (isoNow : string) (userId : string) (notes : NotesByUser)
    : NotesByUser :=
  match notes !! userId with
  | Some _ => notes
  | None =>
      <[userId := [{| note_id := "n1"; title := "First note";
                      note_body := "This is your first private note.";
                      updatedAt := isoNow |}]]> notes
  end.

Definition listNotes (isoNow : string) (userId : string) (notes : NotesByUser)
    : list NoteSummary * NotesByUser :=
  let notes' := ensureSeedNotes isoNow userId notes in
  (map (fun n => {| s_id := note_id n; s_title := title n; s_updatedAt := updatedAt n |})
     (default [] (notes' !! userId)),
   notes').

Definition publicTeaserNotes : list NoteSummary :=
  [{| s_id := "demo1"; s_title := "Public example note";
      s_updatedAt := "2025-01-01T00:00:00Z" |}].

End NotesStore.

(** ** app/mcp/route.ts *)

Module McpRoute.
Import McpAuth.

Record JsonRpc := {
  rpc_id : json;
  method : option string;
  toolName : option string
}.

(** ["id" in reqBody] on a value that is neither falsy nor an object is a
    TypeError. *)
Definition parseJsonRpc (reqBody : json) : outcome JsonRpc :=
  let idOf :=
    if falsy reqBody then Return JNull
    else
      match reqBody with
      | JObj fields => Return (default JNull (assoc "id" fields))
      | JArr _ => Return JNull
      | _ => Throw "Cannot use 'in' operator to search for 'id'"
      end in
  match idOf with
  | Throw m => Throw m
  | Return id =>
      let m := asString (prop (Some reqBody) "method") in
      if bool_decide (m = Some "tools/call") then
        Return {| rpc_id := id; method := m;
                  toolName := asString (prop (prop (Some reqBody) "params") "name") |}
      else
        Return {| rpc_id := id; method := m; toolName := None |}
  end.

Definition authErrorResponse (st : Z) (id : json) (wwwAuthenticate message : string)
    : HttpResponse :=
  corsify
    {| status := st;
       headers := [("Content-Type", "application/json");
                   ("WWW-Authenticate", wwwAuthenticate);
                   ("Cache-Control", "no-store")];
       body := buildJsonRpcToolAuthError id wwwAuthenticate message |}.

(** What the route handler does with a request: it answers by itself, or it
    runs the underlying MCP handler with an auth context (and passes its
    response through [corsify]). *)
Inductive Handling :=
  | Responded (res : HttpResponse)
  | Forwarded (ctx : option VerifiedAuthContext).

Section WithDeployment.
Context `{Jose}.
Variable resourceMetadataUrl : string.

(** The per-tool authorization of POST, once the body is parsed and the
    token verified. *)
Definition authorizeToolCall (id : json) (toolName : option string)
    (verified : VerifyResult) : Handling :=
  let forward :=
    Forwarded match verified with
              | StatusValid ctx => Some ctx
              | _ => None
              end in
  let challenge sc e d :=
    buildWwwAuthenticate resourceMetadataUrl
      {| ch_scope := Some (Js.join " " sc); ch_error := Some e;
         ch_error_description := Some d |} in
  if negb (McpAuth.present toolName) then forward
  else
    match getToolPolicy toolName with
    | None => forward
    | Some (Required requiredScopes) =>
        match verified with
        | StatusNone =>
            Responded (authErrorResponse 401 id
              (challenge requiredScopes insufficient_scope "You need to login to continue")
              "Authentication required: no access token provided.")
        | StatusInvalid _ =>
            Responded (authErrorResponse 401 id
              (challenge requiredScopes invalid_token "Token invalid or expired")
              "Authentication required.")
        | StatusValid ctx =>
            let missing :=
              filter (fun s => ¬ (s ∈ scopes ctx)) requiredScopes in
            if bool_decide (0 < length missing)%nat then
              Responded (authErrorResponse 403 id
                (challenge requiredScopes insufficient_scope
                   "Re-authorize to grant required access")
                "Insufficient scope.")
            else forward
        end
    | Some (Optional optionalScopes) =>
        match verified with
        | StatusInvalid _ =>
            Responded (authErrorResponse 401 id
              (challenge optionalScopes invalid_token "Token invalid or expired")
              "Authentication required.")
        | _ => forward
        end
    | Some Public => forward
    end.

(** [parsedBody] is the outcome of [clone.json()], [None] when it rejects;
    [authorization] the request's Authorization header. *)
Definition POST (env : Env) (now : Z) (parsedBody : option json)
    (authorization : option string) : outcome Handling :=
  match parsedBody with
  | None =>
      Return (Responded (corsify
        {| status := 400;
           headers := [("Content-Type", "application/json");
                       ("Cache-Control", "no-store")];
           body := JObj [("error", JStr "invalid_request");
                         ("message", JStr "Invalid JSON")] |}))
  | Some reqBody =>
      match parseJsonRpc reqBody with
      | Throw m => Throw m
      | Return rpc =>
          match verifyBearerFromRequest env now authorization with
          | Throw m => Throw m
          | Return verified =>
              Return (authorizeToolCall (rpc_id rpc) (toolName rpc) verified)
          end
      end
  end.

End WithDeployment.

(** The result of a tool callback. *)
Record ToolResult := {
  isError : bool;
  text : string;
  structuredContent : json
}.

Definition summaryJson (n : NotesStore.NoteSummary) : json :=
  JObj [("id", JStr (NotesStore.s_id n));
        ("title", JStr (NotesStore.s_title n));
        ("updatedAt", JStr (NotesStore.s_updatedAt n))].

(** The callback registered for notes_teaser; [ctx] is [getAuthContext()],
    the context the route handler ran the underlying handler with. *)
Definition notes_teaser (isoNow : string) (ctx : option VerifiedAuthContext)
    (notes : NotesStore.NotesByUser) : ToolResult * NotesStore.NotesByUser :=
  match ctx with
  | Some c =>
      if bool_decide ("notes:read" ∈ scopes c) then
        let '(items, notes') := NotesStore.listNotes isoNow (sub c) notes in
        ({| isError := false;
            text := "Private notes for " +:+ sub c;
            structuredContent :=
              JObj [("mode", JStr "private");
                    ("userId", JStr (sub c));
                    ("items", JArr (map summaryJson items))] |},
         notes')
      else
        ({| isError := false;
            text := "Public notes teaser";
            structuredContent :=
              JObj [("mode", JStr "public");
                    ("items", JArr (map summaryJson NotesStore.publicTeaserNotes))] |},
         notes)
  | None =>
      ({| isError := false;
          text := "Public notes teaser";
          structuredContent :=
            JObj [("mode", JStr "public");
                  ("items", JArr (map summaryJson NotesStore.publicTeaserNotes))] |},
       notes)
  end.

End McpRoute.

(** ** Further parts of the authorization server and of the resource server

    The functions around those above: the page helper of ui.ts, the
    configuration loader, the authorize endpoint, and on the resource server
    the scope check, the remaining tool callbacks, the notes store and the
    GET handler. *)

From Stdlib Require QArith.QArith_base QArith.Qround DecimalString.

(** [Number(raw)] on a string: [None] for NaN and the infinities. *)
Class JsNumber := {
  toNumber : string -> option QArith_base.Q
}.

(** The decimal text of an integer, as a template literal prints a number
    of moderate size. *)
Definition decimal (n : Z) : string :=
  DecimalString.NilZero.string_of_int (Z.to_int n).

(** ** auth-server/ui.ts *)

Module Ui.

Definition escapeHtml (s : string) : string :=
  Js.replaceChar "'"%char "&#39;"
    (Js.replaceChar (ascii_of_nat 34) "&quot;"
       (Js.replaceChar ">"%char "&gt;"
          (Js.replaceChar "<"%char "&lt;"
             (Js.replaceChar "&"%char "&amp;" s)))).

(** The argument of [renderAuthorizePage]. *)
Record PageParams := {
  clientName : string;
  page_client_id : string;
  page_redirect_uri : string;
  page_scope : string;
  page_state : string;
  page_code_challenge : string;
  page_code_challenge_method : string;
  page_response_type : string;
  page_resource : string;
  page_error : option string
}.

End Ui.

(** ** auth-server/config.ts *)

Module AuthConfig.

Abbreviation Env := (gmap string string).

Section WithNumber.
Context `{JsNumber}.

Definition readInt (env : Env) (var : string) (fallback : Z) : Z :=
  match env !! var with
  | None => fallback
  | Some raw =>
      if Js.isEmpty raw then fallback
      else
        match toNumber raw with
        | None => fallback
        | Some n =>
            if QArith_base.Qle_bool n (QArith_base.inject_Z 0) then fallback
            else Qround.Qfloor n
        end
  end.

Definition readRequired (env : Env) (var : string) : outcome string :=
  match env !! var with
  | Some val =>
      if Js.isEmpty val || bool_decide (String.length (Js.trim val) = 0%nat)
      then Throw ("Missing required env var: " +:+ var)
      else Return (Js.trim val)
  | None => Throw ("Missing required env var: " +:+ var)
  end.

(** [(process.env[name] as string).trim()] is a TypeError on a variable that
    is not set. The entries are kept in their order of appearance. *)
Definition readCsvList (env : Env) (var : string) : outcome (list string) :=
  match env !! var with
  | None => Throw "Cannot read properties of undefined (reading 'trim')"
  | Some raw =>
      Return (Js.dedupe
                (filter (fun s => Is_true (Js.truthy s))
                   (map Js.trim (Js.splitOn ","%char (Js.trim raw)))))
  end.

Definition readCsvSet (env : Env) (var : string) : outcome (gset string) :=
  match readCsvList env var with
  | Throw m => Throw m
  | Return entries => Return (list_to_set entries)
  end.

Definition chatgptRedirect : string :=
  "https://chatgpt.com/connector_platform_oauth_redirect".

Definition getAuthServerConfig (env : Env) : outcome AuthServerConfig :=
  let port := readInt env "AUTH_PORT" 4000 in
  let issuer :=
    Js.trim (default ("http://localhost:" +:+ decimal port) (env !! "AUTH_ISSUER")) in
  let resource :=
    Js.trim (default "http://localhost:3000/mcp" (env !! "MCP_RESOURCE")) in
  match readRequired env "JWT_SECRET" with
  | Throw m => Throw m
  | Return secret =>
      let accessTtl := readInt env "ACCESS_TOKEN_TTL_SEC" 600 in
      let codeTtl := readInt env "AUTH_CODE_TTL_SEC" 600 in
      match readCsvSet env "OAUTH_ALLOWED_REDIRECT_URIS" with
      | Throw m => Throw m
      | Return uris =>
          if negb (bool_decide (chatgptRedirect ∈ uris)) then
            Throw ("OAUTH_ALLOWED_REDIRECT_URIS must include "
                   +:+ String (ascii_of_nat 34) chatgptRedirect
                   +:+ String (ascii_of_nat 34) EmptyString)
          else
            match readCsvList env "OAUTH_ALLOWED_CLIENT_METADATA_HOSTS" with
            | Throw m => Throw m
            | Return hosts =>
                Return {| authPort := port;
                          cfg_issuer := issuer;
                          mcpResource := resource;
                          jwtSecret := secret;
                          accessTokenTtlSec := accessTtl;
                          authCodeTtlSec := codeTtl;
                          allowedRedirectUris := uris;
                          allowedClientMetadataHosts :=
                            list_to_set (map Js.toLowerCase hosts) |}
            end
      end
  end.

End WithNumber.

End AuthConfig.

(** ** auth-server/well-known.ts *)

Module WellKnown.

Definition buildAuthorizationServerMetadata (config : AuthServerConfig) : json :=
  JObj [("issuer", JStr (cfg_issuer config));
        ("authorization_endpoint", JStr (cfg_issuer config +:+ "/oauth2/authorize"));
        ("token_endpoint", JStr (cfg_issuer config +:+ "/oauth2/token"));
        ("registration_endpoint", JStr (cfg_issuer config +:+ "/oauth2/register"));
        ("client_id_metadata_document_supported",
         JBool (bool_decide (0 < size (allowedClientMetadataHosts config))%nat));
        ("response_types_supported", JArr [JStr "code"]);
        ("grant_types_supported", JArr [JStr "authorization_code"]);
        ("token_endpoint_auth_methods_supported", JArr [JStr "none"]);
        ("code_challenge_methods_supported", JArr [JStr "S256"]);
        ("scopes_supported", JArr (map JStr Scopes.SCOPES_SUPPORTED));
        ("resource_indicators_supported", JBool true)].

End WellKnown.

(** ** auth-server/server.ts: the authorize endpoint *)

(** [new URL(uri)] followed by [searchParams.set] for each pair and
    [toString()]; [None] when the constructor throws. *)
Class UrlSearch := {
  url_with_params : string -> list (string * string) -> option string
}.

Module AuthorizeEndpoint.
Import Store OAuth.

(** What the handler sends. *)
Inductive Reply :=
  | PlainText (st : Z) (text : string)
  | Html (st : Z) (page : string)
  | Redirect (st : Z) (location : string).

Section WithPlatform.
Context `{Crypto} `{Jose} `{WebApi} `{UrlSearch}.

(** The text of the consent page: the template of ui.ts, whose wording
    plays no part in what the handlers decide. *)
Variable renderAuthorizePage : Ui.PageParams -> string.

Definition redirectWithParams (redirectUri : string) (params : list (string * string))
    : outcome Reply :=
  match url_with_params redirectUri params with
  | Some location => Return (Redirect 302 location)
  | None => Throw "Invalid URL"
  end.

Definition page (validation_client : OAuthClient)
    (request : ValidatedAuthorizeRequest) (error : option string) : string :=
  renderAuthorizePage
    {| Ui.clientName := client_name validation_client;
       Ui.page_client_id := req_client_id request;
       Ui.page_redirect_uri := req_redirect_uri request;
       Ui.page_scope := req_scope request;
       Ui.page_state := req_state request;
       Ui.page_code_challenge := req_code_challenge request;
       Ui.page_code_challenge_method := "S256";
       Ui.page_response_type := "code";
       Ui.page_resource := req_resource request;
       Ui.page_error := error |}.

(** The handler of GET /oauth2/authorize; [query] is [req.query]. The four
    arguments after [net] are those of [Server.resolveClient]. *)
Definition getAuthorize
    (net : string -> list (string * string) -> FetchOutcome) (isDev : bool)
    (now createdNow : Z) (config : AuthServerConfig) (query : json)
    (cache : ClientMetadata.Cache) (st : State)
    : Reply * ClientMetadata.Cache * State :=
  let client_id := default EmptyString (asString (prop (Some query) "client_id")) in
  let redirect_uri := default EmptyString (asString (prop (Some query) "redirect_uri")) in
  let '(client, cache', st') :=
    if Js.truthy client_id
    then Server.resolveClient net isDev now createdNow config client_id
           (Some redirect_uri) cache st
    else (None, cache, st) in
  match validateAuthorizeRequest query config client with
  | ValidateErr err =>
      (PlainText 400 ("invalid_request: " +:+ error_description err), cache', st')
  | ValidateOk request cl => (Html 200 (page cl request None), cache', st')
  end.

(** The handler of POST /oauth2/authorize; [reqBody] is [req.body], [uuid]
    and [issuedNow] are read by [issueAuthorizationCode]. *)
Definition postAuthorize
    (net : string -> list (string * string) -> FetchOutcome) (isDev : bool)
    (now createdNow : Z) (uuid : string) (issuedNow : Z)
    (config : AuthServerConfig) (reqBody : option json)
    (cache : ClientMetadata.Cache) (st : State)
    : outcome Reply * ClientMetadata.Cache * State :=
  let body :=
    match reqBody with
    | None | Some JNull => JObj []
    | Some b => b
    end in
  let field k := default EmptyString (asString (prop (Some body) k)) in
  let decision := field "decision" in
  let client_id := field "client_id" in
  let redirect_uri := field "redirect_uri" in
  let state := field "state" in
  let resource := field "resource" in
  let scope := field "scope" in
  let code_challenge := field "code_challenge" in
  let code_challenge_method := field "code_challenge_method" in
  let username := field "username" in
  let password := field "password" in
  let '(client, cache', st') :=
    if Js.truthy client_id
    then Server.resolveClient net isDev now createdNow config client_id
           (Some redirect_uri) cache st
    else (None, cache, st) in
  let query :=
    JObj [("response_type", JStr "code");
          ("client_id", JStr client_id);
          ("redirect_uri", JStr redirect_uri);
          ("scope", JStr scope);
          ("state", JStr state);
          ("code_challenge", JStr code_challenge);
          ("code_challenge_method", JStr code_challenge_method);
          ("resource", JStr resource)] in
  match validateAuthorizeRequest query config client with
  | ValidateErr err =>
      (Return (PlainText 400 ("invalid_request: " +:+ error_description err)),
       cache', st')
  | ValidateOk request cl =>
      if String.eqb decision "deny" then
        (redirectWithParams (req_redirect_uri request)
           [("error", "access_denied"); ("state", req_state request)],
         cache', st')
      else
        match usersByUsername st' !! username with
        | Some user =>
            if negb (String.eqb (Store.password user) password) then
              (Return (Html 401 (page cl request (Some "Invalid username or password"))),
               cache', st')
            else
              let normalizedScope :=
                Scopes.formatScopeParam
                  (Scopes.normalizeScopes
                     (Scopes.parseScopeParam (Some (req_scope request)))) in
              let issued :=
                {| req_response_type := req_response_type request;
                   req_client_id := req_client_id request;
                   req_redirect_uri := req_redirect_uri request;
                   req_scope := normalizedScope;
                   req_state := req_state request;
                   req_code_challenge := req_code_challenge request;
                   req_code_challenge_method := req_code_challenge_method request;
                   req_resource := req_resource request;
                   req_scopes :=
                     Scopes.normalizeScopes
                       (Scopes.parseScopeParam (Some normalizedScope)) |} in
              let '(code, st'') :=
                issueAuthorizationCode uuid issuedNow config issued user st' in
              (redirectWithParams (req_redirect_uri request)
                 [("code", code); ("state", req_state request)],
               cache', st'')
        | None =>
            (Return (Html 401 (page cl request (Some "Invalid username or password"))),
             cache', st')
        end
  end.

End WithPlatform.

End AuthorizeEndpoint.

(** ** app/mcp/auth.ts: the scope check and the preflight response *)

Module McpScopes.
Import McpAuth.

Definition enforceScopesOrThrow (ctx : VerifiedAuthContext) (required : list string)
    : outcome unit :=
  if negb (Scopes.hasAllScopes (scopes ctx) required) then
    let missing := filter (fun s => ¬ (s ∈ scopes ctx)) required in
    Throw ("Missing scopes: " +:+ Js.join ", " missing)
  else Return tt.

Definition corsPreflight : HttpResponse :=
  {| status := 204;
     headers := [("Access-Control-Allow-Origin", "*");
                 ("Access-Control-Allow-Methods", "GET,POST,OPTIONS");
                 ("Access-Control-Allow-Headers", "Authorization, Content-Type");
                 ("Cache-Control", "no-store")];
     body := JNull |}.

End McpScopes.

(** ** app/mcp/notesStore.ts: adding a note *)

Module NotesWrite.
Import NotesStore.

(** [s.slice(0, n)] *)
Fixpoint take (n : nat) (s : string) : string :=
  match n, s with
  | S n', String c r => String c (take n' r)
  | _, _ => EmptyString
  end.

(** [uuid] is [crypto.randomUUID().replace(/-/g, "")]; [seedNow] is the
    [new Date().toISOString()] read when the user's list is seeded, [isoNow]
    the one read for the note. The new note goes to the front of the list. *)
Definition addNote (uuid seedNow isoNow : string) (userId title body : string)
    (notes : NotesByUser) : string * NotesByUser :=
  let notes' := ensureSeedNotes seedNow userId notes in
  let noteId := "n_" +:+ take 10 uuid in
  let note :=
    {| note_id := noteId; NotesStore.title := title; note_body := body;
       updatedAt := isoNow |} in
  let arr := default [] (notes' !! userId) in
  (noteId, <[userId := note :: arr]> notes').

End NotesWrite.

(** ** app/mcp/route.ts: the other tool callbacks and the GET handler *)

Module McpTools.
Import McpAuth McpRoute.

Definition missingContext : ToolResult :=
  {| isError := true;
     text := "Internal error: missing auth context.";
     structuredContent := JNull |}.

(** [String(v)] for a parsed value; an absent value is handled by the
    caller's [?? ""]. *)
Fixpoint toText (v : json) : string :=
  match v with
  | JNull => "null"
  | JBool true => "true"
  | JBool false => "false"
  | JNum n => decimal n
  | JStr s => s
  | JArr items =>
      Js.join ","
        (map (fun x => match x with JNull => EmptyString | _ => toText x end) items)
  | JObj _ => "[object Object]"
  end.

(** [String(args?.key ?? "")] *)
Definition argText (args : option json) (key : string) : string :=
  match prop args key with
  | None | Some JNull => EmptyString
  | Some v => toText v
  end.

Definition auth_whoami (ctx : option VerifiedAuthContext) : ToolResult :=
  match ctx with
  | None => missingContext
  | Some c =>
      let shown := default (sub c) (name c) in
      {| isError := false;
         text := "Connected as " +:+ shown;
         structuredContent :=
           JObj [("userId", JStr (sub c)); ("displayName", JStr shown)] |}
  end.

Definition notes_list (isoNow : string) (ctx : option VerifiedAuthContext)
    (notes : NotesStore.NotesByUser) : ToolResult * NotesStore.NotesByUser :=
  match ctx with
  | None => (missingContext, notes)
  | Some c =>
      let '(items, notes') := NotesStore.listNotes isoNow (sub c) notes in
      ({| isError := false;
          text := "Found " +:+ decimal (Z.of_nat (length items)) +:+ " notes.";
          structuredContent := JObj [("items", JArr (map summaryJson items))] |},
       notes')
  end.

Definition notes_add (uuid seedNow isoNow : string) (args : option json)
    (ctx : option VerifiedAuthContext) (notes : NotesStore.NotesByUser)
    : ToolResult * NotesStore.NotesByUser :=
  match ctx with
  | None => (missingContext, notes)
  | Some c =>
      let title := argText args "title" in
      let body := argText args "body" in
      let '(noteId, notes') :=
        NotesWrite.addNote uuid seedNow isoNow (sub c) title body notes in
      ({| isError := false;
          text := "Added note " +:+ noteId;
          structuredContent := JObj [("ok", JBool true); ("noteId", JStr noteId)] |},
       notes')
  end.

Section WithJose.
Context `{Jose}.

(** The GET handler: the underlying handler runs with the context of a
    valid token, and without one otherwise. *)
Definition GET (env : Env) (now : Z) (authorization : option string)
    : outcome Handling :=
  match verifyBearerFromRequest env now authorization with
  | Throw m => Throw m
  | Return (StatusValid ctx) => Return (Forwarded (Some ctx))
  | Return _ => Return (Forwarded None)
  end.

End WithJose.

End McpTools.

(** ** Vocabulary of the specification

    Predicates that the statements below use to say what the specification
    says, written from its words and independently of the code. *)

Module Spec.

(** A header value of the form "Bearer <non-empty-token>": the scheme word in
    any letter case, at least one space character, and a token that is not
    only made of spaces. *)
Definition bearerForm (header : string) : Prop :=
  exists scheme spaces token : string,
    header = scheme +:+ spaces +:+ token
    /\ Js.toLowerCase scheme = "bearer"
    /\ spaces <> EmptyString
    /\ Js.all Js.isSpace spaces = true
    /\ Js.trim token <> EmptyString.

(** A token: a non-empty string without space characters. *)
Definition isToken (token : string) : Prop :=
  token <> EmptyString /\ Js.all (fun c => negb (Js.isSpace c)) token = true.

End Spec.

(** ** Runs of the authorization server

    The token and authorize handlers run one after the other on the shared
    store (a single cooperative process). A run is the list of the store
    operations they perform. *)

Module Run.
Import Store OAuth.

Inductive Call :=
  | Redeem (now signNow : Z) (params : RedeemParams)
  | Issue (uuid : string) (now : Z) (config : AuthServerConfig)
      (request : ValidatedAuthorizeRequest) (user : DemoUser).

Section WithPlatform.
Context `{Crypto} `{Jose}.

Definition step (st : State) (c : Call) : State :=
  match c with
  | Redeem now signNow params => snd (redeemAuthorizationCode now signNow params st)
  | Issue uuid now config request user =>
      snd (issueAuthorizationCode uuid now config request user st)
  end.

Definition run (calls : list Call) (st : State) : State :=
  fold_left step calls st.

End WithPlatform.

(** The record of a code is in the store and flagged as used. *)
Definition isUsed (c : string) (st : State) : Prop :=
  exists rec, findAuthCode c st = Some rec /\ used rec = true.

(** A call answered with the given OAuth error, the store left as it was. *)
Definition refusedWith (e : OAuthErrorCode) (st : State)
    (r : outcome RedeemResult * State) : Prop :=
  exists d, r = (Return (RedeemErr {| error := e; error_description := d |}), st).

(** The code string an [Issue] call stores its record under. *)
Definition issues (c : Call) (code : string) : Prop :=
  match c with
  | Issue uuid _ _ _ _ => "ac_" +:+ uuid = code
  | Redeem _ _ _ => False
  end.

End Run.

(** ** Requests to the resource server *)

Module Rpc.

(** [reqBody] is a JSON-RPC request object of method tools/call that names
    the tool [tool]; [id] is its id, null when it has none. *)
Definition toolsCall (reqBody id : json) (tool : string) : Prop :=
  exists fields,
    reqBody = JObj fields
    /\ assoc "method" fields = Some (JStr "tools/call")
    /\ prop (assoc "params" fields) "name" = Some (JStr tool)
    /\ id = default JNull (assoc "id" fields).

(** The challenge sent for a tool: the pointer to the resource metadata at
    [url], the scopes of the tool's policy, the error code and its description. *)
Definition guardChallenge (url : string) (toolScopes : list string)
    (e : McpAuth.ChallengeError) (d : string) : string :=
  McpAuth.buildWwwAuthenticate url
    {| McpAuth.ch_scope := Some (Js.join " " toolScopes);
       McpAuth.ch_error := Some e;
       McpAuth.ch_error_description := Some d |}.

End Rpc.

(** ** Acceptable access tokens *)

Module Token.

Section WithJose.
Context `{Jose}.

(** What the specification requires of a token whose claims are returned:
    a valid HS256 signature under the secret, an expiry (when the token has
    one) still ahead of the clock, the configured issuer, the configured
    audience as the aud claim or as a member of it, a non-empty string sub
    and a string scope. [now] is in milliseconds, exp in seconds. *)
Definition acceptable (now : Z) (token : string) (params : Jwt.VerifyParams)
    (claims : json) : Prop :=
  jws_decode token = Some ("HS256", claims)
  /\ jws_verify token "HS256" (Jwt.secret params) = true
  /\ match prop (Some claims) "exp" with
     | None => True
     | Some v => exists e, v = JNum e /\ now / 1000 < e
     end
  /\ prop (Some claims) "iss" = Some (JStr (Jwt.issuer params))
  /\ (prop (Some claims) "aud" = Some (JStr (Jwt.audience params))
      \/ exists items,
           prop (Some claims) "aud" = Some (JArr items)
           /\ JStr (Jwt.audience params) ∈ items)
  /\ (exists sub, prop (Some claims) "sub" = Some (JStr sub) /\ sub <> EmptyString)
  /\ (exists scope, prop (Some claims) "scope" = Some (JStr scope)).

End WithJose.

End Token.

(** ** A sample deployment

    Concrete values on which the definitions are evaluated: a configuration,
    stand-ins for the hash and for the token codec, a registered client and an
    issued code. The stand-ins only serve evaluation; every general statement
    below holds for any [Crypto] and [Jose]. *)

Module Sample.
Import Store OAuth.

(** A 32-byte checksum in place of SHA-256. *)
Definition checksum : Crypto :=
  {| sha256_digest := fun bs =>
       map (fun i => (fold_left N.add bs 0 + N.of_nat i) mod 256)%N (seq 0 32) |}.

Definition config : AuthServerConfig :=
  {| authPort := 4000;
     cfg_issuer := "http://localhost:4000";
     mcpResource := "http://localhost:3000/mcp";
     jwtSecret := "s3cret";
     accessTokenTtlSec := 600;
     authCodeTtlSec := 600;
     allowedRedirectUris :=
       {[ "https://chatgpt.com/connector_platform_oauth_redirect";
          "https://example-client.test/cb" ]};
     allowedClientMetadataHosts := {[ "www.mcpjam.com" ]} |}.

Definition tokenClaims (aud : string) (exp : option Z) : json :=
  JObj ([("iss", JStr "http://localhost:4000");
         ("sub", JStr "u_123");
         ("aud", JStr aud);
         ("iat", JNum 1000)]
        ++ match exp with Some e => [("exp", JNum e)] | None => [] end
        ++ [("scope", JStr "notes:read profile:read");
            ("name", JStr "Alex")]).

(** A token codec with four tokens, all signed with the secret "s3cret". *)
Definition tokenTable : list (string * json) :=
  [("tok.u_123", tokenClaims "http://localhost:3000/mcp" (Some 1600));
   ("tok.other-audience", tokenClaims "https://other.test/mcp" (Some 1600));
   ("tok.no-exp", tokenClaims "http://localhost:3000/mcp" None);
   ("tok.profile-only",
    JObj [("iss", JStr "http://localhost:4000"); ("sub", JStr "u_123");
          ("aud", JStr "http://localhost:3000/mcp"); ("exp", JNum 1600);
          ("scope", JStr "profile:read")])].

Definition codec : Jose :=
  {| jws_decode := fun t =>
       (fun payload => ("HS256", payload)) <$> assoc t tokenTable;
     jws_verify := fun t alg secret =>
       bool_decide (is_Some (assoc t tokenTable))
       && String.eqb alg "HS256" && String.eqb secret "s3cret";
     jws_sign := fun alg payload secret =>
       "tok." +:+ default EmptyString (asString (prop (Some payload) "sub")) |}.

Definition verifier : string := "dBjftJeZ4CVP-mB92K27uhbUJU1p1r_wW1gFWFOEjXk".

(** The S256 challenge of [verifier] under [checksum]. *)
Definition challenge : string :=
  Eval vm_compute in @Pkce.computeS256CodeChallenge checksum verifier.

Definition registered : HttpResponse * State :=
  Eval vm_compute in
  Server.register "0123456789abcdef" 1000 config
    (Some (JObj [("client_name", JStr "Example");
                 ("redirect_uris", JArr [JStr "https://example-client.test/cb"])]))
    Store.initial.

Definition client : OAuthClient :=
  {| client_id := "c_0123456789abcdef"; client_name := "Example";
     redirect_uris := ["https://example-client.test/cb"]; created_at := 1000 |}.

Definition authorizeQuery : json :=
  JObj [("response_type", JStr "code");
        ("client_id", JStr "c_0123456789abcdef");
        ("redirect_uri", JStr "https://example-client.test/cb");
        ("scope", JStr "profile:read  notes:read profile:read");
        ("state", JStr "xyz");
        ("code_challenge", JStr challenge);
        ("code_challenge_method", JStr "S256");
        ("resource", JStr "http://localhost:3000/mcp")].

Definition request : ValidatedAuthorizeRequest :=
  Eval vm_compute in
  match validateAuthorizeRequest authorizeQuery config (Some client) with
  | ValidateOk r _ => r
  | ValidateErr _ =>
      {| req_response_type := EmptyString; req_client_id := EmptyString;
         req_redirect_uri := EmptyString; req_scope := EmptyString;
         req_state := EmptyString; req_code_challenge := EmptyString;
         req_code_challenge_method := EmptyString; req_resource := EmptyString;
         req_scopes := [] |}
  end.

(** The store once the client is registered and a code issued at time 2000. *)
Definition issued : State :=
  Eval vm_compute in
  snd (issueAuthorizationCode "feedfacefeedface" 2000 config request alex
         (snd registered)).

Definition redemption : RedeemParams :=
  {| rp_config := config;
     rp_code := "ac_feedfacefeedface";
     rp_client := Some client;
     rp_client_id := "c_0123456789abcdef";
     rp_redirect_uri := "https://example-client.test/cb";
     rp_resource := "http://localhost:3000/mcp";
     rp_code_verifier := verifier |}.

(** The same request from a client_id that resolves to no client. *)
Definition strangerRedemption : RedeemParams :=
  {| rp_config := config;
     rp_code := "ac_feedfacefeedface";
     rp_client := None;
     rp_client_id := "c_unknown";
     rp_redirect_uri := "https://example-client.test/cb";
     rp_resource := "http://localhost:3000/mcp";
     rp_code_verifier := verifier |}.

Definition redeemed : State :=
  Eval vm_compute in
  snd (@redeemAuthorizationCode checksum codec 3000 3000 redemption issued).

End Sample.

(** Sample requests to the resource server. *)
Module SampleRs.

Definition resourceMetadataUrl : string :=
  "http://localhost:3000/.well-known/oauth-protected-resource".

Definition env : McpAuth.Env :=
  {[ "JWT_SECRET" := "s3cret";
     "AUTH_ISSUER" := "http://localhost:4000";
     "MCP_RESOURCE" := "http://localhost:3000/mcp" ]}.

Definition call (tool : string) : json :=
  JObj [("jsonrpc", JStr "2.0");
        ("id", JNum 7);
        ("method", JStr "tools/call");
        ("params", JObj [("name", JStr tool); ("arguments", JObj [])])].

End SampleRs.

(** A client that identifies itself by the URL of its metadata document. *)
Module SampleCimd.
Import ClientMetadata.

Definition canonical : string :=
  "https://www.mcpjam.com/.well-known/oauth/client-metadata.json".

Definition parsed (h proto host path : string) : URL :=
  {| href := h; protocol := proto; hostname := host; pathname := path;
     hash := EmptyString |}.

(** The URL parser on the few strings the samples use: scheme and host come
    out in lower case, the path as written. *)
Definition web : WebApi :=
  {| url_parse := fun s =>
       if String.eqb s canonical
          || String.eqb s "HTTPS://WWW.MCPJAM.COM/.well-known/oauth/client-metadata.json"
       then Some (parsed canonical "https:" "www.mcpjam.com"
                    "/.well-known/oauth/client-metadata.json")
       else if String.eqb s "https://attacker.test/client.json"
       then Some (parsed s "https:" "attacker.test" "/client.json")
       else if String.eqb s "https://example-client.test/cb"
       then Some (parsed s "https:" "example-client.test" "/cb")
       else None;
     date_parse := fun _ => None |}.

Definition document (declaredId : string) : json :=
  JObj [("client_id", JStr declaredId);
        ("client_name", JStr "MCPJam");
        ("redirect_uris", JArr [JStr "https://example-client.test/cb"])].

(** A network on which every fetch is answered 200 with the given document. *)
Definition serving (declaredId : string)
    : string -> list (string * string) -> FetchOutcome :=
  fun _ _ => FetchResponse 200 ∅ (Some (document declaredId)).

Definition params : ResolveParams :=
  {| rs_client_id := canonical;
     rs_config := Sample.config;
     requestedRedirectUri := Some "https://example-client.test/cb" |}.

(** The form body of a token request for the sample code. *)
Definition tokenRequest (clientId : string) : json :=
  JObj [("grant_type", JStr "authorization_code");
        ("code", JStr "ac_feedfacefeedface");
        ("redirect_uri", JStr "https://example-client.test/cb");
        ("client_id", JStr clientId);
        ("code_verifier", JStr Sample.verifier);
        ("resource", JStr "http://localhost:3000/mcp")].

(** A network on which every fetch fails. *)
Definition offline : string -> list (string * string) -> FetchOutcome :=
  fun _ _ => FetchRejected.

End SampleCimd.

(** ** Further predicates used in the statements *)

Module Alphabet.

(** The base64url alphabet of RFC 4648: letters, digits, [-] and [_]. *)
Definition base64url (c : ascii) : bool :=
  let n := Js.code c in
  ((65 <=? n) && (n <=? 90) || (97 <=? n) && (n <=? 122)
   || (48 <=? n) && (n <=? 57) || (n =? 45) || (n =? 95))%N.

(** No character of the class [\s]. *)
Definition spaceFree (s : string) : bool :=
  Js.all (fun c => negb (Js.isSpace c)) s.

(** The characters that [escapeHtml] replaces. *)
Definition htmlSpecial (c : ascii) : bool :=
  let n := Js.code c in
  ((n =? 38) || (n =? 60) || (n =? 62) || (n =? 34) || (n =? 39))%N.

(** The characters that a quoted attribute value or a text node must not
    hold as such. *)
Definition markup (c : ascii) : bool :=
  Ascii.eqb c "<" || Ascii.eqb c ">" || Ascii.eqb c (ascii_of_nat 34) || Ascii.eqb c "'".

End Alphabet.

(** A sample environment of the authorization server, and a reading of
    numbers that knows the unsigned decimal integers. *)
Module SampleEnv.

Definition number : JsNumber :=
  {| toNumber := fun s => QArith_base.inject_Z <$> ClientMetadata.digits s |}.

Definition env : AuthConfig.Env :=
  {[ "JWT_SECRET" := " s3cret ";
     "AUTH_CODE_TTL_SEC" := "300";
     "OAUTH_ALLOWED_REDIRECT_URIS" :=
       "https://chatgpt.com/connector_platform_oauth_redirect, https://example-client.test/cb";
     "OAUTH_ALLOWED_CLIENT_METADATA_HOSTS" := "WWW.MCPJAM.COM" ]}.

End SampleEnv.

(** * Properties *)

(** ** The definitions on concrete inputs *)

Example splitSpaces_pieces : Js.splitSpaces " a  b " = [""; "a"; "b"; ""].
Proof. reflexivity. Qed.

Example trim_both_ends : Js.trim "  ab c  " = "ab c".
Proof. reflexivity. Qed.

Example parseScopeParam_blank :
  Scopes.parseScopeParam None = [] /\ Scopes.parseScopeParam (Some "  ") = [].
Proof. split; reflexivity. Qed.

Example normalizeScopes_sorted_unique :
  Scopes.normalizeScopes ["notes:read"; "profile:read"; ""; "notes:read"]
  = ["notes:read"; "profile:read"].
Proof. vm_compute. reflexivity. Qed.

Example hasAllScopes_all_of :
  Scopes.hasAllScopes {[ "a" ]} ["a"; "b"] = false
  /\ Scopes.hasAllScopes {[ "a"; "b"; "c" ]} ["a"; "b"] = true.
Proof. split; vm_compute; reflexivity. Qed.

Example base64_padding :
  Pkce.base64 [77; 97; 110]%N = "TWFu"
  /\ Pkce.base64 [77; 97]%N = "TWE="
  /\ Pkce.base64urlEncode [251; 255]%N = "-_8".
Proof. repeat split; reflexivity. Qed.

Example constantTimeEqual_lengths :
  Pkce.constantTimeEqual "abc" "abcd" = Return false
  /\ Pkce.constantTimeEqual "abc" "abd" = Return false
  /\ Pkce.constantTimeEqual "abc" "abc" = Return true.
Proof. repeat split; vm_compute; reflexivity. Qed.

Example parseBearerTokenFromHeader_samples :
  McpAuth.parseBearerTokenFromHeader (Some "Bearer abc") = Some "abc"
  /\ McpAuth.parseBearerTokenFromHeader (Some "bEARER   abc  ") = Some "abc"
  /\ McpAuth.parseBearerTokenFromHeader (Some "Bearer") = None
  /\ McpAuth.parseBearerTokenFromHeader (Some "Bearer    ") = None
  /\ McpAuth.parseBearerTokenFromHeader (Some "Basic abc") = None
  /\ McpAuth.parseBearerTokenFromHeader (Some "Bearerabc") = None.
Proof. repeat split; vm_compute; reflexivity. Qed.

Example parseCacheControl_directives :
  ClientMetadata.parseCacheControl (Some "No-Cache, max-age=60 , MAX-AGE=abc")
  = {| ClientMetadata.noStore := false; ClientMetadata.noCache := true;
       ClientMetadata.maxAgeSec := Some 60 |}.
Proof. vm_compute. reflexivity. Qed.

(** The sample code expires ten minutes after it was issued at time 2000:
    presented at that instant, with everything else right, it is refused. *)
Example expired_code_refused :
  fst (@OAuth.redeemAuthorizationCode Sample.checksum Sample.codec 602000 602000
         Sample.redemption Sample.issued)
  = OAuth.refuse OAuth.invalid_grant "Code expired or already used".
Proof. vm_compute. reflexivity. Qed.

(** The token endpoint on the sample code: 200 with the token response. *)
Example token_endpoint_success :
  fst (fst (@Server.token Sample.checksum Sample.codec SampleCimd.web
              SampleCimd.offline false 3000 3000 3000 3000 Sample.config
              (Some (SampleCimd.tokenRequest "c_0123456789abcdef")) ∅ Sample.issued))
  = Return {| status := 200;
              headers := [("Cache-Control", "no-store")];
              body := JObj [("ok", JBool true);
                            ("access_token", JStr "tok.u_123");
                            ("token_type", JStr "Bearer");
                            ("expires_in", JNum 600);
                            ("scope", JStr "notes:read profile:read")] |}.
Proof. vm_compute. reflexivity. Qed.


(** ** Strings *)

Section StringFacts.

Lemma append_nil_l (s : string) : EmptyString +:+ s = s.
Proof. reflexivity. Qed.

Lemma append_cons (c : ascii) (s t : string) : String c s +:+ t = String c (s +:+ t).
Proof. reflexivity. Qed.

Lemma append_nil_r (s : string) : s +:+ EmptyString = s.
Proof. induction s as [|c s IH]; [reflexivity|]. rewrite append_cons, IH. reflexivity. Qed.

Lemma isEmpty_true (s : string) : Js.isEmpty s = true <-> s = EmptyString.
Proof. destruct s; simpl; split; congruence. Qed.

Lemma isEmpty_false (s : string) : Js.isEmpty s = false <-> s <> EmptyString.
Proof. destruct s; simpl; split; congruence. Qed.

Lemma dropEndWhile_all_false (p : ascii -> bool) (s : string) :
  Js.all (fun c => negb (p c)) s = true -> Js.dropEndWhile p s = s.
Proof.
  induction s as [|c s IH]; simpl; [reflexivity|].
  intros [Hc Hs]%andb_prop. rewrite (IH Hs).
  apply negb_true_iff in Hc. rewrite Hc, andb_false_r. reflexivity.
Qed.

Lemma dropEndWhile_last (p : ascii -> bool) (s : string) (c : ascii) :
  Js.last (Js.dropEndWhile p s) = Some c -> p c = false.
Proof.
  induction s as [|d s IH]; simpl; [discriminate|].
  destruct (Js.isEmpty (Js.dropEndWhile p s)) eqn:He; simpl.
  - apply isEmpty_true in He. rewrite He.
    destruct (p d) eqn:Hd; simpl; [discriminate|].
    intros [= <-]. exact Hd.
  - destruct (Js.dropEndWhile p s) as [|e r] eqn:Hr; [discriminate|].
    intros Hl. apply IH. exact Hl.
Qed.

Lemma trim_no_space (s : string) :
  Js.all (fun c => negb (Js.isSpace c)) s = true -> Js.trim s = s.
Proof.
  intros Hs. unfold Js.trim, Js.trimEnd.
  assert (Js.trimStart s = s) as ->.
  { destruct s as [|c s]; [reflexivity|]. simpl in *.
    apply andb_prop in Hs as [Hc _]. apply negb_true_iff in Hc. rewrite Hc. reflexivity. }
  apply dropEndWhile_all_false. exact Hs.
Qed.

Lemma last_all (p : ascii -> bool) (s : string) (c : ascii) :
  Js.all p s = true -> Js.last s = Some c -> p c = true.
Proof.
  induction s as [|d s IH]; simpl; [discriminate|].
  intros [Hd Hs]%andb_prop. destruct s as [|e r].
  - intros [= <-]. exact Hd.
  - intros Hl. apply IH; assumption.
Qed.

Lemma trim_one_space (c : ascii) :
  Js.isSpace c = true -> Js.trim (String c EmptyString) = EmptyString.
Proof. intros Hc. unfold Js.trim. simpl. rewrite Hc. reflexivity. Qed.

End StringFacts.

(** ** PKCE (shared/pkce.ts) *)

Section PkceFacts.
Context `{Crypto}.

Lemma constantTimeEqual_spec (a b : string) :
  Pkce.constantTimeEqual a b = Return (bool_decide (Pkce.utf8 a = Pkce.utf8 b)).
Proof.
  unfold Pkce.constantTimeEqual, Pkce.timingSafeEqual.
  destruct (decide (length (Pkce.utf8 a) = length (Pkce.utf8 b))) as [Hl|Hl].
  - rewrite (bool_decide_eq_true_2 _ Hl). reflexivity.
  - rewrite (bool_decide_eq_false_2 _ Hl). simpl. f_equal.
    symmetry. apply bool_decide_eq_false_2. intros Heq. apply Hl. rewrite Heq. reflexivity.
Qed.

Lemma base64urlEncode_unpadded (input : Buffer) :
  Js.last (Pkce.base64urlEncode input) <> Some "="%char.
Proof.
  unfold Pkce.base64urlEncode. intros Hl.
  apply dropEndWhile_last in Hl. discriminate Hl.
Qed.


End PkceFacts.

(** ** Bearer header parsing (app/mcp/auth.ts) *)

Section BearerFacts.
Import McpAuth.

Lemma stripPrefixIgnoreCase_inv (word s rest : string) :
  stripPrefixIgnoreCase word s = Some rest ->
  exists scheme, s = scheme +:+ rest /\ Js.canonicalizeAll scheme = Js.canonicalizeAll word.
Proof.
  revert s. induction word as [|a word IH]; intros s; simpl.
  - intros [= ->]. exists EmptyString. split; reflexivity.
  - destruct s as [|b s]; [discriminate|].
    destruct (Ascii.eqb (Js.canonicalize a) (Js.canonicalize b)) eqn:Hab; [|discriminate].
    apply Ascii.eqb_eq in Hab. intros Hs.
    destruct (IH _ Hs) as (scheme & -> & Hc).
    exists (String b scheme). split; [reflexivity|].
    simpl. rewrite Hab, Hc. reflexivity.
Qed.

Lemma stripPrefixIgnoreCase_app (word scheme rest : string) :
  Js.canonicalizeAll scheme = Js.canonicalizeAll word ->
  stripPrefixIgnoreCase word (scheme +:+ rest) = Some rest.
Proof.
  revert scheme. induction word as [|a word IH]; intros scheme; simpl.
  - destruct scheme; simpl; [reflexivity|discriminate].
  - destruct scheme as [|b scheme]; simpl; [discriminate|].
    intros [= Hb Hs]. rewrite ?append_cons. simpl. rewrite Hb, Ascii.eqb_refl.
    apply IH. exact Hs.
Qed.

Lemma canonicalize_letter (c : ascii) :
  (Js.canonicalize c = "B" <-> Js.lowerChar c = "b")%char
  /\ (Js.canonicalize c = "E" <-> Js.lowerChar c = "e")%char
  /\ (Js.canonicalize c = "A" <-> Js.lowerChar c = "a")%char
  /\ (Js.canonicalize c = "R" <-> Js.lowerChar c = "r")%char.
Proof.
  destruct c as [[] [] [] [] [] [] [] []]; vm_compute; repeat split; congruence.
Qed.

Lemma canon_bearer (scheme : string) :
  Js.canonicalizeAll scheme = Js.canonicalizeAll "Bearer" <-> Js.toLowerCase scheme = "bearer".
Proof.
  change (Js.canonicalizeAll "Bearer") with "BEARER".
  destruct scheme as [|c1 [|c2 [|c3 [|c4 [|c5 [|c6 [|c7 r]]]]]]]; simpl;
    try (split; discriminate).
  destruct (canonicalize_letter c1) as (B1 & _ & _ & _).
  destruct (canonicalize_letter c2) as (_ & E2 & _ & _).
  destruct (canonicalize_letter c3) as (_ & _ & A3 & _).
  destruct (canonicalize_letter c4) as (_ & _ & _ & R4).
  destruct (canonicalize_letter c5) as (_ & E5 & _ & _).
  destruct (canonicalize_letter c6) as (_ & _ & _ & R6).
  split; intros [= H1 H2 H3 H4 H5 H6].
  - apply B1 in H1. apply E2 in H2. apply A3 in H3.
    apply R4 in H4. apply E5 in H5. apply R6 in H6. congruence.
  - apply B1 in H1. apply E2 in H2. apply A3 in H3.
    apply R4 in H4. apply E5 in H5. apply R6 in H6. congruence.
Qed.

Lemma spanSpaces_inv (s ws rest : string) :
  spanSpaces s = (ws, rest) ->
  s = ws +:+ rest /\ Js.all Js.isSpace ws = true.
Proof.
  revert ws rest. induction s as [|c s IH]; intros ws rest; simpl.
  - intros [= <- <-]. split; reflexivity.
  - destruct (Js.isSpace c) eqn:Hc.
    + destruct (spanSpaces s) as [ws' rest'] eqn:Hs. intros [= <- <-].
      destruct (IH _ _ eq_refl) as [-> Hws]. split; [reflexivity|].
      simpl. rewrite Hc, Hws. reflexivity.
    + intros [= <- <-]. split; reflexivity.
Qed.

Lemma spanSpaces_token (token : string) :
  Spec.isToken token ->
  spanSpaces (" " +:+ token) = (" ", token).
Proof.
  intros [Hne Hall]. destruct token as [|c r]; [congruence|].
  simpl in Hall. apply andb_prop in Hall as [Hc _]. apply negb_true_iff in Hc.
  change (" " +:+ String c r) with (String " "%char (String c r)).
  simpl. rewrite Hc. reflexivity.
Qed.

Lemma matchBearer_inv (header g : string) :
  matchBearer header = Some g ->
  Js.trim g <> EmptyString ->
  exists scheme spaces,
    header = scheme +:+ spaces +:+ g
    /\ Js.toLowerCase scheme = "bearer"
    /\ spaces <> EmptyString
    /\ Js.all Js.isSpace spaces = true.
Proof.
  unfold matchBearer.
  destruct (stripPrefixIgnoreCase "Bearer" header) as [afterScheme|] eqn:Hp; [|discriminate].
  destruct (stripPrefixIgnoreCase_inv _ _ _ Hp) as (scheme & -> & Hscheme).
  apply canon_bearer in Hscheme.
  destruct (spanSpaces afterScheme) as [ws rest] eqn:Hs.
  destruct (spanSpaces_inv _ _ _ Hs) as [-> Hws].
  destruct (Js.isEmpty ws) eqn:Hew; [discriminate|]. apply isEmpty_false in Hew.
  destruct (Js.isEmpty rest) eqn:Her; simpl.
  - destruct (Js.last ws) as [c|] eqn:Hl; [|discriminate].
    destruct ((2 <=? Z.of_nat (String.length ws)) && isDot c); [|discriminate].
    intros [= <-] Htrim. exfalso. apply Htrim.
    apply trim_one_space. eapply last_all; eassumption.
  - destruct (Js.all isDot rest); [|discriminate].
    intros [= <-] _. exists scheme, ws. auto.
Qed.

Lemma parseBearerTokenFromHeader_form (header token : string) :
  parseBearerTokenFromHeader (Some header) = Some token -> Spec.bearerForm header.
Proof.
  unfold parseBearerTokenFromHeader.
  destruct (Js.isEmpty header); [discriminate|].
  destruct (matchBearer header) as [g|] eqn:Hm; [|discriminate].
  destruct (Js.isEmpty (Js.trim g)) eqn:Ht; [discriminate|]. intros _.
  apply isEmpty_false in Ht.
  destruct (matchBearer_inv _ _ Hm Ht) as (scheme & spaces & -> & ? & ? & ?).
  exists scheme, spaces, g. auto.
Qed.

Lemma token_all_dot (token : string) :
  Js.all (fun c => negb (Js.isSpace c)) token = true -> Js.all isDot token = true.
Proof.
  induction token as [|c r IH]; simpl; [reflexivity|].
  intros [Hc Hr]%andb_prop. rewrite (IH Hr), andb_true_r.
  unfold isDot. unfold Js.isSpace in Hc.
  apply negb_true_iff, orb_false_iff in Hc as [_ ->]. reflexivity.
Qed.

Lemma parseBearerTokenFromHeader_accepts (scheme token : string) :
  Js.toLowerCase scheme = "bearer" ->
  Spec.isToken token ->
  parseBearerTokenFromHeader (Some (scheme +:+ " " +:+ token)) = Some token.
Proof.
  intros Hscheme Htok. pose proof Htok as [Hne Hall].
  unfold parseBearerTokenFromHeader.
  assert (Js.isEmpty (scheme +:+ " " +:+ token) = false) as ->.
  { destruct scheme; [discriminate Hscheme|reflexivity]. }
  unfold matchBearer.
  rewrite stripPrefixIgnoreCase_app by (apply canon_bearer; exact Hscheme).
  rewrite (spanSpaces_token _ Htok). simpl.
  apply isEmpty_false in Hne. rewrite Hne. simpl.
  rewrite (token_all_dot _ Hall), (trim_no_space _ Hall), Hne. reflexivity.
Qed.

Context `{Jose}.

(** C10. A request without an Authorization header, or with one that is not
    of the form Bearer followed by spaces and a non-empty token (another
    scheme, a bare Bearer, a token of spaces only), is classified none, never
    invalid, and this before any environment variable is read; the word Bearer
    is recognised in any letter case. *)
Theorem bearer_header_classified_none (env : Env) (now : Z) :
  verifyBearerFromRequest env now None = Return StatusNone
  /\ (forall header : string,
         ~ Spec.bearerForm header ->
         verifyBearerFromRequest env now (Some header) = Return StatusNone)
  /\ (forall scheme token : string,
         Js.toLowerCase scheme = "bearer" ->
         Spec.isToken token ->
         parseBearerTokenFromHeader (Some (scheme +:+ " " +:+ token)) = Some token).
Proof.
  split; [reflexivity|]. split.
  - intros header Hform. unfold verifyBearerFromRequest.
    destruct (parseBearerTokenFromHeader (Some header)) as [token|] eqn:Hp; [|reflexivity].
    exfalso. apply Hform. eapply parseBearerTokenFromHeader_form. exact Hp.
  - apply parseBearerTokenFromHeader_accepts.
Qed.

End BearerFacts.

(** ** Redeeming authorization codes (auth-server/oauth.ts, store.ts) *)

(** Walks down the chain of checks of redeemAuthorizationCode, closing the
    branch of each failing check with [tac]. *)
Ltac skip_checks tac :=
  repeat match goal with
         | |- context [if ?b then _ else _] => destruct b; [tac|]
         end.

Create HintDb store.

Section RedeemFacts.
Import Store OAuth.
Context `{Crypto} `{Jose}.

Lemma markAuthCodeUsed_same (c : string) (st : State) (rec : AuthCodeRecord) :
  findAuthCode c st = Some rec ->
  findAuthCode c (markAuthCodeUsed c st) = Some (set_used rec true).
Proof.
  unfold findAuthCode, markAuthCodeUsed. intros Hf. rewrite Hf. simpl.
  apply lookup_insert_eq.
Qed.

Lemma markAuthCodeUsed_other (c c' : string) (st : State) :
  c <> c' -> findAuthCode c' (markAuthCodeUsed c st) = findAuthCode c' st.
Proof.
  unfold findAuthCode, markAuthCodeUsed. intros Hne.
  destruct (authCodesByCode st !! c); [|reflexivity]. simpl.
  apply lookup_insert_ne. exact Hne.
Qed.

Lemma markAuthCodeUsed_isUsed (c c' : string) (st : State) :
  Run.isUsed c' st -> Run.isUsed c' (markAuthCodeUsed c st).
Proof.
  intros (rec & Hf & Hu). destruct (decide (c = c')) as [->|Hne].
  - exists (set_used rec true). split; [apply markAuthCodeUsed_same; exact Hf|reflexivity].
  - exists rec. rewrite markAuthCodeUsed_other by exact Hne. auto.
Qed.

#[local] Hint Resolve markAuthCodeUsed_same markAuthCodeUsed_isUsed : store.

(** The store after a call is the store before it, or that store with the
    presented code marked. *)
Lemma redeem_store (now signNow : Z) (p : RedeemParams) (st : State) :
  snd (redeemAuthorizationCode now signNow p st) = st
  \/ snd (redeemAuthorizationCode now signNow p st) = markAuthCodeUsed (rp_code p) st.
Proof.
  unfold redeemAuthorizationCode.
  destruct (rp_client p); [|left; reflexivity].
  destruct (findAuthCode (rp_code p) st) as [rec|]; [|left; reflexivity].
  skip_checks ltac:(left; reflexivity).
  destruct (Pkce.constantTimeEqual _ _) as [[]|]; auto.
Qed.

Lemma redeem_no_client (now signNow : Z) (p : RedeemParams) (st : State) :
  rp_client p = None ->
  redeemAuthorizationCode now signNow p st
  = (refuse unauthorized_client "Unknown client_id", st).
Proof. unfold redeemAuthorizationCode. intros ->. reflexivity. Qed.

Lemma redeem_unknown_code (now signNow : Z) (p : RedeemParams) (st : State) :
  rp_client p <> None ->
  findAuthCode (rp_code p) st = None ->
  redeemAuthorizationCode now signNow p st = (refuse invalid_grant "Unknown code", st).
Proof.
  unfold redeemAuthorizationCode. intros Hc ->.
  destruct (rp_client p); [reflexivity|congruence].
Qed.

Lemma redeem_used_or_expired (now signNow : Z) (p : RedeemParams) (st : State)
    (rec : AuthCodeRecord) :
  rp_client p <> None ->
  findAuthCode (rp_code p) st = Some rec ->
  used rec = true \/ expires_at rec <= now ->
  redeemAuthorizationCode now signNow p st
  = (refuse invalid_grant "Code expired or already used", st).
Proof.
  unfold redeemAuthorizationCode. intros Hc -> Hue.
  destruct (rp_client p); [|congruence].
  assert (used rec || (expires_at rec <=? now) = true) as ->; [|reflexivity].
  destruct Hue as [->|Hle]; [reflexivity|].
  apply orb_true_iff. right. apply Z.leb_le. exact Hle.
Qed.

(** A successful redemption found the record fresh, and marked it. *)
Lemma redeem_ok_inv (now signNow : Z) (p : RedeemParams) (st st' : State)
    (resp : TokenResponse) :
  redeemAuthorizationCode now signNow p st = (Return (RedeemOk resp), st') ->
  exists rec,
    findAuthCode (rp_code p) st = Some rec
    /\ used rec = false
    /\ st' = markAuthCodeUsed (rp_code p) st.
Proof.
  unfold redeemAuthorizationCode, refuse.
  destruct (rp_client p); [|discriminate].
  destruct (findAuthCode (rp_code p) st) as [rec|]; [|discriminate].
  destruct (used rec) eqn:Hu; simpl; [discriminate|].
  skip_checks discriminate.
  destruct (Pkce.constantTimeEqual _ _) as [[]|]; try discriminate.
  intros [= _ <-]. exists rec. auto.
Qed.

Lemma redeem_ok_isUsed (now signNow : Z) (p : RedeemParams) (st st' : State)
    (resp : TokenResponse) :
  redeemAuthorizationCode now signNow p st = (Return (RedeemOk resp), st') ->
  Run.isUsed (rp_code p) st'.
Proof.
  intros Hr. destruct (redeem_ok_inv _ _ _ _ _ _ Hr) as (rec & Hf & _ & ->).
  exists (set_used rec true). split; [apply markAuthCodeUsed_same; exact Hf|reflexivity].
Qed.

Lemma step_isUsed (c : string) (call : Run.Call) (st : State) :
  ~ Run.issues call c -> Run.isUsed c st -> Run.isUsed c (Run.step st call).
Proof.
  intros Hfresh Hu. destruct call as [now signNow p|uuid now config request user]; simpl.
  - destruct (redeem_store now signNow p st) as [-> | ->]; auto with store.
  - destruct Hu as (rec & Hf & Hused). exists rec. split; [|exact Hused].
    simpl in Hfresh. unfold findAuthCode, saveAuthCode in *. simpl.
    rewrite lookup_insert_ne; [exact Hf|exact Hfresh].
Qed.

Lemma run_isUsed (c : string) (calls : list Run.Call) (st : State) :
  Forall (fun call => ~ Run.issues call c) calls ->
  Run.isUsed c st -> Run.isUsed c (Run.run calls st).
Proof.
  unfold Run.run. revert st. induction calls as [|call calls IH]; intros st Hall Hu.
  - exact Hu.
  - inversion Hall; subst. simpl. apply IH; [assumption|].
    apply step_isUsed; assumption.
Qed.

End RedeemFacts.

Section RedeemClaims.
Import Store OAuth.
Context `{Crypto} `{Jose}.

Lemma redeem_success (now signNow : Z) (p : RedeemParams) (st : State)
    (rec : AuthCodeRecord) :
  rp_client p <> None ->
  findAuthCode (rp_code p) st = Some rec ->
  used rec = false ->
  now < expires_at rec ->
  rec_client_id rec = rp_client_id p ->
  redirect_uri rec = rp_redirect_uri p ->
  resource rec = rp_resource p ->
  rp_resource p = mcpResource (rp_config p) ->
  Pkce.constantTimeEqual (Pkce.computeS256CodeChallenge (rp_code_verifier p))
    (code_challenge rec) = Return true ->
  redeemAuthorizationCode now signNow p st
  = (Return (RedeemOk
       {| access_token :=
            Jwt.token (Jwt.signAccessToken signNow
              {| Jwt.sp_issuer := cfg_issuer (rp_config p);
                 Jwt.sp_subject := user_id rec;
                 Jwt.sp_audience := resource rec;
                 Jwt.sp_scope := scope rec;
                 Jwt.sp_name := user_name rec;
                 Jwt.sp_secret := jwtSecret (rp_config p);
                 Jwt.sp_ttlSec := accessTokenTtlSec (rp_config p) |});
          token_type := "Bearer";
          expires_in := accessTokenTtlSec (rp_config p);
          tr_scope := scope rec |}),
     markAuthCodeUsed (rp_code p) st).
Proof.
  unfold redeemAuthorizationCode. intros Hc -> Hu Hexp Hcid Hred Hres Hcfg Hpkce.
  destruct (rp_client p); [|congruence].
  rewrite Hu. simpl.
  assert ((expires_at rec <=? now) = false) as -> by (apply Z.leb_gt; exact Hexp).
  rewrite (bool_decide_eq_true_2 _ Hcid), (bool_decide_eq_true_2 _ Hred),
    (bool_decide_eq_true_2 _ Hres), (bool_decide_eq_true_2 _ Hcfg). simpl.
  rewrite Hpkce. reflexivity.
Qed.



End RedeemClaims.





(** ** Scopes (shared/scopes.ts) *)

Section ScopeFacts.

Lemma dedupe_elem_of (l : list string) (s : string) : s ∈ Js.dedupe l <-> s ∈ l.
Proof.
  induction l as [|x r IH]; simpl; [reflexivity|].
  rewrite !elem_of_cons, list_elem_of_filter, IH.
  destruct (decide (s = x)); intuition.
Qed.

Lemma dedupe_NoDup (l : list string) : NoDup (Js.dedupe l).
Proof.
  induction l as [|x r IH]; simpl; [constructor|].
  constructor.
  - rewrite list_elem_of_filter. intros [Hne _]. apply Hne. reflexivity.
  - apply NoDup_filter. exact IH.
Qed.

Lemma sort_Sorted (l : list string) : Sorted String.le (Js.sort l).
Proof. apply Sorted_merge_sort. apply _. Qed.

Lemma sort_Permutation (l : list string) : Js.sort l ≡ₚ l.
Proof. apply merge_sort_Permutation. Qed.

Lemma normalizeScopes_Sorted (l : list string) :
  Sorted String.le (Scopes.normalizeScopes l).
Proof. apply sort_Sorted. Qed.

Lemma normalizeScopes_NoDup (l : list string) : NoDup (Scopes.normalizeScopes l).
Proof.
  unfold Scopes.normalizeScopes. rewrite sort_Permutation. apply dedupe_NoDup.
Qed.

Lemma normalizeScopes_elem_of (l : list string) (s : string) :
  s ∈ Scopes.normalizeScopes l <-> s ∈ l /\ s <> EmptyString.
Proof.
  unfold Scopes.normalizeScopes.
  rewrite sort_Permutation, dedupe_elem_of, list_elem_of_filter.
  unfold Js.truthy. destruct s; simpl; intuition congruence.
Qed.

Lemma isSubsetOfSupportedScopes_spec (l : list string) :
  Scopes.isSubsetOfSupportedScopes l = true
  <-> forall s, s ∈ l -> s ∈ Scopes.SCOPES_SUPPORTED.
Proof.
  unfold Scopes.isSubsetOfSupportedScopes, Js.includes.
  rewrite forallb_forall. split.
  - intros Hall s Hs. apply list_elem_of_In, Hall in Hs.
    apply bool_decide_eq_true in Hs. exact Hs.
  - intros Hall s Hs. apply bool_decide_eq_true, Hall, list_elem_of_In, Hs.
Qed.

Lemma hasAllScopes_spec (granted : gset string) (required : list string) :
  Scopes.hasAllScopes granted required = true
  <-> forall s, s ∈ required -> s ∈ granted.
Proof.
  unfold Scopes.hasAllScopes. rewrite forallb_forall. split.
  - intros Hall s Hs. apply list_elem_of_In, Hall in Hs.
    apply bool_decide_eq_true in Hs. exact Hs.
  - intros Hall s Hs. apply bool_decide_eq_true, Hall, list_elem_of_In, Hs.
Qed.

End ScopeFacts.

(** ** Validation of the authorize request (auth-server/oauth.ts) *)

Section ValidateClaims.
Import Store OAuth.

(** C6. validateAuthorizeRequest returns the first applicable error of:
    response_type other than code (invalid_request); one of client_id,
    redirect_uri, code_challenge, code_challenge_method, resource missing
    (invalid_request); no resolved client (unauthorized_client); redirect_uri
    not registered for the client (invalid_request); method other than S256
    (invalid_request); resource other than the configured one
    (invalid_request); no requested scope, or one outside the supported
    vocabulary (invalid_request). Otherwise it succeeds, and the scopes of the
    validated request are the requested ones, sorted and without repetition. *)
Theorem validate_authorize_request_order (query : json) (config : AuthServerConfig)
    (client : option OAuthClient) :
  let get := fun k => firstString (prop (Some query) k) in
  let result := validateAuthorizeRequest query config client in
  (get "response_type" <> Some "code" ->
   result = fail invalid_request "response_type must be code")
  /\ (get "response_type" = Some "code" ->
      (Exists (fun k => missing (get k) = true)
         ["client_id"; "redirect_uri"; "code_challenge"; "code_challenge_method";
          "resource"] ->
       result = fail invalid_request "Missing required parameters")
      /\ forall cid uri challenge method res : string,
           get "client_id" = Some cid /\ cid <> EmptyString ->
           get "redirect_uri" = Some uri /\ uri <> EmptyString ->
           get "code_challenge" = Some challenge /\ challenge <> EmptyString ->
           get "code_challenge_method" = Some method /\ method <> EmptyString ->
           get "resource" = Some res /\ res <> EmptyString ->
           (client = None -> result = fail unauthorized_client "Unknown client_id")
           /\ forall cl : OAuthClient,
                client = Some cl ->
                (uri ∉ redirect_uris cl ->
                 result = fail invalid_request "redirect_uri not allowed for this client")
                /\ (uri ∈ redirect_uris cl ->
                    (method <> "S256" ->
                     result = fail invalid_request "code_challenge_method must be S256")
                    /\ (method = "S256" ->
                        (res <> mcpResource config ->
                         result = fail invalid_request "resource must match MCP_RESOURCE")
                        /\ (res = mcpResource config ->
                            let requested :=
                              Scopes.normalizeScopes
                                (Scopes.parseScopeParam
                                   (Some (default EmptyString (get "scope")))) in
                            (requested = [] ->
                             result = fail invalid_request "scope is required")
                            /\ (requested <> [] ->
                                (~ (forall s, s ∈ requested ->
                                              s ∈ Scopes.SCOPES_SUPPORTED) ->
                                 result = fail invalid_request
                                            "Requested scope is not supported")
                                /\ ((forall s, s ∈ requested ->
                                               s ∈ Scopes.SCOPES_SUPPORTED) ->
                                    result
                                    = ValidateOk
                                        {| req_response_type := "code";
                                           req_client_id := cid;
                                           req_redirect_uri := uri;
                                           req_scope := Js.join " " requested;
                                           req_state :=
                                             default EmptyString (get "state");
                                           req_code_challenge := challenge;
                                           req_code_challenge_method := "S256";
                                           req_resource := res;
                                           req_scopes := requested |} cl
                                    /\ Sorted String.le requested
                                    /\ NoDup requested)))))).
Proof.
  intros get result. subst result. unfold validateAuthorizeRequest.
  cbv zeta. change (fun k => firstString (prop (Some query) k)) with get.
  change (firstString (prop (Some query) "response_type")) with (get "response_type").
  change (firstString (prop (Some query) "client_id")) with (get "client_id").
  change (firstString (prop (Some query) "redirect_uri")) with (get "redirect_uri").
  change (firstString (prop (Some query) "code_challenge")) with (get "code_challenge").
  change (firstString (prop (Some query) "code_challenge_method"))
    with (get "code_challenge_method").
  change (firstString (prop (Some query) "resource")) with (get "resource").
  change (firstString (prop (Some query) "scope")) with (get "scope").
  change (firstString (prop (Some query) "state")) with (get "state").
  split.
  - intros Hrt. rewrite (bool_decide_eq_false_2 _ Hrt). reflexivity.
  - intros Hrt. rewrite (bool_decide_eq_true_2 _ Hrt). simpl. split.
    + intros Hex.
      assert (missing (get "client_id") || missing (get "redirect_uri")
              || missing (get "code_challenge")
              || missing (get "code_challenge_method")
              || missing (get "resource") = true) as ->; [|reflexivity].
      rewrite !Exists_cons, Exists_nil in Hex. rewrite !orb_true_iff. tauto.
    + intros cid uri challenge method res [Hcid Hcid'] [Huri Huri'] [Hch Hch']
        [Hm Hm'] [Hres Hres'].
      rewrite Hcid, Huri, Hch, Hm, Hres. simpl.
      assert (Js.isEmpty cid = false) as -> by (apply isEmpty_false; exact Hcid').
      assert (Js.isEmpty uri = false) as -> by (apply isEmpty_false; exact Huri').
      assert (Js.isEmpty challenge = false) as -> by (apply isEmpty_false; exact Hch').
      assert (Js.isEmpty method = false) as -> by (apply isEmpty_false; exact Hm').
      assert (Js.isEmpty res = false) as -> by (apply isEmpty_false; exact Hres').
      simpl. split; [intros ->; reflexivity|].
      intros cl ->. unfold Js.includes. split.
      { intros Hni. rewrite (bool_decide_eq_false_2 _ Hni). reflexivity. }
      intros Hin. rewrite (bool_decide_eq_true_2 _ Hin). simpl. split.
      { intros Hne. rewrite bool_decide_eq_false_2 by congruence. reflexivity. }
      intros ->. rewrite bool_decide_eq_true_2 by reflexivity. simpl. split.
      { intros Hne. rewrite (bool_decide_eq_false_2 _ Hne). reflexivity. }
      intros Heq. rewrite (bool_decide_eq_true_2 _ Heq). simpl.
      set (requested := Scopes.normalizeScopes _). split.
      { intros ->. reflexivity. }
      intros Hne.
      rewrite bool_decide_eq_false_2
        by (destruct requested; [congruence|discriminate]).
      split.
      { intros Hsub.
        destruct (Scopes.isSubsetOfSupportedScopes requested) eqn:Hs; [|reflexivity].
        pose proof (proj1 (isSubsetOfSupportedScopes_spec _) Hs). tauto. }
      intros Hsub. rewrite (proj2 (isSubsetOfSupportedScopes_spec _) Hsub). simpl.
      split; [reflexivity|]. split.
      * apply normalizeScopes_Sorted.
      * apply normalizeScopes_NoDup.
Qed.

End ValidateClaims.

(** On the sample deployment: the authorize request of the sample validates,
    its scope string parsed, deduplicated and sorted. *)
Lemma validate_authorize_request_order_witness :
  exists request,
    OAuth.validateAuthorizeRequest Sample.authorizeQuery Sample.config
      (Some Sample.client)
    = OAuth.ValidateOk request Sample.client
    /\ OAuth.req_scopes request = ["notes:read"; "profile:read"].
Proof.
  destruct (validate_authorize_request_order Sample.authorizeQuery Sample.config
              (Some Sample.client)) as [_ Hcode].
  destruct (Hcode eq_refl) as [_ Hpresent].
  destruct (Hpresent "c_0123456789abcdef" "https://example-client.test/cb"
              Sample.challenge "S256" "http://localhost:3000/mcp")
    as [_ Hclient]; [split; [vm_compute; reflexivity|discriminate]..|].
  destruct (Hclient _ eq_refl) as [_ Huri].
  destruct (Huri ltac:(vm_compute; repeat constructor)) as [_ Hmethod].
  destruct (Hmethod eq_refl) as [_ Hres].
  destruct (Hres eq_refl) as [_ Hscope].
  destruct (Hscope ltac:(vm_compute; discriminate)) as [_ Hok].
  edestruct Hok as [Hresult _].
  - intros s Hs.
    match type of Hs with
    | _ ∈ ?l => let l' := eval vm_compute in l in change l with l' in Hs
    end.
    rewrite !elem_of_cons, elem_of_nil in Hs.
    destruct Hs as [->|[->|[]]]; unfold Scopes.SCOPES_SUPPORTED;
      rewrite !elem_of_cons; auto.
  - eexists. split; [exact Hresult|]. vm_compute. reflexivity.
Defined.

(** ** Dynamic client registration (auth-server/server.ts) *)

Section RegisterClaims.
Import Store.

Lemma normalizeEntries_elem_of (entries : list json) (u : string) :
  u ∈ Server.normalizeEntries entries
  <-> exists s, JStr s ∈ entries /\ Js.trim s = u /\ u <> EmptyString.
Proof.
  unfold Server.normalizeEntries.
  rewrite list_elem_of_filter, list_elem_of_In, in_map_iff. split.
  - intros [Ht (e & He & Hin)]. destruct e; simpl in He; subst u;
      try (exfalso; exact Ht).
    eexists. split; [apply list_elem_of_In; exact Hin|]. split; [reflexivity|].
    intros Heq. rewrite Heq in Ht. exact Ht.
  - intros (s & Hin & <- & Hne). split.
    + unfold Js.truthy. destruct (Js.trim s); [congruence|exact I].
    + exists (JStr s). split; [reflexivity|apply list_elem_of_In; exact Hin].
Qed.

(** C8 (as amended). The registration endpoint answers 400 with
    invalid_client_metadata, and stores nothing, when redirect_uris is not an
    array or is empty, when token_endpoint_auth_method is a string other than
    none, when no entry is left after the entries that are not strings or are
    blank are dropped and the others trimmed, or when one of the entries left
    is not in the configured allow-list. Otherwise it stores a public client
    under a fresh id and answers 201 with its client_id, client_name,
    redirect_uris (the entries left) and token_endpoint_auth_method. *)
Theorem register_rejects_or_creates (uuid : string) (now : Z)
    (config : AuthServerConfig) (reqBody : option json) (st : State) :
  let body := match reqBody with
              | None | Some JNull => JObj []
              | Some b => b
              end in
  let entries := asArray (prop (Some body) "redirect_uris") in
  let method := asString (prop (Some body) "token_endpoint_auth_method") in
  let name := default "ChatGPT Connector" (asString (prop (Some body) "client_name")) in
  let kept := Server.normalizeEntries (default [] entries) in
  let rejected :=
    entries = None \/ entries = Some []
    \/ (exists m, method = Some m /\ m <> "none")
    \/ kept = []
    \/ (exists uri, uri ∈ kept /\ uri ∉ allowedRedirectUris config) in
  (forall u, u ∈ kept
             <-> exists s, JStr s ∈ default [] entries /\ Js.trim s = u
                           /\ u <> EmptyString)
  /\ (rejected ->
      Server.register uuid now config reqBody st = (Server.invalid_client_metadata, st))
  /\ (~ rejected ->
      exists client,
        Server.register uuid now config reqBody st
        = ({| status := 201;
              headers := [("Cache-Control", "no-store")];
              body := JObj [("client_id", JStr ("c_" +:+ uuid));
                            ("client_name", JStr name);
                            ("redirect_uris", JArr (map JStr kept));
                            ("token_endpoint_auth_method", JStr "none")] |},
           with_clients st (<["c_" +:+ uuid := client]> (clientsById st)))
        /\ client_id client = "c_" +:+ uuid
        /\ client_name client = name
        /\ redirect_uris client = kept).
Proof.
  intros body entries method name kept rejected.
  split; [intros u; apply normalizeEntries_elem_of|].
  assert (forallb (fun uri => bool_decide (uri ∈ allowedRedirectUris config)) kept = true
          <-> ~ exists uri, uri ∈ kept /\ uri ∉ allowedRedirectUris config) as Hallow.
  { rewrite forallb_forall. split.
    - intros Hall (uri & Hin & Hout). apply Hout.
      apply list_elem_of_In, Hall in Hin. apply bool_decide_eq_true in Hin. exact Hin.
    - intros Hno uri Hin. apply bool_decide_eq_true.
      destruct (decide (uri ∈ allowedRedirectUris config)) as [|Hout]; [assumption|].
      exfalso. apply Hno. exists uri. split; [apply list_elem_of_In; exact Hin|exact Hout]. }
  assert (forall l : list string, bool_decide (length l = 0%nat) = bool_decide (l = []))
    as Hlen.
  { intros l. apply bool_decide_ext. destruct l; simpl; split; congruence. }
  assert (forall l : list json, bool_decide (length l = 0%nat) = bool_decide (l = []))
    as Hlen'.
  { intros l. apply bool_decide_ext. destruct l; simpl; split; congruence. }
  unfold Server.register. cbv zeta. fold body. fold entries. fold method. fold name.
  subst rejected. destruct entries as [items|] eqn:He; simpl in kept |- *;
    [|split; [reflexivity|intros Hn; exfalso; apply Hn; auto]].
  rewrite Hlen'. destruct (decide (items = [])) as [->|Hitems].
  { split; [reflexivity|intros Hn; exfalso; apply Hn; auto]. }
  rewrite (bool_decide_eq_false_2 _ Hitems).
  destruct (String.eqb_spec (default "none" method) "none") as [Hm|Hm]; simpl.
  2:{ split; [reflexivity|]. intros Hn. exfalso. apply Hn. right. right. left.
      destruct method as [m|]; simpl in Hm; [eauto|congruence]. }
  fold kept. rewrite Hlen. destruct (decide (kept = [])) as [Hk|Hk].
  { rewrite (bool_decide_eq_true_2 _ Hk).
    split; [reflexivity|intros Hn; exfalso; apply Hn; auto 6]. }
  rewrite (bool_decide_eq_false_2 _ Hk).
  destruct (forallb (fun uri => bool_decide (uri ∈ allowedRedirectUris config)) kept)
    eqn:Hall; simpl.
  - pose proof (proj1 Hallow eq_refl) as Hnone. split.
    + intros [?|[?|[(m & Hmm & Hne)|[?|?]]]]; try congruence; try tauto.
      rewrite Hmm in Hm. simpl in Hm. congruence.
    + intros _. eexists. split; [reflexivity|]. auto.
  - split; [reflexivity|]. intros Hn. exfalso. apply Hn.
    right. right. right. right.
    destruct (decide (Exists (fun uri => uri ∉ allowedRedirectUris config) kept))
      as [Hex|Hex].
    + apply Exists_exists in Hex. exact Hex.
    + exfalso. assert (false = true) as Hall'; [|discriminate].
      apply Hallow. intros Hex'. apply Hex, Exists_exists. exact Hex'.
Qed.

End RegisterClaims.

(** On the sample deployment: a redirect URI outside the allow-list is
    refused, and nothing is stored. *)
Lemma register_rejects_or_creates_witness :
  Server.register "0123456789abcdef" 1000 Sample.config
    (Some (JObj [("redirect_uris", JArr [JStr "https://attacker.test/cb"])]))
    Store.initial
  = (Server.invalid_client_metadata, Store.initial).
Proof.
  match goal with
  | |- Server.register ?u ?n ?c ?b ?s = _ =>
      destruct (register_rejects_or_creates u n c b s) as (_ & Hrejected & _)
  end.
  apply Hrejected. right. right. right. right.
  exists "https://attacker.test/cb". split.
  - vm_compute. repeat constructor.
  - apply (bool_decide_unpack _). vm_compute. exact I.
Defined.

(** C8 as stated fails: a registration whose redirect_uris hold, besides an
    allowed URI, a number and a blank string (neither a valid URI nor in the
    allow-list), and whose token_endpoint_auth_method is present and is not
    the string none, is answered 201. *)
Lemma register_ignores_malformed_entries :
  let reqBody :=
    JObj [("redirect_uris",
           JArr [JStr "https://example-client.test/cb"; JNum 42; JStr " "]);
          ("token_endpoint_auth_method", JNum 5)] in
  prop (Some reqBody) "token_endpoint_auth_method" = Some (JNum 5)
  /\ fst (Server.register "0123456789abcdef" 1000 Sample.config (Some reqBody)
            Store.initial)
     = {| status := 201;
          headers := [("Cache-Control", "no-store")];
          body := JObj [("client_id", JStr "c_0123456789abcdef");
                        ("client_name", JStr "ChatGPT Connector");
                        ("redirect_uris", JArr [JStr "https://example-client.test/cb"]);
                        ("token_endpoint_auth_method", JStr "none")] |}.
Proof. split; vm_compute; reflexivity. Qed.

(** ** The guard of the resource server (app/mcp/route.ts, app/mcp/auth.ts) *)

Section GuardFacts.
Import McpAuth McpRoute.
Context `{Jose}.
Variable url : string.

Lemma parseJsonRpc_toolsCall (reqBody id : json) (tool : string) :
  Rpc.toolsCall reqBody id tool ->
  parseJsonRpc reqBody
  = Return {| rpc_id := id; method := Some "tools/call"; toolName := Some tool |}.
Proof.
  intros (fields & -> & Hm & Hn & ->). unfold parseJsonRpc. simpl.
  rewrite Hm. simpl. rewrite Hn. reflexivity.
Qed.

Lemma POST_toolsCall (env : Env) (now : Z) (reqBody id : json) (tool : string)
    (authorization : option string) (verified : VerifyResult) :
  Rpc.toolsCall reqBody id tool ->
  verifyBearerFromRequest env now authorization = Return verified ->
  POST url env now (Some reqBody) authorization
  = Return (authorizeToolCall url id (Some tool) verified).
Proof.
  intros Hcall Hv. unfold POST.
  rewrite (parseJsonRpc_toolsCall _ _ _ Hcall), Hv. reflexivity.
Qed.

Lemma policy_named (tool : string) (policy : ToolPolicy) :
  getToolPolicy (Some tool) = Some policy -> McpAuth.present (Some tool) = true.
Proof.
  unfold getToolPolicy, McpAuth.present, Js.truthy.
  destruct tool; [discriminate|reflexivity].
Qed.

Lemma requiredEnv_set (env : Env) (var value : string) :
  env !! var = Some value ->
  Js.trim value <> EmptyString ->
  requiredEnv env var = Return (Js.trim value).
Proof.
  intros Hv Hne. unfold requiredEnv. rewrite Hv.
  assert (Js.isEmpty value = false) as ->.
  { destruct value; [exfalso; apply Hne; reflexivity|reflexivity]. }
  rewrite bool_decide_eq_false_2; [reflexivity|].
  destruct (Js.trim value); [congruence|discriminate].
Qed.

(** With its three environment variables set, verifyBearerFromRequest
    classifies every request: it does not throw. *)
Lemma verifyBearerFromRequest_returns (env : Env) (now : Z)
    (authorization : option string) (secret issuer audience : string) :
  env !! "JWT_SECRET" = Some secret -> Js.trim secret <> EmptyString ->
  env !! "AUTH_ISSUER" = Some issuer -> Js.trim issuer <> EmptyString ->
  env !! "MCP_RESOURCE" = Some audience -> Js.trim audience <> EmptyString ->
  exists verified, verifyBearerFromRequest env now authorization = Return verified.
Proof.
  intros Hs Hs' Hi Hi' Ha Ha'. unfold verifyBearerFromRequest.
  destruct (parseBearerTokenFromHeader authorization); [|eauto].
  rewrite (requiredEnv_set _ _ _ Hs Hs'), (requiredEnv_set _ _ _ Hi Hi'),
    (requiredEnv_set _ _ _ Ha Ha').
  destruct (Jwt.verifyAccessToken _ _ _); eauto.
Qed.

Lemma required_policies (tool : string) (scopes : list string) :
  getToolPolicy (Some tool) = Some (Required scopes) ->
  scopes = ["profile:read"] \/ scopes = ["notes:read"] \/ scopes = ["notes:write"].
Proof.
  unfold getToolPolicy. destruct (Js.isEmpty tool); [discriminate|].
  unfold TOOL_POLICIES. cbn [lookupPolicy].
  repeat match goal with
         | |- context [String.eqb ?a tool] => destruct (String.eqb a tool)
         end; intros Heq; inversion Heq; subst; auto.
Qed.

Lemma optional_policies (tool : string) (scopes : list string) :
  getToolPolicy (Some tool) = Some (Optional scopes) ->
  tool = "notes_teaser" /\ scopes = ["notes:read"].
Proof.
  unfold getToolPolicy. destruct (Js.isEmpty tool); [discriminate|].
  unfold TOOL_POLICIES. cbn [lookupPolicy].
  repeat match goal with
         | |- context [String.eqb ?a tool] => destruct (String.eqb_spec a tool)
         end; intros Heq; inversion Heq; subst; auto.
Qed.

Lemma missing_scopes (granted : gset string) (required : list string) :
  bool_decide (0 < length (filter (fun s => ¬ (s ∈ granted)) required))%nat = true
  <-> exists s, s ∈ required /\ s ∉ granted.
Proof.
  rewrite bool_decide_eq_true. split.
  - intros Hlen. destruct (filter _ required) as [|s l] eqn:Hf; [simpl in Hlen; lia|].
    exists s. apply and_comm.
    apply (proj1 (list_elem_of_filter (fun s => ¬ (s ∈ granted)) required s)).
    rewrite Hf. left.
  - intros (s & Hin & Hout).
    assert (s ∈ filter (fun s => ¬ (s ∈ granted)) required) as Hs
      by (apply list_elem_of_filter; auto).
    destruct (filter _ required); [inversion Hs|simpl; lia].
Qed.

Lemma authErrorResponse_shape (st : Z) (id : json) (www message : string) :
  status (authErrorResponse st id www message) = st
  /\ getHeader "WWW-Authenticate" (headers (authErrorResponse st id www message))
     = Some www
  /\ prop (prop (prop (Some (body (authErrorResponse st id www message))) "result")
             "_meta") "mcp/www_authenticate"
     = Some (JArr [JStr www]).
Proof. repeat split. Qed.

End GuardFacts.

Section GuardClaims.
Import McpAuth McpRoute.
Context `{Jose}.
Variable url : string.

Lemma guardChallenge_required (tool : string) (toolScopes : list string)
    (e : ChallengeError) (d : string) :
  getToolPolicy (Some tool) = Some (Required toolScopes) ->
  d <> EmptyString ->
  Rpc.guardChallenge url toolScopes e d
  = Js.join ", "
      ["Bearer resource_metadata=" +:+ quote +:+ escapeHeaderValue url +:+ quote;
       "scope=" +:+ quote +:+ escapeHeaderValue (Js.join " " toolScopes) +:+ quote;
       "error=" +:+ quote +:+ challengeErrorName e +:+ quote;
       "error_description=" +:+ quote +:+ escapeHeaderValue d +:+ quote].
Proof.
  intros Hp Hd. unfold Rpc.guardChallenge, buildWwwAuthenticate, challengeParts. simpl.
  assert (Js.truthy d = true) as -> by (destruct d; [congruence|reflexivity]).
  destruct (required_policies _ _ Hp) as [->|[->| ->]]; reflexivity.
Qed.

Lemma authorizeToolCall_required (id : json) (tool : string) (toolScopes : list string)
    (verified : VerifyResult) :
  getToolPolicy (Some tool) = Some (Required toolScopes) ->
  authorizeToolCall url id (Some tool) verified
  = match verified with
    | StatusNone =>
        Responded (authErrorResponse 401 id
          (Rpc.guardChallenge url toolScopes insufficient_scope
             "You need to login to continue")
          "Authentication required: no access token provided.")
    | StatusInvalid _ =>
        Responded (authErrorResponse 401 id
          (Rpc.guardChallenge url toolScopes invalid_token "Token invalid or expired")
          "Authentication required.")
    | StatusValid ctx =>
        if bool_decide (0 < length (filter (fun s => ¬ (s ∈ scopes ctx)) toolScopes))%nat
        then Responded (authErrorResponse 403 id
               (Rpc.guardChallenge url toolScopes insufficient_scope
                  "Re-authorize to grant required access")
               "Insufficient scope.")
        else Forwarded (Some ctx)
    end.
Proof.
  intros Hpolicy. unfold authorizeToolCall, Rpc.guardChallenge.
  rewrite (policy_named _ _ Hpolicy), Hpolicy.
  destruct verified; reflexivity.
Qed.

Lemma authorizeToolCall_optional (id : json) (tool : string) (toolScopes : list string)
    (verified : VerifyResult) :
  getToolPolicy (Some tool) = Some (Optional toolScopes) ->
  authorizeToolCall url id (Some tool) verified
  = match verified with
    | StatusInvalid _ =>
        Responded (authErrorResponse 401 id
          (Rpc.guardChallenge url toolScopes invalid_token "Token invalid or expired")
          "Authentication required.")
    | StatusNone => Forwarded None
    | StatusValid ctx => Forwarded (Some ctx)
    end.
Proof.
  intros Hpolicy. unfold authorizeToolCall, Rpc.guardChallenge.
  rewrite (policy_named _ _ Hpolicy), Hpolicy.
  destruct verified; reflexivity.
Qed.

Lemma denied_shape (st : Z) (id : json) (www message : string) :
  exists res,
    Responded (authErrorResponse st id www message) = Responded res
    /\ status res = st
    /\ getHeader "WWW-Authenticate" (headers res) = Some www
    /\ prop (prop (prop (Some (body res)) "result") "_meta") "mcp/www_authenticate"
       = Some (JArr [JStr www])
    /\ prop (prop (Some (body res)) "result") "content"
       = Some (JArr [JObj [("type", JStr "text"); ("text", JStr message)]]).
Proof. eexists. repeat split. Qed.



End GuardClaims.



(** ** Access tokens (shared/jwt.ts) *)

Section TokenFacts.
Context `{Jose}.

Lemma strictEqStr_true (v : option json) (s : string) :
  strictEqStr v s = true <-> v = Some (JStr s).
Proof.
  destruct v as [[]|]; simpl; try (split; discriminate).
  rewrite String.eqb_eq. split; [intros ->; reflexivity|intros [= ->]; reflexivity].
Qed.

Lemma audienceMatches_spec (payload : json) (expected : string) :
  Jsonwebtoken.audienceMatches payload expected = true ->
  prop (Some payload) "aud" = Some (JStr expected)
  \/ exists items,
       prop (Some payload) "aud" = Some (JArr items) /\ JStr expected ∈ items.
Proof.
  unfold Jsonwebtoken.audienceMatches.
  destruct (prop (Some payload) "aud") as [v|] eqn:Haud.
  - destruct v; simpl; rewrite ?orb_false_r; try discriminate.
    + rewrite String.eqb_eq. intros ->. left. reflexivity.
    + intros Hex. right. exists items. split; [reflexivity|].
      apply existsb_exists in Hex as (t & Hin & Ht).
      apply strictEqStr_true in Ht. subst t.
      apply in_map_iff in Hin as (j & [= ->] & Hin).
      apply list_elem_of_In. exact Hin.
  - simpl. discriminate.
Qed.

Lemma checkExp_ok (payload : json) (clock : Z) :
  Jsonwebtoken.checkExp payload clock = Return tt ->
  match prop (Some payload) "exp" with
  | None => True
  | Some v => exists e, v = JNum e /\ clock < e
  end.
Proof.
  unfold Jsonwebtoken.checkExp.
  destruct (prop (Some payload) "exp") as [[]|]; try discriminate; [|auto].
  destruct (clock >=? n) eqn:Hc; [discriminate|]. intros _.
  exists n. split; [reflexivity|]. rewrite Z.geb_leb in Hc. apply Z.leb_gt in Hc. exact Hc.
Qed.

(** What a successful [jwt.verify] has checked. *)
Lemma jsonwebtoken_verify_ok (token secret : string)
    (options : Jsonwebtoken.VerifyOptions) (clock : Z) (payload : json) :
  Jsonwebtoken.verify token secret options clock = Return payload ->
  exists alg,
    jws_decode token = Some (alg, payload)
    /\ alg ∈ Jsonwebtoken.algorithms options
    /\ jws_verify token alg secret = true
    /\ Jsonwebtoken.checkExp payload clock = Return tt
    /\ Jsonwebtoken.checkAudience payload options = Return tt
    /\ Jsonwebtoken.checkIssuer payload options = Return tt.
Proof.
  unfold Jsonwebtoken.verify.
  destruct (Js.isEmpty token); [discriminate|].
  destruct (jws_decode token) as [[alg p]|]; [|discriminate].
  destruct (Js.isEmpty secret); [discriminate|].
  unfold Js.includes.
  destruct (decide (alg ∈ Jsonwebtoken.algorithms options)) as [Halg|Halg];
    [rewrite (bool_decide_eq_true_2 _ Halg)|rewrite (bool_decide_eq_false_2 _ Halg)];
    simpl; [|discriminate].
  destruct (jws_verify token alg secret) eqn:Hsig; simpl; [|discriminate].
  destruct (Jsonwebtoken.checkNbf p clock) as [[]|]; [|discriminate].
  destruct (Jsonwebtoken.checkExp p clock) as [[]|] eqn:Hexp; [|discriminate].
  destruct (Jsonwebtoken.checkAudience p options) as [[]|] eqn:Haud; [|discriminate].
  destruct (Jsonwebtoken.checkIssuer p options) as [[]|] eqn:Hiss; [|discriminate].
  intros [= <-]. exists alg. auto 10.
Qed.

Lemma verifyAccessToken_ok (now : Z) (token : string) (params : Jwt.VerifyParams)
    (claims : json) :
  Jwt.verifyAccessToken now token params = Return claims ->
  Jsonwebtoken.verify token (Jwt.secret params)
    {| Jsonwebtoken.algorithms := ["HS256"];
       Jsonwebtoken.issuer := Jwt.issuer params;
       Jsonwebtoken.audience := Jwt.audience params |} (now / 1000)
  = Return claims
  /\ (exists sub, prop (Some claims) "sub" = Some (JStr sub) /\ sub <> EmptyString)
  /\ (exists scope, prop (Some claims) "scope" = Some (JStr scope))
  /\ (exists iss, prop (Some claims) "iss" = Some (JStr iss)).
Proof.
  unfold Jwt.verifyAccessToken.
  destruct (Jsonwebtoken.verify _ _ _ _) as [decoded|]; [|discriminate].
  destruct (falsy decoded || bool_decide (is_Some (asString (Some decoded))));
    [discriminate|]. cbv zeta.
  destruct (prop (Some decoded) "sub") as [[]|] eqn:Hsub; try discriminate.
  destruct (Js.isEmpty s) eqn:Hs; [discriminate|]. apply isEmpty_false in Hs.
  destruct (prop (Some decoded) "scope") as [[]|] eqn:Hscope; try discriminate.
  destruct (prop (Some decoded) "iss") as [[]|] eqn:Hiss; try discriminate.
  intros [= <-]. eauto 10.
Qed.

Lemma verifyAccessToken_acceptable (now : Z) (token : string)
    (params : Jwt.VerifyParams) (claims : json) :
  Jwt.issuer params <> EmptyString ->
  Jwt.audience params <> EmptyString ->
  Jwt.verifyAccessToken now token params = Return claims ->
  Token.acceptable now token params claims.
Proof.
  intros Hissuer Haudience Hok.
  destruct (verifyAccessToken_ok _ _ _ _ Hok) as (Hlib & Hsub & Hscope & _).
  destruct (jsonwebtoken_verify_ok _ _ _ _ _ Hlib)
    as (alg & Hdec & Halg & Hsig & Hexp & Haud & Hiss).
  simpl in Halg. apply list_elem_of_singleton in Halg. subst alg.
  unfold Token.acceptable. split; [exact Hdec|]. split; [exact Hsig|].
  split; [apply checkExp_ok; exact Hexp|].
  unfold Jsonwebtoken.checkIssuer, Jsonwebtoken.checkAudience in *. simpl in *.
  assert (Js.truthy (Jwt.issuer params) = true) as Hi
    by (destruct (Jwt.issuer params); [congruence|reflexivity]).
  assert (Js.truthy (Jwt.audience params) = true) as Ha
    by (destruct (Jwt.audience params); [congruence|reflexivity]).
  rewrite Hi in Hiss. rewrite Ha in Haud.
  split.
  { destruct (strictEqStr _ _) eqn:Hs in Hiss; [|discriminate].
    apply strictEqStr_true in Hs. exact Hs. }
  split; [|auto].
  destruct (Jsonwebtoken.audienceMatches _ _) eqn:Hm in Haud; [|discriminate].
  apply audienceMatches_spec. exact Hm.
Qed.


Lemma requiredEnv_nonempty (env : McpAuth.Env) (var value : string) :
  McpAuth.requiredEnv env var = Return value -> value <> EmptyString.
Proof.
  unfold McpAuth.requiredEnv. destruct (env !! var) as [v|]; [|discriminate].
  destruct (Js.isEmpty v); [discriminate|].
  destruct (decide (String.length (Js.trim v) = 0%nat)) as [Hz|Hz].
  - rewrite (bool_decide_eq_true_2 _ Hz). discriminate.
  - rewrite (bool_decide_eq_false_2 _ Hz). simpl. intros [= <-].
    intros Heq. rewrite Heq in Hz. apply Hz. reflexivity.
Qed.

(** As the resource server calls it, the verification has no exception: the
    issuer and the audience come from requiredEnv, which refuses blank
    values, so the context of a request classified valid always holds an
    acceptable token. *)
Lemma valid_context_token_acceptable (env : McpAuth.Env) (now : Z)
    (authorization : option string) (ctx : McpAuth.VerifiedAuthContext) :
  McpAuth.verifyBearerFromRequest env now authorization
  = Return (McpAuth.StatusValid ctx) ->
  exists secret issuer audience,
    McpAuth.requiredEnv env "JWT_SECRET" = Return secret
    /\ McpAuth.requiredEnv env "AUTH_ISSUER" = Return issuer
    /\ McpAuth.requiredEnv env "MCP_RESOURCE" = Return audience
    /\ McpAuth.parseBearerTokenFromHeader authorization = Some (McpAuth.ctx_token ctx)
    /\ Token.acceptable now (McpAuth.ctx_token ctx)
         {| Jwt.secret := secret; Jwt.issuer := issuer; Jwt.audience := audience |}
         (McpAuth.ctx_claims ctx).
Proof.
  unfold McpAuth.verifyBearerFromRequest.
  destruct (McpAuth.parseBearerTokenFromHeader authorization) as [token|];
    [|discriminate].
  destruct (McpAuth.requiredEnv env "JWT_SECRET") as [secret|] eqn:Hs; [|discriminate].
  destruct (McpAuth.requiredEnv env "AUTH_ISSUER") as [issuer|] eqn:Hi; [|discriminate].
  destruct (McpAuth.requiredEnv env "MCP_RESOURCE") as [audience|] eqn:Ha;
    [|discriminate].
  destruct (Jwt.verifyAccessToken now token _) as [claims|] eqn:Hv; [|discriminate].
  intros [= <-]. exists secret, issuer, audience. simpl.
  do 4 (split; [reflexivity|]).
  apply verifyAccessToken_acceptable; [| |exact Hv]; simpl.
  - eapply requiredEnv_nonempty. exact Hi.
  - eapply requiredEnv_nonempty. exact Ha.
Qed.

End TokenFacts.



(** ** Clients identified by a metadata URL (auth-server/client-metadata.ts) *)

Section MetadataClaims.
Import Store ClientMetadata.
Context `{WebApi}.

(** C7 (as amended). resolveClientFromClientIdMetadataUrl returns no client,
    and registers none, for every fetched (or cached) metadata document whose
    declared client_id, once trimmed, does not parse as a URL or parses to a
    URL whose normalised form (href) differs from the canonical URL the
    document was fetched from, however well-formed the document is
    otherwise. *)
Theorem metadata_client_id_pinned
    (net : string -> list (string * string) -> FetchOutcome) (isDev : bool)
    (now createdNow : Z) (params : ResolveParams) (cache cache' : Cache)
    (st : State) (url : URL) (d : ClientIdMetadataDocument) :
  tryParseAllowedClientMetadataUrl (rs_client_id params)
    (allowedClientMetadataHosts (rs_config params)) = Some url ->
  fetchClientMetadataDocumentWithCache net now (href url) cache = (Some d, cache') ->
  (forall claimed, url_parse (doc_client_id d) = Some claimed -> href claimed <> href url) ->
  resolveClientFromClientIdMetadataUrl net isDev now createdNow params cache st
  = (None, cache', st).
Proof.
  intros Hurl Hfetch Hpin. unfold resolveClientFromClientIdMetadataUrl.
  rewrite Hurl. cbv zeta. rewrite Hfetch.
  destruct (url_parse (doc_client_id d)) as [claimed|] eqn:Hclaimed; [|reflexivity].
  specialize (Hpin claimed eq_refl).
  assert (String.eqb (href claimed) (href url) = false) as ->
    by (apply String.eqb_neq; exact Hpin).
  reflexivity.
Qed.

(** Conversely, a client is only returned for a document whose declared
    client_id normalises to the canonical URL. *)
Lemma metadata_client_resolved
    (net : string -> list (string * string) -> FetchOutcome) (isDev : bool)
    (now createdNow : Z) (params : ResolveParams) (cache cache' : Cache)
    (st st' : State) (client : OAuthClient) :
  resolveClientFromClientIdMetadataUrl net isDev now createdNow params cache st
  = (Some client, cache', st') ->
  exists url d claimed,
    tryParseAllowedClientMetadataUrl (rs_client_id params)
      (allowedClientMetadataHosts (rs_config params)) = Some url
    /\ fetchClientMetadataDocumentWithCache net now (href url) cache = (Some d, cache')
    /\ url_parse (doc_client_id d) = Some claimed
    /\ href claimed = href url.
Proof.
  unfold resolveClientFromClientIdMetadataUrl.
  destruct (tryParseAllowedClientMetadataUrl _ _) as [url|]; [|discriminate].
  cbv zeta.
  destruct (fetchClientMetadataDocumentWithCache net now (href url) cache)
    as [[d|] cache1] eqn:Hfetch; [|discriminate].
  destruct (url_parse (doc_client_id d)) as [claimed|] eqn:Hclaimed; [|discriminate].
  destruct (String.eqb_spec (href claimed) (href url)) as [Heq|Hne]; [|discriminate].
  simpl. intros Hres.
  assert (cache1 = cache') as ->.
  { repeat match type of Hres with
           | (if ?b then _ else _) = _ => destruct b
           | match ?x with _ => _ end = _ => destruct x
           | (let '(_, _) := ?x in _) = _ => destruct x
           end; congruence. }
  exists url, d, claimed. auto.
Qed.

End MetadataClaims.

(** On the sample deployment: a document fetched from the canonical URL that
    declares the client_id of another site is rejected. *)
Lemma metadata_client_id_pinned_witness :
  fst (fst (@ClientMetadata.resolveClientFromClientIdMetadataUrl SampleCimd.web
              (SampleCimd.serving "https://attacker.test/client.json")
              false 5000 5000 SampleCimd.params ∅ Store.initial))
  = None.
Proof.
  rewrite (@metadata_client_id_pinned SampleCimd.web
             (SampleCimd.serving "https://attacker.test/client.json")
             false 5000 5000 SampleCimd.params ∅
             (snd (@ClientMetadata.fetchClientMetadataDocumentWithCache SampleCimd.web
                     (SampleCimd.serving "https://attacker.test/client.json")
                     5000 SampleCimd.canonical ∅))
             Store.initial
             (SampleCimd.parsed SampleCimd.canonical "https:" "www.mcpjam.com"
                "/.well-known/oauth/client-metadata.json")
             {| ClientMetadata.doc_client_id := "https://attacker.test/client.json";
                ClientMetadata.doc_client_name := "MCPJam";
                ClientMetadata.doc_redirect_uris := ["https://example-client.test/cb"];
                ClientMetadata.doc_token_endpoint_auth_method := None |}).
  - reflexivity.
  - vm_compute. reflexivity.
  - apply injective_projections; cbn [fst snd href SampleCimd.parsed];
      [vm_compute; reflexivity|reflexivity].
  - intros claimed Hclaimed. vm_compute in Hclaimed.
    injection Hclaimed as <-. discriminate.
Defined.

(** C7 as stated fails: a document that declares its client_id with the
    scheme and host in upper case, a string different from the canonical URL
    it was fetched from, is accepted and its client registered under the
    canonical URL. *)
Lemma metadata_client_id_compared_normalised :
  let declared := "HTTPS://WWW.MCPJAM.COM/.well-known/oauth/client-metadata.json" in
  declared <> SampleCimd.canonical
  /\ fst (@ClientMetadata.fetchClientMetadataDocumentWithCache SampleCimd.web
            (SampleCimd.serving declared) 5000 SampleCimd.canonical ∅)
     = Some {| ClientMetadata.doc_client_id := declared;
               ClientMetadata.doc_client_name := "MCPJam";
               ClientMetadata.doc_redirect_uris := ["https://example-client.test/cb"];
               ClientMetadata.doc_token_endpoint_auth_method := None |}
  /\ fst (fst (@ClientMetadata.resolveClientFromClientIdMetadataUrl SampleCimd.web
                 (SampleCimd.serving declared) false 5000 5000 SampleCimd.params
                 ∅ Store.initial))
     = Some {| Store.client_id := SampleCimd.canonical;
               Store.client_name := "MCPJam";
               Store.redirect_uris := ["https://example-client.test/cb"];
               Store.created_at := 5000 |}.
Proof.
  intros declared. split; [discriminate|]. split; vm_compute; reflexivity.
Qed.

(** ** More on PKCE (shared/pkce.ts) *)

Section PkceMore.

Lemma code_inj (c d : ascii) : Js.code c = Js.code d -> c = d.
Proof.
  unfold Js.code. intros Heq.
  rewrite <- (ascii_N_embedding c), <- (ascii_N_embedding d), Heq. reflexivity.
Qed.

Lemma utf8_inj (a b : string) : Pkce.utf8 a = Pkce.utf8 b -> a = b.
Proof.
  revert b. induction a as [|c a IH]; intros [|d b]; simpl.
  - reflexivity.
  - destruct (Js.code d <? 128)%N; discriminate.
  - destruct (Js.code c <? 128)%N; discriminate.
  - pose proof (N.div_mod' (Js.code c) 64) as Hc.
    pose proof (N.div_mod' (Js.code d) 64) as Hd.
    revert Hc Hd.
    generalize (Js.code c / 64)%N (Js.code c mod 64)%N
               (Js.code d / 64)%N (Js.code d mod 64)%N.
    intros qc rc qd rd Hc Hd.
    destruct (N.ltb_spec (Js.code c) 128), (N.ltb_spec (Js.code d) 128); intros Heq.
    + injection Heq as Hh Hr. f_equal; [apply code_inj, Hh|apply IH, Hr].
    + injection Heq as Hh Hr. exfalso. lia.
    + injection Heq as Hh Hr. exfalso. lia.
    + injection Heq as Hh Hl Hr. f_equal; [apply code_inj; lia|apply IH, Hr].
Qed.


Lemma list_ind3 {A : Type} (P : list A -> Prop) :
  P [] -> (forall a, P [a]) -> (forall a b, P [a; b]) ->
  (forall a b c r, P r -> P (a :: b :: c :: r)) -> forall l, P l.
Proof.
  intros H0 H1 H2 H3. fix IH 1.
  intros [|a [|b [|c r]]]; [exact H0|apply H1|apply H2|apply H3, IH].
Qed.

(** A base64 character after the two replacements of base64urlEncode. *)
Lemma base64Char_url (n : N) :
  exists c, Alphabet.base64url c = true
    /\ forall s, Js.replaceChar "/"%char "_"
                   (Js.replaceChar "+"%char "-" (String (Pkce.base64Char n) s))
                 = String c (Js.replaceChar "/"%char "_" (Js.replaceChar "+"%char "-" s)).
Proof.
  assert (forallb (fun k =>
            let d := Pkce.base64Char (N.of_nat k) in
            let c := if Ascii.eqb d "+" then "-"%char
                     else if Ascii.eqb d "/" then "_"%char else d in
            Alphabet.base64url c) (seq 0 64) = true) as Hall by (vm_compute; reflexivity).
  assert (exists k, Pkce.base64Char n = Pkce.base64Char (N.of_nat k) /\ (k < 64)%nat)
    as (k & -> & Hk).
  { destruct (N.ltb_spec n 64) as [Hlt|Hge].
    - exists (N.to_nat n). rewrite N2Nat.id. split; [reflexivity|lia].
    - exists 63%nat. split; [|lia]. unfold Pkce.base64Char.
      destruct (N.ltb_spec n 26); [lia|]. destruct (N.ltb_spec n 52); [lia|].
      destruct (N.ltb_spec n 62); [lia|]. destruct (N.eqb_spec n 62); [lia|].
      reflexivity. }
  rewrite forallb_forall in Hall. specialize (Hall k).
  assert (In k (seq 0 64)) as Hin by (apply in_seq; lia).
  specialize (Hall Hin). cbv zeta in Hall.
  set (d := Pkce.base64Char (N.of_nat k)) in *. clearbody d.
  exists (if Ascii.eqb d "+" then "-"%char
          else if Ascii.eqb d "/" then "_"%char else d).
  split; [exact Hall|]. intros s. cbn [Js.replaceChar].
  destruct (Ascii.eqb d "+"); [reflexivity|].
  rewrite append_cons, append_nil_l. cbn [Js.replaceChar].
  destruct (Ascii.eqb d "/"); reflexivity.
Qed.

Lemma dropEndWhile_all (p : ascii -> bool) (s : string) :
  Js.all p s = true -> Js.dropEndWhile p s = EmptyString.
Proof.
  induction s as [|c s IH]; simpl; [reflexivity|].
  intros [Hc Hs]%andb_prop. rewrite (IH Hs), Hc. reflexivity.
Qed.

Lemma dropEndWhile_app (p : ascii -> bool) (core pad : string) :
  Js.all (fun c => negb (p c)) core = true -> Js.all p pad = true ->
  Js.dropEndWhile p (core +:+ pad) = core.
Proof.
  intros Hcore Hpad. induction core as [|c core IH]; simpl.
  - apply dropEndWhile_all, Hpad.
  - simpl in Hcore. apply andb_prop in Hcore as [Hc Hcore].
    rewrite (IH Hcore). apply negb_true_iff in Hc. rewrite Hc, andb_false_r.
    reflexivity.
Qed.

Lemma base64url_not_pad (c : ascii) :
  Alphabet.base64url c = true -> negb (Ascii.eqb c "=") = true.
Proof.
  intros Hc. destruct (Ascii.eqb_spec c "=") as [->|]; [discriminate Hc|reflexivity].
Qed.

Lemma base64_shape (bs : Buffer) :
  exists core pad,
    Js.replaceChar "/"%char "_" (Js.replaceChar "+"%char "-" (Pkce.base64 bs))
    = core +:+ pad
    /\ Js.all Alphabet.base64url core = true
    /\ Js.all (fun c => Ascii.eqb c "=") pad = true
    /\ String.length core = ((4 * length bs + 2) / 3)%nat.
Proof.
  induction bs as [|a|a b|a b c r (core & pad & Heq & Hcore & Hpad & Hlen)] using list_ind3.
  - exists EmptyString, EmptyString. repeat split.
  - destruct (base64Char_url (a / 4)) as (c1 & H1 & E1).
    destruct (base64Char_url (a mod 4 * 16)) as (c2 & H2 & E2).
    exists (String c1 (String c2 EmptyString)), "==".
    cbn [Pkce.base64]. rewrite E1, E2. split; [reflexivity|].
    split; [simpl; rewrite H1, H2; reflexivity|]. split; reflexivity.
  - destruct (base64Char_url (a / 4)) as (c1 & H1 & E1).
    destruct (base64Char_url (a mod 4 * 16 + b / 16)) as (c2 & H2 & E2).
    destruct (base64Char_url (b mod 16 * 4)) as (c3 & H3 & E3).
    exists (String c1 (String c2 (String c3 EmptyString))), "=".
    cbn [Pkce.base64]. rewrite E1, E2, E3. split; [reflexivity|].
    split; [simpl; rewrite H1, H2, H3; reflexivity|]. split; reflexivity.
  - destruct (base64Char_url (a / 4)) as (c1 & H1 & E1).
    destruct (base64Char_url (a mod 4 * 16 + b / 16)) as (c2 & H2 & E2).
    destruct (base64Char_url (b mod 16 * 4 + c / 64)) as (c3 & H3 & E3).
    destruct (base64Char_url (c mod 64)) as (c4 & H4 & E4).
    exists (String c1 (String c2 (String c3 (String c4 core)))), pad.
    cbn [Pkce.base64]. rewrite E1, E2, E3, E4, Heq. split; [reflexivity|].
    split; [simpl; rewrite H1, H2, H3, H4; exact Hcore|]. split; [exact Hpad|].
    cbn [String.length length]. rewrite Hlen.
    replace (4 * S (S (S (length r))) + 2)%nat with (4 * 3 + (4 * length r + 2))%nat by lia.
    rewrite Nat.div_add_l by lia. lia.
Qed.

(** X2. base64urlEncode produces only characters of the base64url alphabet
    (letters, digits, - and _: no +, / or padding), and as many of them as
    the unpadded encoding of the input has: ceil(4n/3) for n bytes. *)
Theorem base64urlEncode_alphabet_and_length (input : Buffer) :
  Js.all Alphabet.base64url (Pkce.base64urlEncode input) = true
  /\ String.length (Pkce.base64urlEncode input) = ((4 * length input + 2) / 3)%nat.
Proof.
  destruct (base64_shape input) as (core & pad & Heq & Hcore & Hpad & Hlen).
  unfold Pkce.base64urlEncode. rewrite Heq, dropEndWhile_app; [auto| |exact Hpad].
  clear -Hcore. induction core as [|c core IH]; simpl in *; [reflexivity|].
  apply andb_prop in Hcore as [Hc Hcore].
  rewrite (base64url_not_pad c Hc), (IH Hcore). reflexivity.
Qed.

End PkceMore.

(** ** More on scopes (shared/scopes.ts) *)

Section ScopeMore.

Lemma splitSpaces_go_spaceFree (s : string) :
  forall (b : bool) (w : string),
    w ∈ Js.splitSpaces_go b s -> Alphabet.spaceFree w = true.
Proof.
  induction s as [|c r IH]; intros b w; cbn [Js.splitSpaces_go].
  - intros ->%list_elem_of_singleton. reflexivity.
  - destruct (Js.isSpace c) eqn:Hc.
    + destruct b; [apply IH|].
      intros [->|Hw]%elem_of_cons; [reflexivity|]. apply (IH true), Hw.
    + pose proof (IH false) as IHf.
      destruct (Js.splitSpaces_go false r) as [|w0 ws].
      * intros ->%list_elem_of_singleton. unfold Alphabet.spaceFree. simpl.
        rewrite Hc. reflexivity.
      * intros [->|Hw]%elem_of_cons.
        -- unfold Alphabet.spaceFree. cbn [Js.all]. rewrite Hc.
           apply (IHf w0). left.
        -- apply IHf. right. exact Hw.
Qed.

Lemma parseScopeParam_elem (v : option string) (s : string) :
  s ∈ Scopes.parseScopeParam v -> s <> EmptyString /\ Alphabet.spaceFree s = true.
Proof.
  unfold Scopes.parseScopeParam.
  rewrite list_elem_of_filter, list_elem_of_In, in_map_iff.
  intros [Ht (p & <- & Hp)]. apply list_elem_of_In in Hp.
  apply splitSpaces_go_spaceFree in Hp.
  rewrite (trim_no_space p Hp) in *. split; [|exact Hp].
  intros ->. exact Ht.
Qed.

Lemma splitSpaces_go_word (w : string) :
  Alphabet.spaceFree w = true -> Js.splitSpaces_go false w = [w].
Proof.
  unfold Alphabet.spaceFree. induction w as [|c w IH]; cbn [Js.all Js.splitSpaces_go].
  - reflexivity.
  - intros [Hc Hw]%andb_prop. apply negb_true_iff in Hc. rewrite Hc, (IH Hw).
    reflexivity.
Qed.

Lemma splitSpaces_go_word_sep (w r : string) :
  Alphabet.spaceFree w = true ->
  Js.splitSpaces_go false (w +:+ String " " r) = w :: Js.splitSpaces_go true r.
Proof.
  unfold Alphabet.spaceFree. induction w as [|c w IH]; cbn [Js.all].
  - intros _. reflexivity.
  - intros [Hc Hw]%andb_prop. apply negb_true_iff in Hc.
    rewrite append_cons. cbn [Js.splitSpaces_go]. rewrite Hc, (IH Hw). reflexivity.
Qed.

Lemma join_cons_head (sep : string) (c : ascii) (w : string) (ws : list string) :
  exists r, Js.join sep (String c w :: ws) = String c r.
Proof. destruct ws; cbn [Js.join]; eexists; [|rewrite append_cons]; reflexivity. Qed.

Lemma join_cons_cons (sep p q : string) (ps : list string) :
  Js.join sep (p :: q :: ps) = p +:+ sep +:+ Js.join sep (q :: ps).
Proof. reflexivity. Qed.

Lemma splitSpaces_join (ws : list string) :
  ws <> [] ->
  (forall w, w ∈ ws -> w <> EmptyString /\ Alphabet.spaceFree w = true) ->
  Js.splitSpaces (Js.join " " ws) = ws.
Proof.
  unfold Js.splitSpaces.
  induction ws as [|w ws IH]; [congruence|]. intros _ Hall.
  destruct (Hall w) as [Hne Hw]; [left|].
  destruct ws as [|w2 ws'].
  - cbn [Js.join]. apply splitSpaces_go_word, Hw.
  - rewrite join_cons_cons. change (" " +:+ Js.join " " (w2 :: ws'))
      with (String " " (Js.join " " (w2 :: ws'))).
    rewrite (splitSpaces_go_word_sep _ _ Hw). f_equal.
    transitivity (Js.splitSpaces_go false (Js.join " " (w2 :: ws'))).
    + destruct (Hall w2) as [Hne2 Hw2]; [right; left|].
      destruct w2 as [|c w2]; [congruence|].
      destruct (join_cons_head " " c w2 ws') as [r ->].
      unfold Alphabet.spaceFree in Hw2. cbn [Js.all] in Hw2.
      apply andb_prop in Hw2 as [Hc _]. apply negb_true_iff in Hc.
      cbn [Js.splitSpaces_go]. rewrite Hc. reflexivity.
    + apply IH; [congruence|intros x Hx; apply Hall; right; exact Hx].
Qed.

Lemma parseScopeParam_Some (s : string) :
  Scopes.parseScopeParam (Some s)
  = filter (fun s => Is_true (Js.truthy s)) (map Js.trim (Js.splitSpaces s)).
Proof. reflexivity. Qed.

Lemma parse_join_tokens (ws : list string) :
  (forall w, w ∈ ws -> w <> EmptyString /\ Alphabet.spaceFree w = true) ->
  Scopes.parseScopeParam (Some (Js.join " " ws)) = ws.
Proof.
  intros Hall. rewrite parseScopeParam_Some.
  destruct ws as [|w ws]; [reflexivity|].
  rewrite splitSpaces_join; [|congruence|exact Hall].
  induction (w :: ws) as [|x xs IH]; [reflexivity|].
  destruct (Hall x) as [Hne Hx]; [left|].
  cbn [map]. rewrite (trim_no_space x Hx), filter_cons_True.
  - f_equal. apply IH. intros y Hy. apply Hall. right. exact Hy.
  - destruct x; [congruence|exact I].
Qed.

(** X3. Formatting a list of scopes and parsing the text back gives the
    normalised list, whenever no scope holds a white-space character. *)
Theorem scope_format_parse_round_trip (l : list string) :
  forallb Alphabet.spaceFree l = true ->
  Scopes.parseScopeParam (Some (Scopes.formatScopeParam l)) = Scopes.normalizeScopes l.
Proof.
  intros Hl. unfold Scopes.formatScopeParam. apply parse_join_tokens.
  intros w [Hw Hne]%normalizeScopes_elem_of. split; [exact Hne|].
  rewrite forallb_forall in Hl. apply Hl, list_elem_of_In, Hw.
Qed.

Lemma scope_format_parse_round_trip_witness :
  Scopes.parseScopeParam
    (Some (Scopes.formatScopeParam ["notes:write"; "profile:read"; "notes:write"]))
  = Scopes.normalizeScopes ["notes:write"; "profile:read"; "notes:write"].
Proof.
  apply (scope_format_parse_round_trip ["notes:write"; "profile:read"; "notes:write"]).
  reflexivity.
Defined.

Lemma normalizeScopes_ext (a b : list string) :
  (forall s, s <> EmptyString -> (s ∈ a <-> s ∈ b)) ->
  Scopes.normalizeScopes a = Scopes.normalizeScopes b.
Proof.
  intros Hsame.
  apply (Sorted_unique String.le); [apply normalizeScopes_Sorted..|].
  apply NoDup_Permutation; [apply normalizeScopes_NoDup..|].
  intros s. rewrite !normalizeScopes_elem_of. specialize (Hsame s). tauto.
Qed.

Lemma normalizeScopes_idem (l : list string) :
  Scopes.normalizeScopes (Scopes.normalizeScopes l) = Scopes.normalizeScopes l.
Proof.
  apply normalizeScopes_ext. intros s Hne. rewrite normalizeScopes_elem_of. tauto.
Qed.

(** X4. normalizeScopes is a canonical form: two lists have the same
    normal form exactly when they hold the same non-empty scopes, whatever
    the order and the repetitions; normalising twice changes nothing. *)
Theorem normalizeScopes_canonical (l1 l2 : list string) :
  (Scopes.normalizeScopes l1 = Scopes.normalizeScopes l2
   <-> forall s, s <> EmptyString -> (s ∈ l1 <-> s ∈ l2))
  /\ Scopes.normalizeScopes (Scopes.normalizeScopes l1) = Scopes.normalizeScopes l1.
Proof.
  split; [split|].
  - intros Heq s Hne.
    pose proof (normalizeScopes_elem_of l1 s) as H1.
    pose proof (normalizeScopes_elem_of l2 s) as H2.
    rewrite Heq in H1. tauto.
  - apply normalizeScopes_ext.
  - apply normalizeScopes_idem.
Qed.

(** X5. Every scope that parseScopeParam returns is a token: it is not
    empty and holds no white space; so parsing the formatted result of a
    parse gives the normal form of that parse, and a scope claim that is
    not a string gives the empty set. *)
Theorem parseScopeParam_tokens (v : option string) :
  (forall s, s ∈ Scopes.parseScopeParam v ->
             s <> EmptyString /\ Alphabet.spaceFree s = true)
  /\ Scopes.parseScopeParam
       (Some (Scopes.formatScopeParam (Scopes.parseScopeParam v)))
     = Scopes.normalizeScopes (Scopes.parseScopeParam v)
  /\ (forall claim : option json,
        asString claim = None -> Scopes.scopeClaimToSet claim = ∅).
Proof.
  split; [apply parseScopeParam_elem|]. split.
  - unfold Scopes.formatScopeParam. apply parse_join_tokens.
    intros w [Hw Hne]%normalizeScopes_elem_of. apply (parseScopeParam_elem v), Hw.
  - intros claim Hc. unfold Scopes.scopeClaimToSet. rewrite Hc. reflexivity.
Qed.

End ScopeMore.

(** ** Signing, then verifying (shared/jwt.ts, app/mcp/auth.ts) *)

Section SignVerify.
Context `{Jose}.

Lemma signed_claims (signNow : Z) (p : Jwt.SignParams) :
  let claims := Jwt.claims (Jwt.signAccessToken signNow p) in
  prop (Some claims) "iss" = Some (JStr (Jwt.sp_issuer p))
  /\ prop (Some claims) "sub" = Some (JStr (Jwt.sp_subject p))
  /\ prop (Some claims) "aud" = Some (JStr (Jwt.sp_audience p))
  /\ prop (Some claims) "exp" = Some (JNum (signNow / 1000 + Jwt.sp_ttlSec p))
  /\ prop (Some claims) "nbf" = None
  /\ prop (Some claims) "scope" = Some (JStr (Jwt.sp_scope p))
  /\ prop (Some claims) "name"
     = match Jwt.sp_name p with
       | Some n => if Js.truthy n then Some (JStr n) else None
       | None => None
       end
  /\ falsy claims = false
  /\ asString (Some claims) = None.
Proof.
  unfold Jwt.signAccessToken. cbv zeta. cbn [Jwt.claims].
  destruct (Jwt.sp_name p) as [n|]; [destruct (Js.truthy n)|]; repeat split.
Qed.

Lemma verifyAccessToken_signed (signNow now : Z) (p : Jwt.SignParams) :
  let signed := Jwt.signAccessToken signNow p in
  jws_decode (Jwt.token signed) = Some ("HS256", Jwt.claims signed) ->
  jws_verify (Jwt.token signed) "HS256" (Jwt.sp_secret p) = true ->
  Jwt.token signed <> EmptyString ->
  Jwt.sp_secret p <> EmptyString ->
  Jwt.sp_subject p <> EmptyString ->
  Jwt.verifyAccessToken now (Jwt.token signed)
    {| Jwt.secret := Jwt.sp_secret p; Jwt.issuer := Jwt.sp_issuer p;
       Jwt.audience := Jwt.sp_audience p |}
  = if now / 1000 <? signNow / 1000 + Jwt.sp_ttlSec p
    then Return (Jwt.claims signed)
    else Throw "jwt expired".
Proof.
  intros signed Hdec Hsig Htok Hsecret Hsub.
  destruct (signed_claims signNow p)
    as (Hiss & Hs & Haud & Hexp & Hnbf & Hscope & _ & Hfalsy & Hstr).
  fold signed in Hiss, Hs, Haud, Hexp, Hnbf, Hscope, Hfalsy, Hstr.
  unfold Jwt.verifyAccessToken, Jsonwebtoken.verify.
  apply isEmpty_false in Htok, Hsecret. rewrite Htok, Hdec.
  cbn [Jwt.secret Jwt.issuer Jwt.audience Jsonwebtoken.algorithms].
  rewrite Hsecret, Hsig.
  change (negb (Js.includes ["HS256"] "HS256")) with false. cbn [negb].
  unfold Jsonwebtoken.checkNbf, Jsonwebtoken.checkExp. rewrite Hnbf, Hexp.
  rewrite Z.geb_leb.
  destruct (Z.ltb_spec (now / 1000) (signNow / 1000 + Jwt.sp_ttlSec p)) as [Hlt|Hge].
  - rewrite (proj2 (Z.leb_gt _ _) Hlt).
    unfold Jsonwebtoken.checkAudience, Jsonwebtoken.checkIssuer,
      Jsonwebtoken.audienceMatches.
    cbn [Jsonwebtoken.audience Jsonwebtoken.issuer].
    rewrite Haud, Hiss. cbn [existsb strictEqStr]. rewrite orb_false_r.
    rewrite !String.eqb_refl.
    destruct (Js.truthy (Jwt.sp_audience p)), (Js.truthy (Jwt.sp_issuer p));
      rewrite Hfalsy, Hstr, Hs, Hscope, Hiss;
      apply isEmpty_false in Hsub; rewrite Hsub; reflexivity.
  - rewrite (proj2 (Z.leb_le _ _) Hge). reflexivity.
Qed.

(** X6. A token made by signAccessToken is accepted by verifyAccessToken
    under the same secret, issuer and audience up to its expiry, and
    refused as expired from the second [iat + ttl] on; what is returned is
    the claims that were signed, which name the issuer, the subject, the
    audience and the scope given, are issued at the second of signing and
    expire [ttl] seconds later. The codec is only assumed to decode and to
    verify what it signed. *)
Theorem sign_then_verify (signNow now : Z) (p : Jwt.SignParams) :
  let signed := Jwt.signAccessToken signNow p in
  jws_decode (Jwt.token signed) = Some ("HS256", Jwt.claims signed) ->
  jws_verify (Jwt.token signed) "HS256" (Jwt.sp_secret p) = true ->
  Jwt.token signed <> EmptyString ->
  Jwt.sp_secret p <> EmptyString ->
  Jwt.sp_subject p <> EmptyString ->
  Jwt.verifyAccessToken now (Jwt.token signed)
    {| Jwt.secret := Jwt.sp_secret p; Jwt.issuer := Jwt.sp_issuer p;
       Jwt.audience := Jwt.sp_audience p |}
  = (if now / 1000 <? signNow / 1000 + Jwt.sp_ttlSec p
     then Return (Jwt.claims signed)
     else Throw "jwt expired")
  /\ Jwt.expiresIn signed = Jwt.sp_ttlSec p
  /\ prop (Some (Jwt.claims signed)) "iss" = Some (JStr (Jwt.sp_issuer p))
  /\ prop (Some (Jwt.claims signed)) "sub" = Some (JStr (Jwt.sp_subject p))
  /\ prop (Some (Jwt.claims signed)) "aud" = Some (JStr (Jwt.sp_audience p))
  /\ prop (Some (Jwt.claims signed)) "scope" = Some (JStr (Jwt.sp_scope p))
  /\ prop (Some (Jwt.claims signed)) "iat" = Some (JNum (signNow / 1000))
  /\ prop (Some (Jwt.claims signed)) "exp"
     = Some (JNum (signNow / 1000 + Jwt.sp_ttlSec p)).
Proof.
  intros signed Hdec Hsig Htok Hsecret Hsub.
  split; [exact (verifyAccessToken_signed signNow now p Hdec Hsig Htok Hsecret Hsub)|].
  destruct (signed_claims signNow p) as (Hiss & Hs & Haud & Hexp & _ & Hscope & _).
  split; [reflexivity|]. split; [exact Hiss|]. split; [exact Hs|].
  split; [exact Haud|]. split; [exact Hscope|]. split; [|exact Hexp].
  subst signed. unfold Jwt.signAccessToken. cbv zeta. cbn [Jwt.claims].
  destruct (Jwt.sp_name p) as [n|]; [destruct (Js.truthy n)|]; reflexivity.
Qed.

(** X7. The resource server accepts what the authorization server signs:
    for a request whose Authorization header is the word Bearer, a space and
    a token made by signAccessToken, read before the token expires in an
    environment that names the same secret, issuer and audience,
    verifyBearerFromRequest gives a valid context; its sub is the subject
    that was signed, its name the signed name, and its scopes are those of
    the signed scope text. *)
Theorem signed_token_gives_context (env : McpAuth.Env) (signNow now : Z)
    (p : Jwt.SignParams) :
  let signed := Jwt.signAccessToken signNow p in
  jws_decode (Jwt.token signed) = Some ("HS256", Jwt.claims signed) ->
  jws_verify (Jwt.token signed) "HS256" (Jwt.sp_secret p) = true ->
  Spec.isToken (Jwt.token signed) ->
  McpAuth.requiredEnv env "JWT_SECRET" = Return (Jwt.sp_secret p) ->
  McpAuth.requiredEnv env "AUTH_ISSUER" = Return (Jwt.sp_issuer p) ->
  McpAuth.requiredEnv env "MCP_RESOURCE" = Return (Jwt.sp_audience p) ->
  Jwt.sp_subject p <> EmptyString ->
  now / 1000 < signNow / 1000 + Jwt.sp_ttlSec p ->
  McpAuth.verifyBearerFromRequest env now (Some ("Bearer " +:+ Jwt.token signed))
  = Return (McpAuth.StatusValid
      {| McpAuth.ctx_token := Jwt.token signed;
         McpAuth.ctx_claims := Jwt.claims signed;
         McpAuth.sub := Jwt.sp_subject p;
         McpAuth.name := match Jwt.sp_name p with
                         | Some n => if Js.truthy n then Some n else None
                         | None => None
                         end;
         McpAuth.scopes :=
           list_to_set (Scopes.parseScopeParam (Some (Jwt.sp_scope p))) |}).
Proof.
  intros signed Hdec Hsig Htok Hsecret Hissuer Haudience Hsub Hlive. subst signed.
  unfold McpAuth.verifyBearerFromRequest.
  change ("Bearer " +:+ Jwt.token (Jwt.signAccessToken signNow p))
    with ("Bearer" +:+ " " +:+ Jwt.token (Jwt.signAccessToken signNow p)).
  rewrite (parseBearerTokenFromHeader_accepts "Bearer" _ eq_refl Htok).
  rewrite Hsecret, Hissuer, Haudience.
  rewrite (verifyAccessToken_signed signNow now p Hdec Hsig (proj1 Htok)
             (requiredEnv_nonempty _ _ _ Hsecret) Hsub).
  rewrite (proj2 (Z.ltb_lt _ _) Hlive).
  destruct (signed_claims signNow p)
    as (_ & Hs & _ & _ & _ & Hscope & Hname & _ & _).
  unfold Scopes.scopeClaimToSet. rewrite Hs, Hscope, Hname. cbn [asString default].
  do 3 f_equal. destruct (Jwt.sp_name p) as [n|]; [destruct (Js.truthy n)|]; reflexivity.
Qed.

Lemma requiredEnv_blank (env : McpAuth.Env) (var : string) :
  Js.trim (default EmptyString (env !! var)) = EmptyString ->
  McpAuth.requiredEnv env var = Throw ("Missing env var: " +:+ var).
Proof.
  unfold McpAuth.requiredEnv. destruct (env !! var) as [v|]; [|reflexivity].
  intros Hb. change (Js.trim v = EmptyString) in Hb. rewrite Hb, orb_true_r.
  reflexivity.
Qed.

Lemma requiredEnv_cases (env : McpAuth.Env) (var : string) :
  (exists v, McpAuth.requiredEnv env var = Return v)
  \/ McpAuth.requiredEnv env var = Throw ("Missing env var: " +:+ var).
Proof.
  unfold McpAuth.requiredEnv. destruct (env !! var) as [v|]; [|right; reflexivity].
  destruct (_ || _); [right|left; eexists]; reflexivity.
Qed.

(** X8. A request that carries a bearer token while one of JWT_SECRET,
    AUTH_ISSUER and MCP_RESOURCE is unset or blank is not classified: the
    verification throws the error of the first missing variable (the reads
    stand outside the try), and so do the GET handler and the POST handler,
    on every tool, public ones included, instead of answering 401. *)
Theorem blank_environment_throws (url : string) (env : McpAuth.Env) (now : Z)
    (authorization : option string) (token : string) :
  McpAuth.parseBearerTokenFromHeader authorization = Some token ->
  Js.trim (default EmptyString (env !! "JWT_SECRET")) = EmptyString
  \/ Js.trim (default EmptyString (env !! "AUTH_ISSUER")) = EmptyString
  \/ Js.trim (default EmptyString (env !! "MCP_RESOURCE")) = EmptyString ->
  exists var,
    var ∈ ["JWT_SECRET"; "AUTH_ISSUER"; "MCP_RESOURCE"]
    /\ McpAuth.verifyBearerFromRequest env now authorization
       = Throw ("Missing env var: " +:+ var)
    /\ McpTools.GET env now authorization = Throw ("Missing env var: " +:+ var)
    /\ forall reqBody rpc,
         McpRoute.parseJsonRpc reqBody = Return rpc ->
         McpRoute.POST url env now (Some reqBody) authorization
         = Throw ("Missing env var: " +:+ var).
Proof.
  intros Htoken Hblank.
  assert (exists var,
            var ∈ ["JWT_SECRET"; "AUTH_ISSUER"; "MCP_RESOURCE"]
            /\ McpAuth.verifyBearerFromRequest env now authorization
               = Throw ("Missing env var: " +:+ var)) as (var & Hvar & Hthrow).
  { unfold McpAuth.verifyBearerFromRequest. rewrite Htoken.
    destruct (requiredEnv_cases env "JWT_SECRET") as [[s Hs]|Hs]; rewrite Hs;
      [|exists "JWT_SECRET"; split; [apply list_elem_of_In; simpl; tauto|reflexivity]].
    destruct (requiredEnv_cases env "AUTH_ISSUER") as [[i Hi]|Hi]; rewrite Hi;
      [|exists "AUTH_ISSUER"; split; [apply list_elem_of_In; simpl; tauto|reflexivity]].
    destruct (requiredEnv_cases env "MCP_RESOURCE") as [[a Ha]|Ha]; rewrite Ha;
      [|exists "MCP_RESOURCE"; split; [apply list_elem_of_In; simpl; tauto|reflexivity]].
    exfalso. destruct Hblank as [Hb|[Hb|Hb]]; apply requiredEnv_blank in Hb; congruence. }
  exists var. split; [exact Hvar|]. split; [exact Hthrow|]. split.
  - unfold McpTools.GET. rewrite Hthrow. reflexivity.
  - intros reqBody rpc Hrpc. unfold McpRoute.POST. rewrite Hrpc, Hthrow. reflexivity.
Qed.

End SignVerify.

(** On the sample codec: the token signed for the sample user at second
    1000 with a lifetime of 600 s is accepted at second 1599 and refused at
    second 1600. *)
Lemma sign_then_verify_witness :
  let p :=
    {| Jwt.sp_issuer := "http://localhost:4000"; Jwt.sp_subject := "u_123";
       Jwt.sp_audience := "http://localhost:3000/mcp";
       Jwt.sp_scope := "notes:read profile:read"; Jwt.sp_name := Some "Alex";
       Jwt.sp_secret := "s3cret"; Jwt.sp_ttlSec := 600 |} in
  let params :=
    {| Jwt.secret := "s3cret"; Jwt.issuer := "http://localhost:4000";
       Jwt.audience := "http://localhost:3000/mcp" |} in
  @Jwt.verifyAccessToken Sample.codec 1599999
    (Jwt.token (@Jwt.signAccessToken Sample.codec 1000000 p)) params
  = Return (Jwt.claims (@Jwt.signAccessToken Sample.codec 1000000 p))
  /\ @Jwt.verifyAccessToken Sample.codec 1600000
       (Jwt.token (@Jwt.signAccessToken Sample.codec 1000000 p)) params
     = Throw "jwt expired".
Proof.
  intros p params. split.
  - apply (proj1 (@sign_then_verify Sample.codec 1000000 1599999 p
                    eq_refl eq_refl ltac:(discriminate) ltac:(discriminate)
                    ltac:(discriminate))).
  - apply (proj1 (@sign_then_verify Sample.codec 1000000 1600000 p
                    eq_refl eq_refl ltac:(discriminate) ltac:(discriminate)
                    ltac:(discriminate))).
Defined.

(** The sample token, presented to the sample resource server at second 1200. *)
Lemma signed_token_gives_context_witness :
  let p :=
    {| Jwt.sp_issuer := "http://localhost:4000"; Jwt.sp_subject := "u_123";
       Jwt.sp_audience := "http://localhost:3000/mcp";
       Jwt.sp_scope := "notes:read profile:read"; Jwt.sp_name := Some "Alex";
       Jwt.sp_secret := "s3cret"; Jwt.sp_ttlSec := 600 |} in
  exists ctx,
    @McpAuth.verifyBearerFromRequest Sample.codec SampleRs.env 1200000
      (Some "Bearer tok.u_123") = Return (McpAuth.StatusValid ctx)
    /\ McpAuth.sub ctx = "u_123"
    /\ McpAuth.scopes ctx = {[ "notes:read"; "profile:read" ]}.
Proof.
  intros p. eexists. split.
  - apply (@signed_token_gives_context Sample.codec SampleRs.env 1000000 1200000 p);
      [reflexivity|reflexivity|split; [discriminate|reflexivity]
      |reflexivity|reflexivity|reflexivity|discriminate|reflexivity].
  - split; [reflexivity|]. vm_compute. reflexivity.
Defined.

(** A bearer token sent to a resource server whose environment is empty. *)
Lemma blank_environment_throws_witness :
  exists var,
    @McpAuth.verifyBearerFromRequest Sample.codec ∅ 1200000 (Some "Bearer tok.u_123")
    = Throw ("Missing env var: " +:+ var).
Proof.
  destruct (@blank_environment_throws Sample.codec SampleRs.resourceMetadataUrl ∅
              1200000 (Some "Bearer tok.u_123") "tok.u_123" eq_refl
              ltac:(left; reflexivity)) as (var & _ & Hthrow & _).
  exists var. exact Hthrow.
Defined.

(** ** Issuing, then redeeming (auth-server/oauth.ts, store.ts) *)

Section IssueRedeem.
Import Store OAuth.
Context `{Crypto} `{Jose}.

Lemma set_used_same (rec : AuthCodeRecord) : set_used rec (used rec) = rec.
Proof. destruct rec. reflexivity. Qed.


(** X10. Whatever it answers, redeemAuthorizationCode leaves the users and
    the clients as they were, creates no code record and removes none; the
    only change it can make is to set the used flag of the record of the
    presented code, which it never clears. *)
Theorem redeem_frame (now signNow : Z) (p : RedeemParams) (st : State) :
  let st' := snd (redeemAuthorizationCode now signNow p st) in
  usersByUsername st' = usersByUsername st
  /\ clientsById st' = clientsById st
  /\ forall c : string,
       match findAuthCode c st with
       | None => findAuthCode c st' = None
       | Some rec =>
           findAuthCode c st' = Some rec
           \/ (c = rp_code p /\ used rec = false
               /\ findAuthCode c st' = Some (set_used rec true))
       end.
Proof.
  intros st'. subst st'.
  destruct (redeem_store now signNow p st) as [-> | ->].
  - split; [reflexivity|]. split; [reflexivity|]. intros c.
    destruct (findAuthCode c st); auto.
  - split; [|split].
    + unfold markAuthCodeUsed. destruct (authCodesByCode st !! rp_code p); reflexivity.
    + unfold markAuthCodeUsed. destruct (authCodesByCode st !! rp_code p); reflexivity.
    + intros c. destruct (decide (rp_code p = c)) as [<-|Hne].
      * destruct (findAuthCode (rp_code p) st) as [rec|] eqn:Hf.
        -- rewrite (markAuthCodeUsed_same _ _ _ Hf).
           destruct (used rec) eqn:Hu; [left|right; auto].
           rewrite <- Hu, set_used_same. reflexivity.
        -- unfold markAuthCodeUsed. unfold findAuthCode in Hf. rewrite Hf. exact Hf.
      * rewrite (markAuthCodeUsed_other _ _ _ Hne).
        destruct (findAuthCode c st); auto.
Qed.

(** X11. createClient stores the client it returns under its id, the
    given one or c_ followed by the generated identifier; it keeps the
    creation time of a client already stored under that id, so that a
    later registration under the same id does not change it; the other
    clients, the users and the codes are left as they were. *)
Theorem createClient_upsert (uuid : string) (now : Z) (explicit_id : option string)
    (name : string) (uris : list string) (st : State) :
  let r := createClient uuid now explicit_id name uris st in
  client_id (fst r) = default ("c_" +:+ uuid) explicit_id
  /\ client_name (fst r) = name
  /\ redirect_uris (fst r) = uris
  /\ findClient (client_id (fst r)) (snd r) = Some (fst r)
  /\ created_at (fst r)
     = match findClient (client_id (fst r)) st with
       | Some e => created_at e
       | None => now
       end
  /\ (forall cid, cid <> client_id (fst r) -> findClient cid (snd r) = findClient cid st)
  /\ usersByUsername (snd r) = usersByUsername st
  /\ authCodesByCode (snd r) = authCodesByCode st
  /\ forall (uuid2 : string) (now2 : Z) (name2 : string) (uris2 : list string),
       created_at (fst (createClient uuid2 now2 (Some (client_id (fst r)))
                          name2 uris2 (snd r)))
       = created_at (fst r).
Proof.
  intros r. subst r. unfold createClient, findClient. cbn [fst snd client_id created_at
    client_name redirect_uris with_clients clientsById usersByUsername authCodesByCode].
  do 3 (split; [reflexivity|]).
  split; [apply lookup_insert_eq|]. split; [reflexivity|].
  split; [intros cid Hne; apply lookup_insert_ne; congruence|].
  do 2 (split; [reflexivity|]).
  intros uuid2 now2 name2 uris2.
  change (default ("c_" +:+ uuid2) (Some (default ("c_" +:+ uuid) explicit_id)))
    with (default ("c_" +:+ uuid) explicit_id).
  rewrite lookup_insert_eq. reflexivity.
Qed.

End IssueRedeem.


(** ** The token endpoint and the resolution of clients (auth-server/server.ts) *)

Section ServerFacts.
Import Store OAuth.
Context `{Crypto} `{Jose} `{WebApi}.

(** The metadata-URL path only ever writes to the clients. *)
Lemma resolveFromMetadata_frame
    (net : string -> list (string * string) -> FetchOutcome) (isDev : bool)
    (now createdNow : Z) (params : ClientMetadata.ResolveParams)
    (cache : ClientMetadata.Cache) (st : State) :
  let r := ClientMetadata.resolveClientFromClientIdMetadataUrl net isDev now createdNow
             params cache st in
  usersByUsername (snd r) = usersByUsername st
  /\ authCodesByCode (snd r) = authCodesByCode st.
Proof.
  intros r. subst r. unfold ClientMetadata.resolveClientFromClientIdMetadataUrl.
  destruct (ClientMetadata.tryParseAllowedClientMetadataUrl _ _) as [url|]; [|auto].
  cbv zeta.
  destruct (ClientMetadata.fetchClientMetadataDocumentWithCache _ _ _ _) as [[d|] cache1];
    [|auto].
  destruct (url_parse _) as [claimed|]; [|auto].
  destruct (negb (String.eqb _ _)); [auto|].
  destruct (negb (String.eqb _ "none")); [auto|].
  match goal with
  | |- context [match ?a with Some _ => _ | None => (None, cache1, st) end] =>
      destruct a as [uriSet|]; [|auto]
  end.
  unfold createClient. destruct (findClient (href url) st) as [e|]; [|auto].
  destruct (_ && _); auto.
Qed.

Lemma resolveClient_frame
    (net : string -> list (string * string) -> FetchOutcome) (isDev : bool)
    (now createdNow : Z) (config : AuthServerConfig) (cid : string)
    (requested : option string) (cache : ClientMetadata.Cache) (st : State) :
  let r := Server.resolveClient net isDev now createdNow config cid requested cache st in
  usersByUsername (snd r) = usersByUsername st
  /\ authCodesByCode (snd r) = authCodesByCode st.
Proof.
  intros r. subst r. unfold Server.resolveClient.
  pose proof (resolveFromMetadata_frame net isDev now createdNow
    {| ClientMetadata.rs_client_id := cid; ClientMetadata.rs_config := config;
       ClientMetadata.requestedRedirectUri := requested |} cache st) as Hframe.
  cbv zeta in Hframe.
  destruct (ClientMetadata.resolveClientFromClientIdMetadataUrl _ _ _ _ _ _ _)
    as [[[c|] cache1] st1]; exact Hframe.
Qed.

Lemma redeem_answers (now signNow : Z) (p : RedeemParams) (st : State) :
  (exists resp,
      redeemAuthorizationCode now signNow p st
      = (Return (RedeemOk resp), markAuthCodeUsed (rp_code p) st))
  \/ exists err, redeemAuthorizationCode now signNow p st = (Return (RedeemErr err), st).
Proof.
  unfold redeemAuthorizationCode, refuse.
  destruct (rp_client p); [|eauto].
  destruct (findAuthCode (rp_code p) st) as [rec|]; [|eauto].
  skip_checks ltac:(eauto).
  rewrite constantTimeEqual_spec. destruct (bool_decide _); eauto.
Qed.

Lemma body_prop (reqBody : option json) (k : string) :
  prop (Some match reqBody with
             | None | Some JNull => JObj []
             | Some b => b
             end) k
  = prop reqBody k.
Proof. destruct reqBody as [[]|]; reflexivity. Qed.


(** X13. A token request whose grant_type is not the string
    authorization_code, or in which one of code, redirect_uri, client_id,
    code_verifier and resource is absent, not a string or empty, is answered
    400 invalid_request before anything else happens: no client is resolved,
    nothing is fetched, and the cache and the store stay as they were. *)
Theorem token_request_shape
    (net : string -> list (string * string) -> FetchOutcome) (isDev : bool)
    (now createdNow redeemNow signNow : Z) (config : AuthServerConfig)
    (reqBody : option json) (cache : ClientMetadata.Cache) (st : State) :
  asString (prop reqBody "grant_type") <> Some "authorization_code"
  \/ (exists k,
        k ∈ ["code"; "redirect_uri"; "client_id"; "code_verifier"; "resource"]
        /\ default EmptyString (asString (prop reqBody k)) = EmptyString) ->
  Server.token net isDev now createdNow redeemNow signNow config reqBody cache st
  = (Return (Server.jsonError 400 (JObj [("error", JStr "invalid_request")])),
     cache, st).
Proof.
  intros Hshape. unfold Server.token. cbv zeta. rewrite !body_prop.
  destruct (String.eqb_spec
              (default EmptyString (asString (prop reqBody "grant_type")))
              "authorization_code") as [Hg|Hg]; [|reflexivity].
  cbn [negb].
  destruct Hshape as [Hgrant|(k & Hk & Hempty)].
  - exfalso. apply Hgrant.
    destruct (asString (prop reqBody "grant_type")); [|discriminate Hg].
    f_equal. exact Hg.
  - assert (Js.isEmpty (default EmptyString (asString (prop reqBody k))) = true)
      as Hk' by (rewrite Hempty; reflexivity).
    repeat (apply elem_of_cons in Hk as [->|Hk];
            [rewrite Hk', ?orb_true_r; reflexivity|]).
    inversion Hk.
Qed.

(** X14. A client registered through the registration endpoint is the
    client that the authorize and token endpoints resolve under the
    client_id of the 201 response, provided this id is not taken for an
    allowed metadata URL: nothing is fetched, and the redirect URIs of the
    client are not empty and all belong to the configured allow-list. *)
Theorem registered_client_resolves (uuid : string) (now : Z)
    (config : AuthServerConfig) (reqBody : option json) (st : State)
    (net : string -> list (string * string) -> FetchOutcome) (isDev : bool)
    (now2 createdNow2 : Z) (requested : option string)
    (cache : ClientMetadata.Cache) :
  status (fst (Server.register uuid now config reqBody st)) = 201 ->
  ClientMetadata.tryParseAllowedClientMetadataUrl ("c_" +:+ uuid)
    (allowedClientMetadataHosts config) = None ->
  let registered := Server.register uuid now config reqBody st in
  exists client,
    Server.resolveClient net isDev now2 createdNow2 config ("c_" +:+ uuid) requested
      cache (snd registered)
    = (Some client, cache, snd registered)
    /\ prop (Some (body (fst registered))) "client_id" = Some (JStr ("c_" +:+ uuid))
    /\ client_id client = "c_" +:+ uuid
    /\ redirect_uris client <> []
    /\ forall u, u ∈ redirect_uris client -> u ∈ allowedRedirectUris config.
Proof.
  intros Hcreated Hurl registered. subst registered.
  unfold Server.resolveClient, ClientMetadata.resolveClientFromClientIdMetadataUrl.
  cbn [ClientMetadata.rs_client_id ClientMetadata.rs_config]. rewrite Hurl.
  revert Hcreated. unfold Server.register. cbv zeta.
  destruct (asArray _) as [entries|]; [|discriminate].
  destruct (bool_decide (length entries = 0%nat)); [discriminate|].
  destruct (negb (String.eqb _ "none")); [discriminate|].
  destruct (decide (length (Server.normalizeEntries entries) = 0%nat)) as [Hz|Hnz];
    [rewrite (bool_decide_eq_true_2 _ Hz); discriminate|].
  rewrite (bool_decide_eq_false_2 _ Hnz).
  destruct (forallb _ (Server.normalizeEntries entries)) eqn:Hall; [|discriminate].
  intros _. unfold createClient. cbn [negb fst snd default].
  eexists. split.
  { unfold findClient. cbn [clientsById with_clients].
    rewrite lookup_insert_eq. reflexivity. }
  split; [reflexivity|]. split; [reflexivity|]. cbn [redirect_uris]. split.
  - intros Hnil. rewrite Hnil in Hnz. apply Hnz. reflexivity.
  - intros u Hu. rewrite forallb_forall in Hall.
    apply list_elem_of_In, Hall in Hu. apply bool_decide_eq_true in Hu. exact Hu.
Qed.

End ServerFacts.

(** A refresh_token request is refused without a look at the network. *)
Lemma token_request_shape_witness :
  @Server.token Sample.checksum Sample.codec SampleCimd.web SampleCimd.offline true
    3000 3000 3000 3000 Sample.config
    (Some (JObj [("grant_type", JStr "refresh_token")])) ∅ Sample.issued
  = (Return (Server.jsonError 400 (JObj [("error", JStr "invalid_request")])),
     ∅, Sample.issued).
Proof.
  apply (@token_request_shape Sample.checksum Sample.codec SampleCimd.web).
  left. discriminate.
Defined.

(** The client of the sample registration is resolved under its id. *)
Lemma registered_client_resolves_witness :
  exists client,
    @Server.resolveClient SampleCimd.web SampleCimd.offline true 3000 3000
      Sample.config "c_0123456789abcdef"
      (Some "https://example-client.test/cb") ∅
      (snd (Server.register "0123456789abcdef" 1000 Sample.config
              (Some (JObj [("client_name", JStr "Example");
                           ("redirect_uris",
                            JArr [JStr "https://example-client.test/cb"])]))
              Store.initial))
    = (Some client, ∅,
       snd (Server.register "0123456789abcdef" 1000 Sample.config
              (Some (JObj [("client_name", JStr "Example");
                           ("redirect_uris",
                            JArr [JStr "https://example-client.test/cb"])]))
              Store.initial))
    /\ Store.client_id client = "c_0123456789abcdef".
Proof.
  destruct (@registered_client_resolves SampleCimd.web "0123456789abcdef" 1000
              Sample.config
              (Some (JObj [("client_name", JStr "Example");
                           ("redirect_uris",
                            JArr [JStr "https://example-client.test/cb"])]))
              Store.initial SampleCimd.offline true 3000 3000
              (Some "https://example-client.test/cb") ∅ eq_refl eq_refl)
    as (client & Hresolve & _ & Hid & _).
  exists client. split; [exact Hresolve|exact Hid].
Defined.

(** ** More on client metadata documents (auth-server/client-metadata.ts) *)

Section MetadataMore.
Import Store ClientMetadata.
Context `{WebApi}.

Lemma normalizeRedirectUris_elem_of (uris : list string) (u : string) :
  u ∈ normalizeRedirectUris uris
  <-> u ∈ map Js.trim uris /\ u <> EmptyString /\ isValidRedirectUri u = true.
Proof.
  unfold normalizeRedirectUris.
  rewrite sort_Permutation, dedupe_elem_of, !list_elem_of_filter.
  unfold Js.truthy. destruct u; simpl; destruct (isValidRedirectUri _); simpl;
    intuition congruence.
Qed.

(** X15. A parsed metadata document is well formed: it comes from a JSON
    object, its client_id and client_name are not empty, its redirect URIs
    are not empty, sorted, without repetition, each a non-empty http or https
    URL without fragment, and its token_endpoint_auth_method, if it has one,
    is not empty. *)
Theorem parsed_document_well_formed (raw : option json) (d : ClientIdMetadataDocument) :
  parseClientMetadataDocument raw = Some d ->
  (exists fields, raw = Some (JObj fields))
  /\ doc_client_id d <> EmptyString
  /\ doc_client_name d <> EmptyString
  /\ doc_redirect_uris d <> []
  /\ Sorted String.le (doc_redirect_uris d)
  /\ NoDup (doc_redirect_uris d)
  /\ (forall u, u ∈ doc_redirect_uris d ->
                u <> EmptyString /\ isValidRedirectUri u = true)
  /\ doc_token_endpoint_auth_method d <> Some EmptyString.
Proof.
  unfold parseClientMetadataDocument.
  destruct raw as [[| | | | |fields]|]; try discriminate. cbv zeta.
  destruct (Js.isEmpty (default EmptyString _)) eqn:Hid; [discriminate|].
  destruct (Js.isEmpty (default EmptyString (Js.trim <$> asString (prop _ "client_name"))))
    eqn:Hname; [discriminate|].
  cbn [orb].
  destruct (decide (length (normalizeRedirectUris
                              (normalizeStringArray (prop (Some (JObj fields))
                                                       "redirect_uris"))) = 0%nat))
    as [Hz|Hnz];
    [rewrite (bool_decide_eq_true_2 _ Hz); discriminate|].
  rewrite (bool_decide_eq_false_2 _ Hnz). intros [= <-].
  cbn [doc_client_id doc_client_name doc_redirect_uris doc_token_endpoint_auth_method].
  split; [eauto|]. split; [apply isEmpty_false, Hid|].
  split; [apply isEmpty_false, Hname|]. split.
  { intros Hnil. apply Hnz. exact (f_equal length Hnil). }
  split; [apply sort_Sorted|]. split.
  { unfold normalizeRedirectUris. rewrite sort_Permutation. apply dedupe_NoDup. }
  split.
  { intros u Hu. apply normalizeRedirectUris_elem_of in Hu. tauto. }
  generalize (Js.trim <$> asString (assoc "token_endpoint_auth_method" fields)).
  intros [[|c m]|]; discriminate.
Qed.

(** X16. Fetching fails closed. When the cache holds no fresh entry for
    the URL, a fetch that is rejected (network error or timeout), or that is
    answered otherwise than by a 2xx status with a body that parses to a
    well-formed document (a 304 counting only when an entry is cached),
    gives no document and leaves the cache as it was. *)
Theorem metadata_fetch_fails_closed
    (net : string -> list (string * string) -> FetchOutcome) (now : Z)
    (url : string) (cache : Cache) :
  (forall c, cache !! url = Some c -> expiresAt c <= now) ->
  (forall requestHeaders,
      match net url requestHeaders with
      | FetchRejected => True
      | FetchResponse st _ parsed =>
          (st = 304 -> cache !! url = None)
          /\ (st < 200 \/ 299 < st \/ parseClientMetadataDocument parsed = None)
      end) ->
  fetchClientMetadataDocumentWithCache net now url cache = (None, cache).
Proof.
  intros Hstale Hbad. unfold fetchClientMetadataDocumentWithCache. cbv zeta.
  assert (forall hs,
    match net url hs with
    | FetchRejected => (None, cache)
    | FetchResponse st hs' parsed =>
        match (if st =? 304 then cache !! url else None) with
        | Some c =>
            let '(cacheable, expires) := computeCacheExpiry hs' now in
            (Some (doc c),
             if cacheable then
               <[url := {| doc := doc c; expiresAt := expires;
                           etag := match hs' !! "etag" with
                                   | Some e => Some e
                                   | None => etag c
                                   end;
                           lastModified := match hs' !! "last-modified" with
                                           | Some e => Some e
                                           | None => lastModified c
                                           end |}]> cache
             else delete url cache)
        | None =>
            if negb ((200 <=? st) && (st <=? 299)) then (None, cache)
            else
              match parsed with
              | None => (None, cache)
              | Some j =>
                  match parseClientMetadataDocument (Some j) with
                  | None => (None, cache)
                  | Some d =>
                      let '(cacheable, expires) := computeCacheExpiry hs' now in
                      (Some d,
                       if cacheable then
                         <[url := {| doc := d; expiresAt := expires;
                                     etag := hs' !! "etag";
                                     lastModified := hs' !! "last-modified" |}]> cache
                       else delete url cache)
                  end
              end
        end
    end = (None, cache)) as Hrefetch.
  { intros hs. specialize (Hbad hs).
    destruct (net url hs) as [|st hs' parsed]; [reflexivity|].
    destruct Hbad as [H304 Hresp].
    assert ((if st =? 304 then cache !! url else None) = None) as ->.
    { destruct (Z.eqb_spec st 304) as [Heq|]; [apply H304, Heq|reflexivity]. }
    destruct (Z.leb_spec 200 st), (Z.leb_spec st 299); cbn [andb negb];
      try reflexivity.
    destruct Hresp as [Hlo|[Hhi|Hparse]]; [lia|lia|].
    destruct parsed as [j|]; [|reflexivity]. rewrite Hparse. reflexivity. }
  destruct (cache !! url) as [c|] eqn:Hc.
  - assert ((expiresAt c >? now) = false) as ->.
    { rewrite Z.gtb_ltb. apply Z.ltb_ge. apply Hstale. reflexivity. }
    apply Hrefetch.
  - apply Hrefetch.
Qed.

(** X17. The cache stays coherent with what is returned. A call only
    touches the entry of the URL it is given; when it gives no document the
    cache is unchanged; when it gives one, the entry of the URL, if there is
    one afterwards, holds that document, and every later call made before
    the entry expires returns it again, whatever the network then answers,
    without changing the cache. *)
Theorem metadata_cache_coherent
    (net : string -> list (string * string) -> FetchOutcome) (now : Z)
    (url : string) (cache : Cache) :
  let r := fetchClientMetadataDocumentWithCache net now url cache in
  (forall other, other <> url -> snd r !! other = cache !! other)
  /\ (fst r = None -> snd r = cache)
  /\ forall d, fst r = Some d ->
       forall c, snd r !! url = Some c ->
         doc c = d
         /\ forall net2 now2, now2 < expiresAt c ->
              fetchClientMetadataDocumentWithCache net2 now2 url (snd r)
              = (Some d, snd r).
Proof.
  intros r.
  assert (forall (d : ClientIdMetadataDocument) (cache1 : Cache) (c : CachedClientIdMetadataDocument),
            cache1 !! url = Some c -> doc c = d ->
            forall net2 now2, now2 < expiresAt c ->
              fetchClientMetadataDocumentWithCache net2 now2 url cache1
              = (Some d, cache1)) as Hhit.
  { intros d cache1 c Hc <- net2 now2 Hfresh.
    unfold fetchClientMetadataDocumentWithCache. cbv zeta. rewrite Hc.
    assert ((expiresAt c >? now2) = true) as ->; [|reflexivity].
    rewrite Z.gtb_ltb. apply Z.ltb_lt. exact Hfresh. }
  assert ((forall other, other <> url -> snd r !! other = cache !! other)
          /\ (fst r = None -> snd r = cache)
          /\ forall d, fst r = Some d ->
               forall c, snd r !! url = Some c -> doc c = d) as (Hframe & Hnone & Hdoc).
  { subst r. unfold fetchClientMetadataDocumentWithCache. cbv zeta.
    set (hs := _ ++ _ ++ _). clearbody hs.
    assert (forall cached : option CachedClientIdMetadataDocument,
      (cached = None \/ cached = cache !! url) ->
      let r :=
        match net url hs with
        | FetchRejected => (None, cache)
        | FetchResponse st hs' parsed =>
            match (if st =? 304 then cached else None) with
            | Some c =>
                let '(cacheable, expires) := computeCacheExpiry hs' now in
                (Some (doc c),
                 if cacheable then
                   <[url := {| doc := doc c; expiresAt := expires;
                               etag := match hs' !! "etag" with
                                       | Some e => Some e
                                       | None => etag c
                                       end;
                               lastModified := match hs' !! "last-modified" with
                                               | Some e => Some e
                                               | None => lastModified c
                                               end |}]> cache
                 else delete url cache)
            | None =>
                if negb ((200 <=? st) && (st <=? 299)) then (None, cache)
                else
                  match parsed with
                  | None => (None, cache)
                  | Some j =>
                      match parseClientMetadataDocument (Some j) with
                      | None => (None, cache)
                      | Some d =>
                          let '(cacheable, expires) := computeCacheExpiry hs' now in
                          (Some d,
                           if cacheable then
                             <[url := {| doc := d; expiresAt := expires;
                                         etag := hs' !! "etag";
                                         lastModified := hs' !! "last-modified" |}]> cache
                           else delete url cache)
                      end
                  end
            end
        end in
      (forall other, other <> url -> snd r !! other = cache !! other)
      /\ (fst r = None -> snd r = cache)
      /\ forall d, fst r = Some d ->
           forall c, snd r !! url = Some c -> doc c = d) as Hrefetch.
    { intros cached _. cbv zeta.
      destruct (net url hs) as [|st hs' parsed]; [cbn; split; [auto|split; [auto|discriminate]]|].
      destruct (if st =? 304 then cached else None) as [c0|].
      - destruct (computeCacheExpiry hs' now) as [[] expires]; cbn [fst snd].
        + split; [intros other Hne; apply lookup_insert_ne; congruence|].
          split; [discriminate|]. intros d [= <-] c. rewrite lookup_insert_eq.
          intros [= <-]. reflexivity.
        + split; [intros other Hne; apply lookup_delete_ne; congruence|].
          split; [discriminate|]. intros d _ c. rewrite lookup_delete_eq. discriminate.
      - destruct (negb _); [cbn; split; [auto|split; [auto|discriminate]]|].
        destruct parsed as [j|]; [|cbn; split; [auto|split; [auto|discriminate]]].
        destruct (parseClientMetadataDocument (Some j)) as [d0|];
          [|cbn; split; [auto|split; [auto|discriminate]]].
        destruct (computeCacheExpiry hs' now) as [[] expires]; cbn [fst snd].
        + split; [intros other Hne; apply lookup_insert_ne; congruence|].
          split; [discriminate|]. intros d [= <-] c. rewrite lookup_insert_eq.
          intros [= <-]. reflexivity.
        + split; [intros other Hne; apply lookup_delete_ne; congruence|].
          split; [discriminate|]. intros d _ c. rewrite lookup_delete_eq. discriminate. }
    destruct (cache !! url) as [c0|] eqn:Hc0.
    - destruct (expiresAt c0 >? now).
      + cbn [fst snd]. split; [auto|]. split; [auto|].
        intros d [= <-] c. rewrite Hc0. intros [= <-]. reflexivity.
      + apply (Hrefetch (Some c0)). auto.
    - apply (Hrefetch None). auto. }
  split; [exact Hframe|]. split; [exact Hnone|].
  intros d Hd c Hc. split; [apply (Hdoc d Hd c Hc)|].
  apply (Hhit d (snd r) c Hc). apply (Hdoc d Hd c Hc).
Qed.

(** X18. When the metadata-URL path returns a client, this client is
    what the store then holds under the canonical URL; if the request named
    a redirect URI, its trimmed form is one of the redirect URIs of the
    client; the users, the codes and the clients stored under other ids are
    left as they were. *)
Theorem resolved_client_has_redirect
    (net : string -> list (string * string) -> FetchOutcome) (isDev : bool)
    (now createdNow : Z) (params : ResolveParams) (cache cache' : Cache)
    (st st' : State) (client : OAuthClient) :
  resolveClientFromClientIdMetadataUrl net isDev now createdNow params cache st
  = (Some client, cache', st') ->
  (exists url,
      tryParseAllowedClientMetadataUrl (rs_client_id params)
        (allowedClientMetadataHosts (rs_config params)) = Some url
      /\ findClient (href url) st' = Some client
      /\ forall cid, cid <> href url -> findClient cid st' = findClient cid st)
  /\ (forall requested,
        requestedRedirectUri params = Some requested -> requested <> EmptyString ->
        Js.trim requested ∈ redirect_uris client)
  /\ usersByUsername st' = usersByUsername st
  /\ authCodesByCode st' = authCodesByCode st.
Proof.
  intros Hres.
  pose proof (resolveFromMetadata_frame net isDev now createdNow params cache st)
    as Hframe. cbv zeta in Hframe. rewrite Hres in Hframe. cbn [snd] in Hframe.
  split; [|split; [|exact Hframe]]; revert Hres;
    unfold resolveClientFromClientIdMetadataUrl;
    (destruct (tryParseAllowedClientMetadataUrl _ _) as [url|]; [|discriminate]);
    cbv zeta;
    (destruct (fetchClientMetadataDocumentWithCache _ _ _ _) as [[d|] cache1];
       [|discriminate]);
    (destruct (url_parse _) as [claimed|]; [|discriminate]);
    (destruct (negb (String.eqb _ _)); [discriminate|]);
    (destruct (negb (String.eqb _ "none")); [discriminate|]).
  - intros Hres. exists url. split; [reflexivity|]. revert Hres.
    match goal with
    | |- context [match ?a with Some _ => _ | None => (None, cache1, st) end] =>
        destruct a as [uriSet|]; [|discriminate]
    end.
    unfold createClient, findClient. cbn [default].
    destruct (clientsById st !! href url) as [e|] eqn:He.
    + destruct (_ && _).
      * intros [= <- _ <-]. split; [exact He|reflexivity].
      * intros [= <- _ <-]. cbn [clientsById with_clients]. split.
        -- apply lookup_insert_eq.
        -- intros cid Hne. apply lookup_insert_ne. congruence.
    + intros [= <- _ <-]. cbn [clientsById with_clients]. split.
      * apply lookup_insert_eq.
      * intros cid Hne. apply lookup_insert_ne. congruence.
  - intros Hres requested Hreq Hne. revert Hres. rewrite Hreq.
    assert (present (Some requested) = true) as ->
      by (destruct requested; [congruence|reflexivity]).
    change (default EmptyString (Some requested)) with requested.
    set (listed := normalizeRedirectUris (doc_redirect_uris d)).
    assert (forall uriSet,
              (if Js.includes listed (Js.trim requested) then Some listed
               else if isDev && isLoopbackRedirectUri (Js.trim requested)
                    then Some (listed ++ [Js.trim requested]) else None) = Some uriSet ->
              Js.trim requested ∈ Js.sort uriSet) as Hin.
    { intros uriSet. rewrite sort_Permutation. unfold Js.includes.
      destruct (decide (Js.trim requested ∈ listed)) as [Hl|Hl].
      - rewrite (bool_decide_eq_true_2 _ Hl). intros [= <-]. exact Hl.
      - rewrite (bool_decide_eq_false_2 _ Hl). destruct (_ && _); [|discriminate].
        intros [= <-]. apply elem_of_app. right. left. }
    destruct (if Js.includes listed (Js.trim requested) then _ else _) as [uriSet|];
      [|discriminate].
    specialize (Hin uriSet eq_refl).
    unfold createClient. destruct (findClient (href url) st) as [e|].
    + destruct (String.eqb _ _ && arraysEqual _ _) eqn:Hsame.
      * intros [= <- _ _]. apply andb_prop in Hsame as [_ Heq].
        unfold arraysEqual in Heq. apply andb_prop in Heq as [_ Heq].
        apply bool_decide_eq_true in Heq. rewrite <- Heq, sort_Permutation in Hin.
        exact Hin.
      * intros [= <- _ _]. exact Hin.
    + intros [= <- _ _]. exact Hin.
Qed.

End MetadataMore.

(** The sample document, fetched from its canonical URL. *)
Lemma parsed_document_well_formed_witness :
  exists d,
    @ClientMetadata.parseClientMetadataDocument SampleCimd.web
      (Some (SampleCimd.document SampleCimd.canonical)) = Some d
    /\ ClientMetadata.doc_redirect_uris d <> [].
Proof.
  exists {| ClientMetadata.doc_client_id := SampleCimd.canonical;
            ClientMetadata.doc_client_name := "MCPJam";
            ClientMetadata.doc_redirect_uris := ["https://example-client.test/cb"];
            ClientMetadata.doc_token_endpoint_auth_method := None |}.
  split; [reflexivity|].
  apply (@parsed_document_well_formed SampleCimd.web
           (Some (SampleCimd.document SampleCimd.canonical))).
  reflexivity.
Defined.

(** With the network down and an empty cache, no document is obtained. *)
Lemma metadata_fetch_fails_closed_witness :
  @ClientMetadata.fetchClientMetadataDocumentWithCache SampleCimd.web
    SampleCimd.offline 3000 SampleCimd.canonical ∅
  = (None, ∅).
Proof.
  apply (@metadata_fetch_fails_closed SampleCimd.web).
  - intros c Hc. discriminate Hc.
  - intros requestHeaders. exact I.
Defined.

(** The sample client, resolved from its metadata URL on a fresh store. *)
Lemma resolved_client_has_redirect_witness :
  let r :=
    @ClientMetadata.resolveClientFromClientIdMetadataUrl SampleCimd.web
      (SampleCimd.serving SampleCimd.canonical) false 3000 3000 SampleCimd.params
      ∅ Store.initial in
  exists client,
    fst (fst r) = Some client
    /\ "https://example-client.test/cb" ∈ Store.redirect_uris client.
Proof.
  intros r.
  assert (fst (fst r)
          = Some {| Store.client_id := SampleCimd.canonical;
                    Store.client_name := "MCPJam";
                    Store.redirect_uris := ["https://example-client.test/cb"];
                    Store.created_at := 3000 |}) as Hclient
    by (vm_compute; reflexivity).
  eexists. split; [exact Hclient|].
  assert (r = (fst (fst r), snd (fst r), snd r)) as Hres
    by (destruct r as [[a b] c]; reflexivity).
  rewrite Hclient in Hres.
  destruct (@resolved_client_has_redirect SampleCimd.web _ _ _ _ _ _ _ _ _ _ Hres)
    as (_ & Hin & _).
  apply (Hin "https://example-client.test/cb"); [reflexivity|discriminate].
Defined.

(** ** More on the guard of the resource server (app/mcp/route.ts, app/mcp/auth.ts) *)

Section GuardMore.
Import McpAuth McpRoute.
Context `{Jose}.
Variable url : string.

Lemma parseJsonRpc_toolName (reqBody : json) (rpc : JsonRpc) :
  parseJsonRpc reqBody = Return rpc ->
  method rpc = asString (prop (Some reqBody) "method")
  /\ rpc_id rpc = match reqBody with
                  | JObj fields => default JNull (assoc "id" fields)
                  | _ => JNull
                  end
  /\ toolName rpc
     = if bool_decide (method rpc = Some "tools/call")
       then asString (prop (prop (Some reqBody) "params") "name")
       else None.
Proof.
  unfold parseJsonRpc.
  assert (forall (id : json) (r : JsonRpc),
    (let m := asString (prop (Some reqBody) "method") in
     if bool_decide (m = Some "tools/call")
     then Return {| rpc_id := id; method := m;
                    toolName := asString (prop (prop (Some reqBody) "params") "name") |}
     else Return {| rpc_id := id; method := m; toolName := None |}) = Return r ->
    method r = asString (prop (Some reqBody) "method")
    /\ rpc_id r = id
    /\ toolName r
       = if bool_decide (method r = Some "tools/call")
         then asString (prop (prop (Some reqBody) "params") "name")
         else None) as Hrest.
  { intros id r. cbv zeta.
    destruct (decide (asString (prop (Some reqBody) "method") = Some "tools/call"))
      as [Hm|Hm].
    - rewrite (bool_decide_eq_true_2 _ Hm). intros [= <-].
      do 2 (split; [reflexivity|]). rewrite bool_decide_eq_true_2 by exact Hm.
      reflexivity.
    - rewrite (bool_decide_eq_false_2 _ Hm). intros [= <-].
      do 2 (split; [reflexivity|]). rewrite bool_decide_eq_false_2 by exact Hm.
      reflexivity. }
  destruct reqBody as [|[]|n|s|items|fields]; cbn [falsy];
    try discriminate; try (intros Hr; apply Hrest in Hr; exact Hr).
  - destruct n; try discriminate; intros Hr; apply Hrest in Hr; exact Hr.
  - destruct s; try discriminate; intros Hr; apply Hrest in Hr; exact Hr.
Qed.

(** X19. The guard only ever refuses calls of tools that have a required
    or an optional policy. A request that is not a tools/call, or that names
    no tool, a tool without policy or a public tool, is passed to the
    underlying handler whatever the Authorization header holds: with the
    context of the token when it is valid, without context otherwise. *)
Theorem unguarded_requests_forwarded (env : Env) (now : Z) (reqBody : json)
    (rpc : JsonRpc) (authorization : option string) (verified : VerifyResult) :
  parseJsonRpc reqBody = Return rpc ->
  verifyBearerFromRequest env now authorization = Return verified ->
  asString (prop (Some reqBody) "method") <> Some "tools/call"
  \/ getToolPolicy (toolName rpc) = None
  \/ getToolPolicy (toolName rpc) = Some Public ->
  POST url env now (Some reqBody) authorization
  = Return (Forwarded match verified with
                      | StatusValid ctx => Some ctx
                      | _ => None
                      end).
Proof.
  intros Hrpc Hv Hcase. unfold POST. rewrite Hrpc, Hv. f_equal.
  unfold authorizeToolCall.
  destruct (McpAuth.present (toolName rpc)) eqn:Hp; [|reflexivity]. cbn [negb].
  destruct Hcase as [Hm|[Hpol|Hpol]].
  - destruct (parseJsonRpc_toolName _ _ Hrpc) as (Hmethod & _ & Htool).
    rewrite Hmethod, (bool_decide_eq_false_2 _ Hm) in Htool.
    rewrite Htool in Hp. discriminate Hp.
  - rewrite Hpol. reflexivity.
  - rewrite Hpol. reflexivity.
Qed.

Lemma enforceScopesOrThrow_spec (ctx : VerifiedAuthContext) (required : list string) :
  McpScopes.enforceScopesOrThrow ctx required
  = if bool_decide (0 < length (filter (fun s => ¬ (s ∈ scopes ctx)) required))%nat
    then Throw ("Missing scopes: "
                +:+ Js.join ", " (filter (fun s => ¬ (s ∈ scopes ctx)) required))
    else Return tt.
Proof.
  unfold McpScopes.enforceScopesOrThrow.
  destruct (Scopes.hasAllScopes (scopes ctx) required) eqn:Hall; cbn [negb].
  - destruct (bool_decide (0 < _)%nat) eqn:Hm; [|reflexivity].
    apply missing_scopes in Hm as (s & Hin & Hout).
    exfalso. apply Hout. apply (proj1 (hasAllScopes_spec _ _) Hall). exact Hin.
  - destruct (bool_decide (0 < _)%nat) eqn:Hm; [reflexivity|].
    exfalso. assert (Scopes.hasAllScopes (scopes ctx) required = true) as Hyes.
    { apply hasAllScopes_spec. intros s Hin.
      destruct (decide (s ∈ scopes ctx)) as [Hs|Hs]; [exact Hs|].
      exfalso. apply not_true_iff_false in Hm. apply Hm, missing_scopes. eauto. }
    congruence.
Qed.

(** X20. A call of a tool with a required policy only reaches the tool
    with a verified context: when the guard passes such a call on, the
    request carried a bearer token that verified, the context handed to the
    tool is the one of that token, it grants every scope of the policy, and
    enforceScopesOrThrow would accept it. *)
Theorem forwarded_call_authorized (env : Env) (now : Z) (reqBody id : json)
    (tool : string) (toolScopes : list string) (authorization : option string)
    (ctx : option VerifiedAuthContext) :
  Rpc.toolsCall reqBody id tool ->
  getToolPolicy (Some tool) = Some (Required toolScopes) ->
  POST url env now (Some reqBody) authorization = Return (Forwarded ctx) ->
  exists c,
    ctx = Some c
    /\ verifyBearerFromRequest env now authorization = Return (StatusValid c)
    /\ parseBearerTokenFromHeader authorization = Some (ctx_token c)
    /\ (forall s, s ∈ toolScopes -> s ∈ scopes c)
    /\ McpScopes.enforceScopesOrThrow c toolScopes = Return tt.
Proof.
  intros Hcall Hpolicy. unfold POST.
  rewrite (parseJsonRpc_toolsCall _ _ _ Hcall).
  destruct (verifyBearerFromRequest env now authorization) as [verified|] eqn:Hv;
    [|discriminate].
  cbn [rpc_id toolName]. rewrite (authorizeToolCall_required url _ _ _ _ Hpolicy).
  destruct verified as [| |c]; try discriminate.
  destruct (bool_decide (0 < _)%nat) eqn:Hm; [discriminate|].
  intros [= <-]. exists c. split; [reflexivity|]. split; [reflexivity|].
  split.
  { destruct (valid_context_token_acceptable _ _ _ _ Hv) as (_ & _ & _ & _ & _ & _ & Ht & _).
    exact Ht. }
  split.
  - intros s Hin. destruct (decide (s ∈ scopes c)) as [Hs|Hs]; [exact Hs|].
    exfalso. apply not_true_iff_false in Hm. apply Hm, missing_scopes. eauto.
  - rewrite enforceScopesOrThrow_spec, Hm. reflexivity.
Qed.

(** X21. The scope test written out in the route handler and the one of
    enforceScopesOrThrow (through hasAllScopes) agree: enforceScopesOrThrow
    returns exactly when no required scope is missing from the granted set,
    and otherwise throws a message that lists the missing scopes, in the
    order of the policy. *)
Theorem enforceScopesOrThrow_agrees (ctx : VerifiedAuthContext) (required : list string) :
  let missing := filter (fun s => ¬ (s ∈ scopes ctx)) required in
  (McpScopes.enforceScopesOrThrow ctx required = Return tt
   <-> Scopes.hasAllScopes (scopes ctx) required = true)
  /\ (McpScopes.enforceScopesOrThrow ctx required = Return tt <-> missing = [])
  /\ (McpScopes.enforceScopesOrThrow ctx required = Return tt
      <-> forall s, s ∈ required -> s ∈ scopes ctx)
  /\ (missing <> [] ->
      McpScopes.enforceScopesOrThrow ctx required
      = Throw ("Missing scopes: " +:+ Js.join ", " missing)).
Proof.
  intros missing. subst missing. rewrite enforceScopesOrThrow_spec.
  set (missing := filter (fun s => ¬ (s ∈ scopes ctx)) required).
  assert (missing = [] <-> forall s, s ∈ required -> s ∈ scopes ctx) as Hempty.
  { split.
    - intros Hnil s Hin. destruct (decide (s ∈ scopes ctx)) as [Hs|Hs]; [exact Hs|].
      exfalso. assert (s ∈ missing) as Hmiss by (apply list_elem_of_filter; auto).
      rewrite Hnil in Hmiss. inversion Hmiss.
    - intros Hall. destruct missing as [|s l] eqn:Hm; [reflexivity|exfalso].
      assert (s ∈ missing) as Hs by (rewrite Hm; left).
      apply list_elem_of_filter in Hs as [Hout Hin]. apply Hout, Hall, Hin. }
  rewrite hasAllScopes_spec, <- Hempty.
  destruct missing as [|s l]; cbn [length].
  - rewrite bool_decide_eq_false_2 by lia. repeat split; auto; congruence.
  - rewrite bool_decide_eq_true_2 by lia. repeat split; auto; try discriminate.
Qed.

(** X22. parseJsonRpc throws exactly on a body that is a truthy
    primitive (true, a non-zero number, a non-empty string), on which the
    in operator is a TypeError; on every other body it returns, with the id
    of an object that has one and null otherwise, and with a tool name only
    for the method tools/call. A body that is not JSON at all is answered
    400 by the POST handler before the environment or the Authorization
    header is read. *)
Theorem parseJsonRpc_throws_on_primitives (reqBody : json) :
  ((exists m, parseJsonRpc reqBody = Throw m)
   <-> falsy reqBody = false
       /\ match reqBody with
          | JBool _ | JNum _ | JStr _ => True
          | _ => False
          end)
  /\ (forall rpc,
        parseJsonRpc reqBody = Return rpc ->
        rpc_id rpc = match reqBody with
                     | JObj fields => default JNull (assoc "id" fields)
                     | _ => JNull
                     end
        /\ method rpc = asString (prop (Some reqBody) "method")
        /\ (toolName rpc <> None -> method rpc = Some "tools/call"))
  /\ forall env now authorization,
       exists res,
         POST url env now None authorization = Return (Responded res)
         /\ status res = 400
         /\ getHeader "Access-Control-Allow-Origin" (headers res) = Some "*".
Proof.
  split; [|split].
  - unfold parseJsonRpc.
    destruct reqBody as [|[]|[|p|p]|[|c s]|items|fields]; cbn [falsy];
      (split;
       [intros [m Hm];
        first [solve [revert Hm; destruct (bool_decide _); discriminate]
              |split; [reflexivity|exact I]]
       |intros [Hf Hk];
        first [discriminate Hf|contradiction|eexists; reflexivity]]).
  - intros rpc Hrpc. destruct (parseJsonRpc_toolName _ _ Hrpc) as (Hm & Hid & Htool).
    split; [exact Hid|]. split; [exact Hm|]. intros Hsome.
    destruct (decide (method rpc = Some "tools/call")) as [Hcall|Hcall]; [exact Hcall|].
    rewrite (bool_decide_eq_false_2 _ Hcall) in Htool. congruence.
  - intros env now authorization. eexists. split; [reflexivity|]. split; reflexivity.
Qed.

End GuardMore.

Section Cors.
Import McpAuth.

Lemma getHeader_setHeader_eq (k v : string) (hs : list (string * string)) :
  getHeader k (setHeader k v hs) = Some v.
Proof.
  induction hs as [|[k' v'] hs IH]; cbn [setHeader getHeader].
  - rewrite String.eqb_refl. reflexivity.
  - destruct (String.eqb (Js.toLowerCase k') (Js.toLowerCase k)) eqn:Hk;
      cbn [getHeader]; rewrite Hk; [reflexivity|exact IH].
Qed.

Lemma getHeader_setHeader_ne (k k' v : string) (hs : list (string * string)) :
  Js.toLowerCase k <> Js.toLowerCase k' ->
  getHeader k' (setHeader k v hs) = getHeader k' hs.
Proof.
  intros Hne. induction hs as [|[k0 v0] hs IH]; cbn [setHeader getHeader].
  - apply String.eqb_neq in Hne. rewrite Hne. reflexivity.
  - destruct (String.eqb_spec (Js.toLowerCase k0) (Js.toLowerCase k)) as [Hk|Hk];
      cbn [getHeader].
    + destruct (String.eqb_spec (Js.toLowerCase k0) (Js.toLowerCase k')) as [Hk'|Hk'];
        [congruence|reflexivity].
    + rewrite IH. reflexivity.
Qed.

Lemma setHeader_same (k v : string) (hs : list (string * string)) :
  getHeader k hs = Some v -> setHeader k v hs = hs.
Proof.
  induction hs as [|[k0 v0] hs IH]; cbn [setHeader getHeader]; [discriminate|].
  destruct (String.eqb (Js.toLowerCase k0) (Js.toLowerCase k)).
  - intros [= ->]. reflexivity.
  - intros Hg. rewrite (IH Hg). reflexivity.
Qed.

(** X23. corsify keeps the status and the body of a response, sets the
    three Access-Control headers, keeps a Cache-Control header that is
    already there and adds no-store otherwise, and leaves every other header
    as it was; applying it twice is the same as applying it once, and the
    preflight response is what it makes of an empty 204. *)
Theorem corsify_headers (res : HttpResponse) :
  status (corsify res) = status res
  /\ body (corsify res) = body res
  /\ getHeader "Access-Control-Allow-Origin" (headers (corsify res)) = Some "*"
  /\ getHeader "Access-Control-Allow-Methods" (headers (corsify res))
     = Some "GET,POST,OPTIONS"
  /\ getHeader "Access-Control-Allow-Headers" (headers (corsify res))
     = Some "Authorization, Content-Type"
  /\ getHeader "Cache-Control" (headers (corsify res))
     = Some (default "no-store" (getHeader "Cache-Control" (headers res)))
  /\ (forall k,
        Js.toLowerCase k ∉ ["access-control-allow-origin"; "access-control-allow-methods";
                            "access-control-allow-headers"; "cache-control"] ->
        getHeader k (headers (corsify res)) = getHeader k (headers res))
  /\ corsify (corsify res) = corsify res
  /\ McpScopes.corsPreflight = corsify {| status := 204; headers := []; body := JNull |}.
Proof.
  assert (forall hs : list (string * string),
    let hs4 := headers (corsify {| status := 0; headers := hs; body := JNull |}) in
    getHeader "Access-Control-Allow-Origin" hs4 = Some "*"
    /\ getHeader "Access-Control-Allow-Methods" hs4 = Some "GET,POST,OPTIONS"
    /\ getHeader "Access-Control-Allow-Headers" hs4 = Some "Authorization, Content-Type"
    /\ getHeader "Cache-Control" hs4
       = Some (default "no-store" (getHeader "Cache-Control" hs))) as Hset.
  { intros hs hs4. subst hs4. unfold corsify. cbn [headers].
    repeat split.
    - rewrite !getHeader_setHeader_ne by discriminate. apply getHeader_setHeader_eq.
    - rewrite !getHeader_setHeader_ne by discriminate. apply getHeader_setHeader_eq.
    - rewrite !getHeader_setHeader_ne by discriminate. apply getHeader_setHeader_eq.
    - rewrite getHeader_setHeader_eq.
      rewrite !getHeader_setHeader_ne by discriminate. reflexivity. }
  destruct (Hset (headers res)) as (Ho & Hm & Hh & Hc).
  split; [reflexivity|]. split; [reflexivity|].
  split; [exact Ho|]. split; [exact Hm|]. split; [exact Hh|]. split; [exact Hc|].
  split; [|split; [|reflexivity]].
  - intros k Hk. unfold corsify. cbn [headers].
    rewrite !getHeader_setHeader_ne; [reflexivity|..];
      intros Heq; apply Hk; rewrite <- Heq; apply list_elem_of_In; simpl; tauto.
  - unfold corsify at 1. cbn [status body].
    change (headers (corsify res))
      with (headers (corsify {| status := 0; headers := headers res; body := JNull |}))
      in *.
    set (hs4 := headers (corsify {| status := 0; headers := headers res; body := JNull |}))
      in *.
    rewrite (setHeader_same _ _ hs4 Ho), (setHeader_same _ _ hs4 Hm),
      (setHeader_same _ _ hs4 Hh).
    rewrite Hc.
    rewrite (setHeader_same "Cache-Control"
               (default "no-store"
                  (Some (default "no-store" (getHeader "Cache-Control" (headers res)))))
               hs4 Hc).
    reflexivity.
Qed.

End Cors.

(** On the sample deployment: the public tool auth_show is reached even
    with a token that does not verify, without auth context. *)
Lemma unguarded_requests_forwarded_witness :
  @McpRoute.POST Sample.codec SampleRs.resourceMetadataUrl SampleRs.env 1200000
    (Some (SampleRs.call "auth_show")) (Some "Bearer garbage")
  = Return (McpRoute.Forwarded None).
Proof.
  apply (@unguarded_requests_forwarded Sample.codec SampleRs.resourceMetadataUrl
           SampleRs.env 1200000 (SampleRs.call "auth_show")
           {| McpRoute.rpc_id := JNum 7; McpRoute.method := Some "tools/call";
              McpRoute.toolName := Some "auth_show" |}
           (Some "Bearer garbage") (McpAuth.StatusInvalid "jwt malformed")).
  - reflexivity.
  - reflexivity.
  - right. right. reflexivity.
Defined.

(** On the sample deployment: notes_list reached with the sample token. *)
Lemma forwarded_call_authorized_witness :
  exists c,
    @McpAuth.verifyBearerFromRequest Sample.codec SampleRs.env 1200000
      (Some "Bearer tok.u_123") = Return (McpAuth.StatusValid c)
    /\ McpScopes.enforceScopesOrThrow c ["notes:read"] = Return tt.
Proof.
  assert (Rpc.toolsCall (SampleRs.call "notes_list") (JNum 7) "notes_list") as Hcall.
  { eexists. repeat split; reflexivity. }
  let v := eval vm_compute in
       (@McpRoute.POST Sample.codec SampleRs.resourceMetadataUrl SampleRs.env 1200000
          (Some (SampleRs.call "notes_list")) (Some "Bearer tok.u_123")) in
  match v with
  | Return (McpRoute.Forwarded ?ctx) =>
      destruct (@forwarded_call_authorized Sample.codec SampleRs.resourceMetadataUrl
                  SampleRs.env 1200000 _ _ _ ["notes:read"]
                  (Some "Bearer tok.u_123") ctx
                  Hcall eq_refl ltac:(vm_compute; reflexivity))
        as (c & _ & Hv & _ & _ & Henforce)
  end.
  exists c. split; assumption.
Defined.

(** ** Escaping for the consent page (auth-server/ui.ts) *)

Section Escaping.

Lemma all_app (p : ascii -> bool) (s t : string) :
  Js.all p (s +:+ t) = Js.all p s && Js.all p t.
Proof.
  induction s as [|c s IH]; [reflexivity|].
  rewrite append_cons. cbn [Js.all]. rewrite IH, andb_assoc. reflexivity.
Qed.

Lemma replaceChar_all (p : ascii -> bool) (c : ascii) (by_ s : string) :
  Js.all p by_ = true ->
  Js.all (fun x => Ascii.eqb x c || p x) s = true ->
  Js.all p (Js.replaceChar c by_ s) = true.
Proof.
  intros Hby. induction s as [|d s IH]; [reflexivity|].
  cbn [Js.all Js.replaceChar]. intros [Hd Hs]%andb_prop.
  rewrite all_app, (IH Hs), andb_true_r.
  destruct (Ascii.eqb d c); [exact Hby|].
  cbn [Js.all]. rewrite andb_true_r. exact Hd.
Qed.

Lemma all_impl (p q : ascii -> bool) (s : string) :
  (forall x, p x = true -> q x = true) -> Js.all p s = true -> Js.all q s = true.
Proof.
  intros Hpq. induction s as [|c s IH]; [reflexivity|].
  cbn [Js.all]. intros [Hc Hs]%andb_prop. rewrite (Hpq c Hc), (IH Hs). reflexivity.
Qed.

Lemma replaceChar_absent (c : ascii) (by_ s : string) :
  Js.all (fun x => negb (Ascii.eqb x c)) s = true -> Js.replaceChar c by_ s = s.
Proof.
  induction s as [|d s IH]; [reflexivity|].
  cbn [Js.all Js.replaceChar]. intros [Hd Hs]%andb_prop.
  apply negb_true_iff in Hd. rewrite Hd, (IH Hs). reflexivity.
Qed.

(** X24. The text that escapeHtml returns holds none of the characters
    less-than, greater-than, double quote and single quote, whatever the
    input; a text without any of the five characters it replaces is returned
    as it is. *)
Theorem escapeHtml_safe (s : string) :
  Js.all (fun c => negb (Alphabet.markup c)) (Ui.escapeHtml s) = true
  /\ (Js.all (fun c => negb (Alphabet.htmlSpecial c)) s = true -> Ui.escapeHtml s = s).
Proof.
  split.
  - unfold Ui.escapeHtml.
    set (s1 := Js.replaceChar "&" "&amp;" s).
    assert (Js.all (fun x => negb (Ascii.eqb x "<")) (Js.replaceChar "<" "&lt;" s1) = true)
      as H2.
    { apply replaceChar_all; [reflexivity|]. apply (all_impl (fun _ => true)).
      - intros x _. destruct (Ascii.eqb x "<"); reflexivity.
      - clear. induction s1 as [|c r IH]; [reflexivity|exact IH]. }
    set (s2 := Js.replaceChar "<" "&lt;" s1) in *.
    assert (Js.all (fun x => negb (Ascii.eqb x "<" || Ascii.eqb x ">"))
              (Js.replaceChar ">" "&gt;" s2) = true) as H3.
    { apply replaceChar_all; [reflexivity|]. revert H2. apply all_impl.
      intros x Hx. apply negb_true_iff in Hx. rewrite Hx.
      destruct (Ascii.eqb x ">"); reflexivity. }
    set (s3 := Js.replaceChar ">" "&gt;" s2) in *.
    assert (Js.all (fun x => negb (Ascii.eqb x "<" || Ascii.eqb x ">"
                                   || Ascii.eqb x (ascii_of_nat 34)))
              (Js.replaceChar (ascii_of_nat 34) "&quot;" s3) = true) as H4.
    { apply replaceChar_all; [reflexivity|]. revert H3. apply all_impl.
      intros x Hx. apply negb_true_iff in Hx. rewrite Hx.
      destruct (Ascii.eqb x (ascii_of_nat 34)); reflexivity. }
    set (s4 := Js.replaceChar (ascii_of_nat 34) "&quot;" s3) in *.
    apply replaceChar_all; [reflexivity|]. revert H4. apply all_impl.
    intros x Hx. unfold Alphabet.markup. apply negb_true_iff in Hx. rewrite Hx.
    destruct (Ascii.eqb x "'"); reflexivity.
  - intros Hs. unfold Ui.escapeHtml.
    assert (forall c : ascii, Alphabet.htmlSpecial c = true ->
              Js.all (fun x => negb (Ascii.eqb x c)) s = true) as Hnone.
    { intros c Hc. revert Hs. apply all_impl. intros x Hx.
      destruct (Ascii.eqb_spec x c) as [->|]; [|reflexivity].
      rewrite Hc in Hx. discriminate Hx. }
    rewrite (replaceChar_absent "&") by (apply Hnone; reflexivity).
    rewrite (replaceChar_absent "<") by (apply Hnone; reflexivity).
    rewrite (replaceChar_absent ">") by (apply Hnone; reflexivity).
    rewrite (replaceChar_absent (ascii_of_nat 34)) by (apply Hnone; reflexivity).
    apply replaceChar_absent, Hnone. reflexivity.
Qed.

End Escaping.

(** ** Loading the configuration (auth-server/config.ts) *)

Section Config.
Context `{JsNumber}.
Import AuthConfig.

Lemma readInt_nonneg (env : Env) (var : string) (fallback : Z) :
  0 <= fallback -> 0 <= readInt env var fallback.
Proof.
  intros Hf. unfold readInt. destruct (env !! var) as [raw|]; [|exact Hf].
  destruct (Js.isEmpty raw); [exact Hf|].
  destruct (toNumber raw) as [n|]; [|exact Hf].
  destruct (QArith_base.Qle_bool n (QArith_base.inject_Z 0)) eqn:Hle; [exact Hf|].
  rewrite <- (Qround.Qfloor_Z 0). apply Qround.Qfloor_resp_le.
  apply QArith_base.Qlt_le_weak, QArith_base.Qnot_le_lt. intros Hn.
  apply QArith_base.Qle_bool_iff in Hn. congruence.
Qed.

Lemma readRequired_cases (env : Env) (var : string) :
  (Js.trim (default EmptyString (env !! var)) <> EmptyString
   /\ readRequired env var = Return (Js.trim (default EmptyString (env !! var))))
  \/ (Js.trim (default EmptyString (env !! var)) = EmptyString
      /\ readRequired env var = Throw ("Missing required env var: " +:+ var)).
Proof.
  unfold readRequired. destruct (env !! var) as [v|]; [|right; split; reflexivity].
  change (default EmptyString (Some v)) with v.
  destruct (Js.trim v) as [|c t] eqn:Ht.
  - right. split; [reflexivity|]. rewrite orb_true_r. reflexivity.
  - left. split; [discriminate|].
    destruct v as [|d v]; [discriminate Ht|]. reflexivity.
Qed.

Lemma lowerChar_idempotent (c : ascii) : Js.lowerChar (Js.lowerChar c) = Js.lowerChar c.
Proof. destruct c as [[] [] [] [] [] [] [] []]; reflexivity. Qed.

Lemma toLowerCase_idempotent (s : string) :
  Js.toLowerCase (Js.toLowerCase s) = Js.toLowerCase s.
Proof.
  induction s as [|c s IH]; [reflexivity|].
  cbn [Js.toLowerCase]. rewrite lowerChar_idempotent, IH. reflexivity.
Qed.

Lemma readCsvList_elem_of (env : Env) (var raw x : string) :
  env !! var = Some raw ->
  (exists l, readCsvList env var = Return l
             /\ (x ∈ l <-> x <> EmptyString
                           /\ exists piece, piece ∈ Js.splitOn "," (Js.trim raw)
                                            /\ Js.trim piece = x)).
Proof.
  intros Hraw. unfold readCsvList. rewrite Hraw. eexists. split; [reflexivity|].
  rewrite dedupe_elem_of, list_elem_of_filter, list_elem_of_In, in_map_iff.
  split.
  - intros [Ht (piece & <- & Hin)]. split.
    + intros Heq. rewrite Heq in Ht. exact Ht.
    + exists piece. split; [apply list_elem_of_In, Hin|reflexivity].
  - intros [Hne (piece & Hin & <-)]. split.
    + destruct (Js.trim piece); [congruence|exact I].
    + exists piece. split; [reflexivity|apply list_elem_of_In, Hin].
Qed.

Lemma config_loads_when (env : Env) :
  Js.trim (default EmptyString (env !! "JWT_SECRET")) <> EmptyString ->
  (exists raw piece,
      env !! "OAUTH_ALLOWED_REDIRECT_URIS" = Some raw
      /\ piece ∈ Js.splitOn "," (Js.trim raw)
      /\ Js.trim piece = chatgptRedirect) ->
  env !! "OAUTH_ALLOWED_CLIENT_METADATA_HOSTS" <> None ->
  exists cfg, getAuthServerConfig env = Return cfg.
Proof.
  intros Hs (raw & piece & Hraw & Hp & Ht) Hhosts.
  unfold getAuthServerConfig. cbv zeta.
  destruct (readRequired_cases env "JWT_SECRET") as [[_ ->]|[Hblank _]];
    [|contradiction].
  unfold readCsvSet.
  destruct (readCsvList_elem_of env _ raw chatgptRedirect Hraw) as (l & -> & Hl).
  rewrite bool_decide_eq_true_2.
  - cbn [negb]. unfold readCsvList.
    destruct (env !! "OAUTH_ALLOWED_CLIENT_METADATA_HOSTS"); [|congruence].
    eexists. reflexivity.
  - apply elem_of_list_to_set, Hl. split; [discriminate|eauto].
Qed.

(** X25. The configuration loads exactly when JWT_SECRET is set and not
    blank, OAUTH_ALLOWED_REDIRECT_URIS is set and one of its comma-separated
    entries, trimmed, is the ChatGPT connector redirect URI, and
    OAUTH_ALLOWED_CLIENT_METADATA_HOSTS is set (it may be empty); in every
    other case loading throws. *)
Theorem config_loads_iff (env : Env) :
  ((exists cfg, getAuthServerConfig env = Return cfg)
   <-> Js.trim (default EmptyString (env !! "JWT_SECRET")) <> EmptyString
       /\ (exists raw piece,
              env !! "OAUTH_ALLOWED_REDIRECT_URIS" = Some raw
              /\ piece ∈ Js.splitOn "," (Js.trim raw)
              /\ Js.trim piece = chatgptRedirect)
       /\ env !! "OAUTH_ALLOWED_CLIENT_METADATA_HOSTS" <> None)
  /\ ((exists cfg, getAuthServerConfig env = Return cfg)
      \/ exists message, getAuthServerConfig env = Throw message).
Proof.
  split; [split|].
  - intros [cfg Hcfg]. revert Hcfg. unfold getAuthServerConfig. cbv zeta.
    destruct (readRequired_cases env "JWT_SECRET") as [[Hs ->]|[Hs ->]];
      [|discriminate].
    unfold readCsvSet.
    destruct (env !! "OAUTH_ALLOWED_REDIRECT_URIS") as [raw|] eqn:Hraw.
    2:{ unfold readCsvList at 1. rewrite Hraw. discriminate. }
    destruct (readCsvList_elem_of env _ raw chatgptRedirect Hraw) as (l & -> & Hl).
    destruct (decide (chatgptRedirect ∈ l)) as [Hin|Hout].
    + rewrite bool_decide_eq_true_2 by (apply elem_of_list_to_set; exact Hin).
      cbn [negb]. unfold readCsvList.
      destruct (env !! "OAUTH_ALLOWED_CLIENT_METADATA_HOSTS") as [hosts|];
        [|discriminate].
      intros _. split; [exact Hs|]. split; [|discriminate].
      apply Hl in Hin as [_ (piece & Hp & Ht)]. eauto.
    + rewrite bool_decide_eq_false_2
        by (intros Hin; apply Hout; apply elem_of_list_to_set in Hin; exact Hin).
      discriminate.
  - intros (Hs & Huris & Hhosts). apply config_loads_when; assumption.
  - destruct (getAuthServerConfig env) as [cfg|message]; eauto.
Qed.


End Config.


(** ** The notes store and the tool callbacks (app/mcp/notesStore.ts, route.ts) *)

Section Notes.
Import NotesStore McpAuth McpRoute.

Lemma ensureSeedNotes_other (isoNow u v : string) (notes : NotesByUser) :
  v <> u -> ensureSeedNotes isoNow u notes !! v = notes !! v.
Proof.
  intros Hne. unfold ensureSeedNotes. destruct (notes !! u); [reflexivity|].
  apply lookup_insert_ne. congruence.
Qed.

Lemma ensureSeedNotes_seeded (isoNow u : string) (notes : NotesByUser) :
  is_Some (ensureSeedNotes isoNow u notes !! u).
Proof.
  unfold ensureSeedNotes. destruct (notes !! u) eqn:Hu.
  - rewrite Hu. eauto.
  - rewrite lookup_insert_eq. eauto.
Qed.

Lemma ensureSeedNotes_again (t1 t2 u : string) (notes : NotesByUser) :
  is_Some (notes !! u) -> ensureSeedNotes t2 u notes = notes.
Proof. intros [l Hl]. unfold ensureSeedNotes. rewrite Hl. reflexivity. Qed.

Lemma listNotes_other (isoNow u v : string) (notes : NotesByUser) :
  v <> u -> snd (listNotes isoNow u notes) !! v = notes !! v.
Proof. apply ensureSeedNotes_other. Qed.

Lemma addNote_other (uuid seedNow isoNow u title body v : string) (notes : NotesByUser) :
  v <> u ->
  snd (NotesWrite.addNote uuid seedNow isoNow u title body notes) !! v = notes !! v.
Proof.
  intros Hne. unfold NotesWrite.addNote. cbn [snd].
  rewrite lookup_insert_ne by congruence. apply ensureSeedNotes_other, Hne.
Qed.

(** X27. Adding a note and listing the notes. addNote names the note n_
    followed by the first ten characters of the generated identifier and
    puts it in front of the notes of the user, which are first seeded if
    the user had none; a later listNotes of this user shows the new note
    first, followed by what listNotes showed before, and seeds nothing
    more; the notes of every other user are what they were. *)
Theorem notes_add_then_list (uuid seedNow isoNow later u title body : string)
    (notes : NotesByUser) :
  let added := NotesWrite.addNote uuid seedNow isoNow u title body notes in
  fst added = "n_" +:+ NotesWrite.take 10 uuid
  /\ fst (listNotes later u (snd added))
     = {| s_id := fst added; s_title := title; s_updatedAt := isoNow |}
         :: fst (listNotes seedNow u notes)
  /\ snd (listNotes later u (snd added)) = snd added
  /\ (forall v, v <> u -> snd added !! v = notes !! v)
  /\ forall v, v <> u ->
       fst (listNotes later v (snd added)) = fst (listNotes later v notes).
Proof.
  intros added. subst added. split; [reflexivity|].
  assert (forall l, ensureSeedNotes later u (<[u := l]> (ensureSeedNotes seedNow u notes))
                    = <[u := l]> (ensureSeedNotes seedNow u notes)) as Hseeded.
  { intros l. apply (ensureSeedNotes_again later later). rewrite lookup_insert_eq. eauto. }
  split; [|split; [|split]].
  - unfold listNotes, NotesWrite.addNote. cbn [fst snd].
    rewrite Hseeded, lookup_insert_eq. reflexivity.
  - unfold listNotes, NotesWrite.addNote. cbn [fst snd]. apply Hseeded.
  - intros v Hne. apply addNote_other, Hne.
  - intros v Hne. unfold listNotes. cbn [fst]. f_equal. f_equal.
    unfold ensureSeedNotes.
    rewrite (addNote_other _ _ _ _ _ _ _ _ Hne).
    destruct (notes !! v) as [l|] eqn:Hv.
    + rewrite (addNote_other _ _ _ _ _ _ _ _ Hne). reflexivity.
    + rewrite !lookup_insert_eq. reflexivity.
Qed.

(** X28. The tool callbacks work for the subject of the auth context and
    for nobody else: notes_list, notes_add and notes_teaser leave the notes
    of every user other than the subject as they were, and without a
    context they leave the store untouched, notes_list, notes_add and
    auth_whoami answering with an error result. auth_whoami shows the name
    of the context and, when it has none, its subject. *)
Theorem tools_act_for_subject (uuid seedNow isoNow : string) (args : option json)
    (ctx : option VerifiedAuthContext) (notes : NotesByUser) :
  let after :=
    [snd (McpTools.notes_list isoNow ctx notes);
     snd (McpTools.notes_add uuid seedNow isoNow args ctx notes);
     snd (notes_teaser isoNow ctx notes)] in
  (forall notes', notes' ∈ after ->
      match ctx with
      | None => notes' = notes
      | Some c => forall v, v <> sub c -> notes' !! v = notes !! v
      end)
  /\ (ctx = None ->
      isError (fst (McpTools.notes_list isoNow ctx notes)) = true
      /\ isError (fst (McpTools.notes_add uuid seedNow isoNow args ctx notes)) = true
      /\ isError (McpTools.auth_whoami ctx) = true)
  /\ forall c, ctx = Some c ->
       isError (McpTools.auth_whoami ctx) = false
       /\ prop (Some (structuredContent (McpTools.auth_whoami ctx))) "userId"
          = Some (JStr (sub c))
       /\ prop (Some (structuredContent (McpTools.auth_whoami ctx))) "displayName"
          = Some (JStr (default (sub c) (name c))).
Proof.
  intros after. subst after. split; [|split].
  - intros notes' Hin. destruct ctx as [c|].
    + intros v Hne.
      apply elem_of_cons in Hin as [->|Hin];
        [|apply elem_of_cons in Hin as [->|Hin];
          [|apply list_elem_of_singleton in Hin as ->]].
      * unfold McpTools.notes_list.
        pose proof (listNotes_other isoNow (sub c) v notes Hne) as Hl.
        destruct (listNotes isoNow (sub c) notes) as [items notes1]. exact Hl.
      * unfold McpTools.notes_add. cbv zeta.
        pose proof (addNote_other uuid seedNow isoNow (sub c)
                      (McpTools.argText args "title") (McpTools.argText args "body")
                      v notes Hne) as Ha.
        destruct (NotesWrite.addNote _ _ _ _ _ _ _) as [noteId notes1]. exact Ha.
      * unfold notes_teaser. destruct (bool_decide _); [|reflexivity].
        pose proof (listNotes_other isoNow (sub c) v notes Hne) as Hl.
        destruct (listNotes isoNow (sub c) notes) as [items notes1]. exact Hl.
    + repeat (apply elem_of_cons in Hin as [->|Hin]; [reflexivity|]). inversion Hin.
  - intros ->. repeat split.
  - intros c ->. repeat split.
Qed.

End Notes.

(** ** The authorize endpoint (auth-server/server.ts, oauth.ts) *)

Section Authorize.
Import Store OAuth AuthorizeEndpoint.
Context `{Crypto} `{Jose} `{WebApi} `{UrlSearch}.
Variable renderAuthorizePage : Ui.PageParams -> string.

Lemma missing_false (v : option string) :
  missing v = false -> exists s, v = Some s /\ s <> EmptyString.
Proof.
  destruct v as [s|]; [|discriminate]. cbn [missing]. intros Hs.
  exists s. split; [reflexivity|apply isEmpty_false, Hs].
Qed.

(** What validateAuthorizeRequest has checked when it accepts. *)
Lemma validate_ok_inv (query : json) (config : AuthServerConfig)
    (client : option OAuthClient) (request : ValidatedAuthorizeRequest)
    (cl : OAuthClient) :
  validateAuthorizeRequest query config client = ValidateOk request cl ->
  let get k := firstString (prop (Some query) k) in
  let requested :=
    Scopes.normalizeScopes (Scopes.parseScopeParam (Some (default EmptyString (get "scope")))) in
  client = Some cl
  /\ get "client_id" = Some (req_client_id request)
  /\ get "redirect_uri" = Some (req_redirect_uri request)
  /\ get "code_challenge" = Some (req_code_challenge request)
  /\ get "code_challenge_method" = Some "S256"
  /\ get "resource" = Some (mcpResource config)
  /\ req_resource request = mcpResource config
  /\ req_redirect_uri request ∈ redirect_uris cl
  /\ req_state request = default EmptyString (get "state")
  /\ req_scopes request = requested
  /\ req_scope request = Js.join " " requested
  /\ requested <> []
  /\ Scopes.isSubsetOfSupportedScopes requested = true.
Proof.
  unfold validateAuthorizeRequest, fail. cbv zeta.
  destruct (negb (bool_decide (_ = Some "code"))); [discriminate|].
  destruct (missing (firstString (prop (Some query) "client_id"))) eqn:Hcid;
    [discriminate|].
  destruct (missing (firstString (prop (Some query) "redirect_uri"))) eqn:Hred;
    [discriminate|].
  destruct (missing (firstString (prop (Some query) "code_challenge"))) eqn:Hch;
    [discriminate|].
  destruct (missing (firstString (prop (Some query) "code_challenge_method"))) eqn:Hm;
    [discriminate|].
  destruct (missing (firstString (prop (Some query) "resource"))) eqn:Hres;
    [discriminate|].
  cbn [orb].
  apply missing_false in Hcid as (cid & -> & _).
  apply missing_false in Hred as (red & -> & _).
  apply missing_false in Hch as (ch & -> & _).
  apply missing_false in Hres as (res & -> & _).
  destruct client as [c|]; [|discriminate].
  change (default EmptyString (Some ?x)) with x.
  unfold Js.includes.
  destruct (decide (red ∈ redirect_uris c)) as [Hin|Hin];
    [rewrite (bool_decide_eq_true_2 _ Hin)|rewrite (bool_decide_eq_false_2 _ Hin);
     discriminate].
  cbn [negb].
  destruct (decide (firstString (prop (Some query) "code_challenge_method") = Some "S256"))
    as [Hs|Hs];
    [rewrite (bool_decide_eq_true_2 _ Hs)|rewrite (bool_decide_eq_false_2 _ Hs);
     discriminate].
  cbn [negb].
  destruct (decide (res = mcpResource config)) as [->|Hr];
    [rewrite bool_decide_eq_true_2 by reflexivity|rewrite (bool_decide_eq_false_2 _ Hr);
     discriminate].
  cbn [negb].
  destruct (decide (length (Scopes.normalizeScopes
                              (Scopes.parseScopeParam
                                 (Some (default EmptyString
                                          (firstString (prop (Some query) "scope"))))))
                    = 0%nat)) as [Hz|Hz];
    [rewrite (bool_decide_eq_true_2 _ Hz); discriminate|
     rewrite (bool_decide_eq_false_2 _ Hz)].
  destruct (Scopes.isSubsetOfSupportedScopes _) eqn:Hsub; [|discriminate].
  cbn [negb]. intros [= <- <-].
  cbn [req_client_id req_redirect_uri req_code_challenge req_resource req_state
       req_scopes req_scope].
  repeat (split; [first [reflexivity|assumption]|]).
  split; [|first [exact Hsub|reflexivity]].
  intros Hnil. apply Hz. rewrite Hnil. reflexivity.
Qed.

Lemma resolve_if_named
    (net : string -> list (string * string) -> FetchOutcome) (isDev : bool)
    (now createdNow : Z) (config : AuthServerConfig) (cid red : string)
    (cache : ClientMetadata.Cache) (st : State) :
  exists client cache1 st1,
    (if Js.truthy cid
     then Server.resolveClient net isDev now createdNow config cid (Some red) cache st
     else (None, cache, st)) = (client, cache1, st1)
    /\ usersByUsername st1 = usersByUsername st
    /\ authCodesByCode st1 = authCodesByCode st
    /\ (forall cl, client = Some cl ->
          fst (fst (Server.resolveClient net isDev now createdNow config cid (Some red)
                      cache st)) = Some cl).
Proof.
  destruct (Js.truthy cid).
  - pose proof (resolveClient_frame net isDev now createdNow config cid (Some red)
                  cache st) as Hframe. cbv zeta in Hframe.
    destruct (Server.resolveClient _ _ _ _ _ _ _ _ _) as [[client cache1] st1].
    exists client, cache1, st1. split; [reflexivity|]. split; [apply Hframe|].
    split; [apply Hframe|]. intros cl ->. reflexivity.
  - exists None, cache, st. split; [reflexivity|]. split; [reflexivity|].
    split; [reflexivity|]. discriminate.
Qed.

(** X29. GET /oauth2/authorize only reads: it answers 400 with a text
    that starts with invalid_request, or 200 with the consent page, and in
    both cases the users and the code records stay as they were. The page is
    only shown for a request whose client resolves, whose redirect_uri is
    one of the redirect URIs of that client, and whose resource is the
    configured one. *)
Theorem authorize_get_read_only
    (net : string -> list (string * string) -> FetchOutcome) (isDev : bool)
    (now createdNow : Z) (config : AuthServerConfig) (query : json)
    (cache : ClientMetadata.Cache) (st : State) :
  let r := getAuthorize renderAuthorizePage net isDev now createdNow config query
             cache st in
  let resolved :=
    Server.resolveClient net isDev now createdNow config
      (default EmptyString (asString (prop (Some query) "client_id")))
      (Some (default EmptyString (asString (prop (Some query) "redirect_uri"))))
      cache st in
  usersByUsername (snd r) = usersByUsername st
  /\ authCodesByCode (snd r) = authCodesByCode st
  /\ ((exists d, fst (fst r) = PlainText 400 ("invalid_request: " +:+ d))
      \/ (exists page cl redirect,
            fst (fst r) = Html 200 page
            /\ fst (fst resolved) = Some cl
            /\ firstString (prop (Some query) "redirect_uri") = Some redirect
            /\ redirect ∈ redirect_uris cl
            /\ firstString (prop (Some query) "resource") = Some (mcpResource config))).
Proof.
  intros r resolved. subst r resolved. unfold getAuthorize. cbv zeta.
  destruct (resolve_if_named net isDev now createdNow config
              (default EmptyString (asString (prop (Some query) "client_id")))
              (default EmptyString (asString (prop (Some query) "redirect_uri")))
              cache st)
    as (client & cache1 & st1 & -> & Husers & Hcodes & Hresolved).
  destruct (validateAuthorizeRequest query config client) as [request cl|err] eqn:Hv;
    cbn [fst snd].
  - split; [exact Husers|]. split; [exact Hcodes|]. right.
    destruct (validate_ok_inv _ _ _ _ _ Hv)
      as (Hcl & _ & Hred & _ & _ & Hres & _ & Hin & _).
    exists (page renderAuthorizePage cl request None), cl, (req_redirect_uri request).
    split; [reflexivity|]. split; [apply Hresolved, Hcl|].
    split; [exact Hred|]. split; [exact Hin|exact Hres].
  - split; [exact Husers|]. split; [exact Hcodes|]. left. eauto.
Qed.

Lemma renormalized_scope (scope : string) :
  let requested := Scopes.normalizeScopes (Scopes.parseScopeParam (Some scope)) in
  Scopes.formatScopeParam
    (Scopes.normalizeScopes (Scopes.parseScopeParam (Some (Js.join " " requested))))
  = Js.join " " requested.
Proof.
  intros requested. subst requested.
  rewrite parse_join_tokens.
  - unfold Scopes.formatScopeParam. rewrite !normalizeScopes_idem. reflexivity.
  - intros w [Hw _]%normalizeScopes_elem_of. apply (parseScopeParam_elem _ _ Hw).
Qed.

(** X30. POST /oauth2/authorize stores a code only on consent. The users
    are never changed. The code records are changed in one case only: the
    request validates against the resolved client, the decision is not deny,
    and the username names a user whose password is the one given; then
    exactly one record is stored, under ac_ followed by the generated
    identifier, unused, expiring authCodeTtlSec seconds later, bound to the
    client_id, the redirect_uri (one of the redirect URIs of the client),
    the code_challenge and the normalised scope of the request, to the
    configured resource and to that user. A redirect is only ever sent to
    the redirect_uri of a validated request. *)
Theorem authorize_post_issues_on_consent
    (net : string -> list (string * string) -> FetchOutcome) (isDev : bool)
    (now createdNow : Z) (uuid : string) (issuedNow : Z)
    (config : AuthServerConfig) (reqBody : option json)
    (cache : ClientMetadata.Cache) (st : State) :
  let field k := default EmptyString (asString (prop reqBody k)) in
  let r := postAuthorize renderAuthorizePage net isDev now createdNow uuid issuedNow
             config reqBody cache st in
  let resolved :=
    Server.resolveClient net isDev now createdNow config (field "client_id")
      (Some (field "redirect_uri")) cache st in
  let validated cl :=
    fst (fst resolved) = Some cl
    /\ field "redirect_uri" ∈ redirect_uris cl
    /\ field "code_challenge_method" = "S256"
    /\ field "resource" = mcpResource config in
  usersByUsername (snd r) = usersByUsername st
  /\ (authCodesByCode (snd r) = authCodesByCode st
      \/ exists cl user rec,
           validated cl
           /\ field "decision" <> "deny"
           /\ usersByUsername st !! field "username" = Some user
           /\ password user = field "password"
           /\ authCodesByCode (snd r) = <["ac_" +:+ uuid := rec]> (authCodesByCode st)
           /\ code rec = "ac_" +:+ uuid
           /\ rec_client_id rec = field "client_id"
           /\ redirect_uri rec = field "redirect_uri"
           /\ resource rec = mcpResource config
           /\ code_challenge rec = field "code_challenge"
           /\ scope rec
              = Js.join " " (Scopes.normalizeScopes
                               (Scopes.parseScopeParam (Some (field "scope"))))
           /\ Scopes.isSubsetOfSupportedScopes
                (Scopes.normalizeScopes (Scopes.parseScopeParam (Some (field "scope"))))
              = true
           /\ user_id rec = id user
           /\ used rec = false
           /\ expires_at rec = issuedNow + authCodeTtlSec config * 1000)
  /\ forall (status : Z) (location : string),
       fst (fst r) = Return (Redirect status location) ->
       status = 302
       /\ exists cl params,
            validated cl
            /\ url_with_params (field "redirect_uri") params = Some location.
Proof.
  intros field r resolved validated. subst r resolved validated.
  unfold postAuthorize. cbv zeta. rewrite !body_prop. fold (field "decision").
  fold (field "client_id"). fold (field "redirect_uri"). fold (field "state").
  fold (field "resource"). fold (field "scope"). fold (field "code_challenge").
  fold (field "code_challenge_method"). fold (field "username"). fold (field "password").
  destruct (resolve_if_named net isDev now createdNow config (field "client_id")
              (field "redirect_uri") cache st)
    as (client & cache1 & st1 & -> & Husers & Hcodes & Hresolved).
  match goal with
  | |- context [validateAuthorizeRequest ?q config client] => set (query := q)
  end.
  destruct (validateAuthorizeRequest query config client) as [request cl|err] eqn:Hv.
  2:{ cbn [fst snd]. split; [exact Husers|]. split; [left; exact Hcodes|].
      intros status location Hr. discriminate Hr. }
  destruct (validate_ok_inv _ _ _ _ _ Hv)
    as (Hcl & Hcid & Hred & Hch & Hm & Hres & Hres' & Hin & _ & _ & Hscope & _ & Hsub).
  change (firstString (prop (Some query) "client_id")) with (Some (field "client_id"))
    in Hcid.
  change (firstString (prop (Some query) "redirect_uri"))
    with (Some (field "redirect_uri")) in Hred.
  change (firstString (prop (Some query) "code_challenge"))
    with (Some (field "code_challenge")) in Hch.
  change (firstString (prop (Some query) "code_challenge_method"))
    with (Some (field "code_challenge_method")) in Hm.
  change (firstString (prop (Some query) "resource")) with (Some (field "resource"))
    in Hres.
  change (firstString (prop (Some query) "scope")) with (Some (field "scope"))
    in Hscope, Hsub.
  change (default EmptyString (Some (field "scope"))) with (field "scope")
    in Hscope, Hsub.
  injection Hcid as Hcid. injection Hred as Hred. injection Hch as Hch.
  injection Hm as Hm. injection Hres as Hres.
  assert (fst (fst (Server.resolveClient net isDev now createdNow config
                      (field "client_id") (Some (field "redirect_uri")) cache st))
          = Some cl
          /\ field "redirect_uri" ∈ redirect_uris cl
          /\ field "code_challenge_method" = "S256"
          /\ field "resource" = mcpResource config) as Hvalidated.
  { split; [apply Hresolved, Hcl|]. split; [rewrite Hred; exact Hin|].
    split; [exact Hm|exact Hres]. }
  destruct (String.eqb_spec (field "decision") "deny") as [Hdeny|Hallow].
  { cbn [fst snd]. split; [exact Husers|]. split; [left; exact Hcodes|].
    intros status location. unfold redirectWithParams.
    destruct (url_with_params (req_redirect_uri request) _) as [loc|] eqn:Hloc;
      [|discriminate].
    intros [= <- <-]. split; [reflexivity|]. exists cl. eexists.
    split; [exact Hvalidated|]. rewrite Hred. exact Hloc. }
  rewrite Husers.
  destruct (usersByUsername st !! field "username") as [user|] eqn:Huser.
  2:{ cbn [fst snd]. split; [exact Husers|]. split; [left; exact Hcodes|].
      intros status location Hr. discriminate Hr. }
  destruct (String.eqb_spec (password user) (field "password")) as [Hpw|Hpw];
    cbn [negb].
  2:{ cbn [fst snd]. split; [exact Husers|]. split; [left; exact Hcodes|].
      intros status location Hr. discriminate Hr. }
  unfold issueAuthorizationCode, saveAuthCode.
  cbn [fst snd usersByUsername authCodesByCode with_codes code req_client_id
       req_redirect_uri req_resource req_scope req_code_challenge].
  split; [exact Husers|]. split.
  - right. exists cl, user. eexists. split; [exact Hvalidated|].
    split; [exact Hallow|]. split; [reflexivity|]. split; [exact Hpw|].
    split; [rewrite Hcodes; reflexivity|].
    cbn [code rec_client_id redirect_uri resource code_challenge scope user_id used
         expires_at].
    split; [reflexivity|]. split; [symmetry; exact Hcid|].
    split; [symmetry; exact Hred|]. split; [exact Hres'|].
    split; [symmetry; exact Hch|]. split.
    { rewrite Hscope. apply renormalized_scope. }
    split; [exact Hsub|]. repeat split.
  - intros status location. unfold redirectWithParams.
    destruct (url_with_params (req_redirect_uri request) _) as [loc|] eqn:Hloc;
      [|discriminate].
    intros [= <- <-]. split; [reflexivity|]. exists cl. eexists.
    split; [exact Hvalidated|]. rewrite Hred. exact Hloc.
Qed.

End Authorize.
